(** * Dyna-Warehouse: catalog ingestion and the dynamic pricing engine

    A shallow embedding of [warehouse/data_loader.py], [warehouse/models.py]
    and [warehouse/pricing_engine.py], with the properties the specification
    states about them.

    Modelling conventions.
    - Python [str] values are [string]s over code points below 256.
    - Python [int] values are [Z]; list lengths and indices are [nat].
    - Python [float] values are modelled by the real numbers [R]: arithmetic
      is exact, so rounding error, overflow and NaN are outside the model.
      The operators that can raise on reals ([**], indexing) return a
      [result].
    - The pseudo-random generator and the wall clock are explicit state:
      a tape of raw draws, respectively of clock readings, with a cursor. *)

From Stdlib Require Import ZArith List Bool Arith Lia.
From Stdlib Require Import Ascii String DecimalString.
From Stdlib Require Import Reals Lra Psatz.
From Stdlib Require Import Permutation Sorted.
Import ListNotations.

Set Implicit Arguments.

(* ================================================================== *)
(** * Python built-ins used by the sources *)
(* ================================================================== *)

Module Py.

(** ** Exceptions *)

Inductive exn : Type :=
| ZeroDivisionError
| TypeError
| ValueError
| IndexError
| KeyError.

Inductive result (A : Type) : Type :=
| Ok (a : A)
| Raise (e : exn).

Arguments Ok {A} a.
Arguments Raise {A} e.

Definition bind {A B : Type} (m : result A) (k : A -> result B) : result B :=
  match m with
  | Ok a => k a
  | Raise e => Raise e
  end.

(** ** Strings *)

Local Open Scope string_scope.

Definition code (c : ascii) : nat := nat_of_ascii c.

(** [str.lower] on one code point below 256: A-Z, and the Latin-1 capitals
    U+00C0..U+00DE except the multiplication sign U+00D7. *)
Definition lower_char (c : ascii) : ascii :=
  let n := code c in
  if ((65 <=? n) && (n <=? 90))%nat then ascii_of_nat (n + 32)
  else if ((192 <=? n) && (n <=? 222) && negb (n =? 215))%nat
       then ascii_of_nat (n + 32)
  else c.

Fixpoint lower (s : string) : string :=
  match s with
  | EmptyString => EmptyString
  | String c t => String (lower_char c) (lower t)
  end.

(** [sub in s] *)
Fixpoint contains (sub s : string) : bool :=
  if prefix sub s then true
  else match s with
       | EmptyString => false
       | String _ t => contains sub t
       end.

(** Index of the first occurrence of [sub] in [s], if any. *)
Fixpoint find0 (sub s : string) : option nat :=
  if prefix sub s then Some 0%nat
  else match s with
       | EmptyString => None
       | String _ t => option_map S (find0 sub t)
       end.

Fixpoint drop (n : nat) (s : string) : string :=
  match n, s with
  | O, _ => s
  | S n', EmptyString => EmptyString
  | S n', String _ t => drop n' t
  end.

Definition len (s : string) : Z := Z.of_nat (String.length s).

(** [s.find(sub, start)] for [start >= 0]: the lowest index at or after
    [start] where [sub] occurs, or [-1]. *)
Definition find (s sub : string) (start : Z) : Z :=
  if (len s <? start)%Z then (-1)%Z
  else match find0 sub (drop (Z.to_nat start) s) with
       | Some i => (start + Z.of_nat i)%Z
       | None => (-1)%Z
       end.

(** Slice bounds as Python normalises them: a negative bound counts from the
    end, and both are clamped to [0, len]. *)
Definition clamp (n i : Z) : Z :=
  if (i <? 0)%Z then Z.max 0 (n + i) else Z.min i n.

(** [s[a:b]] *)
Definition slice (s : string) (a b : Z) : string :=
  let a' := clamp (len s) a in
  let b' := clamp (len s) b in
  substring (Z.to_nat a') (Z.to_nat (b' - a')) s.

(** [s[:n]] *)
Definition take (n : nat) (s : string) : string := substring 0 n s.

(** [str.isspace] on one code point below 256. *)
Definition is_space (c : ascii) : bool :=
  let n := code c in
  (((9 <=? n) && (n <=? 13)) || ((28 <=? n) && (n <=? 32))
   || (n =? 133) || (n =? 160))%nat.

Fixpoint lstrip (s : string) : string :=
  match s with
  | EmptyString => EmptyString
  | String c t => if is_space c then lstrip t else s
  end.

Fixpoint rstrip (s : string) : string :=
  match s with
  | EmptyString => EmptyString
  | String c t =>
      match rstrip t with
      | EmptyString => if is_space c then EmptyString else String c EmptyString
      | t' => String c t'
      end
  end.

(** [s.strip()] *)
Definition strip (s : string) : string := rstrip (lstrip s).

Definition newline : ascii := ascii_of_nat 10.

(** [s.replace("\n", " ")] *)
Fixpoint replace_newlines (s : string) : string :=
  match s with
  | EmptyString => EmptyString
  | String c t =>
      String (if Ascii.eqb c newline then " "%char else c) (replace_newlines t)
  end.

(** Truthiness of a string: [not s] holds of the empty string only. *)
Definition truthy (s : string) : bool :=
  match s with
  | EmptyString => false
  | String _ _ => true
  end.

(** [f"{i}"] for a non-negative integer. *)
Definition str_of_nat (i : nat) : string :=
  NilZero.string_of_uint (Nat.to_uint i).

(** ** Lists *)

Fixpoint update {A : Type} (l : list A) (j : nat) (x : A) : list A :=
  match l, j with
  | [], _ => []
  | _ :: t, O => x :: t
  | h :: t, S j' => h :: update t j' x
  end.

(** [l[j]] with Python's negative indices and [IndexError]. *)
Definition getitem {A : Type} (l : list A) (j : Z) : result A :=
  let n := Z.of_nat (List.length l) in
  let k := if (j <? 0)%Z then (n + j)%Z else j in
  if ((0 <=? k) && (k <? n))%Z then
    match nth_error l (Z.to_nat k) with
    | Some x => Ok x
    | None => Raise IndexError
    end
  else Raise IndexError.

(** [l[j] = x] *)
Definition setitem {A : Type} (l : list A) (j : Z) (x : A) : result (list A) :=
  let n := Z.of_nat (List.length l) in
  let k := if (j <? 0)%Z then (n + j)%Z else j in
  if ((0 <=? k) && (k <? n))%Z then Ok (update l (Z.to_nat k) x)
  else Raise IndexError.

Fixpoint mapM {A B : Type} (f : A -> result B) (l : list A) : result (list B) :=
  match l with
  | [] => Ok []
  | x :: t =>
      bind (f x) (fun y => bind (mapM f t) (fun ys => Ok (y :: ys)))
  end.

(** ** Dictionaries: insertion-ordered, one entry per key *)

Section Dict.
Variable V : Type.

Definition dict : Type := list (string * V).

Fixpoint dict_find (d : dict) (k : string) : option V :=
  match d with
  | [] => None
  | (k', v) :: t => if String.eqb k' k then Some v else dict_find t k
  end.

(** [d.get(k, default)] *)
Definition dict_get (d : dict) (k : string) (default : V) : V :=
  match dict_find d k with
  | Some v => v
  | None => default
  end.

(** [d[k]] *)
Definition dict_lookup (d : dict) (k : string) : result V :=
  match dict_find d k with
  | Some v => Ok v
  | None => Raise KeyError
  end.

(** [k in d] *)
Definition dict_mem (d : dict) (k : string) : bool :=
  match dict_find d k with
  | Some _ => true
  | None => false
  end.

(** [d[k] = v]: a present key keeps its place, a new key goes last. *)
Fixpoint dict_set (d : dict) (k : string) (v : V) : dict :=
  match d with
  | [] => [(k, v)]
  | (k', v') :: t =>
      if String.eqb k' k then (k', v) :: t else (k', v') :: dict_set t k v
  end.

End Dict.

(** ** Floats, as real numbers *)

Local Open Scope R_scope.

(** [x / y] *)
Definition fdiv (x y : R) : result R :=
  if Req_dec_T y 0 then Raise ZeroDivisionError else Ok (x / y).

(** [x ** y].  A negative base with a fractional exponent gives a complex
    number in Python, which no caller in this program accepts ([max] raises
    [TypeError] on it); the model raises at once. *)
Definition float_pow (x y : R) : result R :=
  if Req_dec_T y 0 then Ok 1
  else if Req_dec_T x 0 then
    if Rlt_dec y 0 then Raise ZeroDivisionError else Ok 0
  else if Rlt_dec x 0 then
    if Req_dec_T (IZR (Int_part y)) y then Ok (powerRZ x (Int_part y))
    else Raise TypeError
  else Ok (Rpower x y).

(** Nearest integer, ties to the even one. *)
Definition round_half_even (x : R) : Z :=
  let n := Int_part x in
  let f := frac_part x in
  if Rlt_dec f (1 / 2) then n
  else if Rlt_dec (1 / 2) f then (n + 1)%Z
  else if Z.even n then n else (n + 1)%Z.

(** [round(x, ndigits)] *)
Definition round_ndigits (x : R) (ndigits : nat) : R :=
  IZR (round_half_even (x * 10 ^ ndigits)) / 10 ^ ndigits.

(** [sum(l)] *)
Definition fsum (l : list R) : R := fold_left Rplus l 0.

(** [max(l)] and [min(l)] *)
Definition max_list (l : list R) : result R :=
  match l with
  | [] => Raise ValueError
  | x :: t => Ok (fold_left Rmax t x)
  end.

Definition min_list (l : list R) : result R :=
  match l with
  | [] => Raise ValueError
  | x :: t => Ok (fold_left Rmin t x)
  end.

(** A float that may be [float("-inf")], the one non-real value the
    program writes down. *)
Inductive xfloat : Type :=
| NegInf
| Fin (x : R).

(** [x > b] for a real [x] *)
Definition gt_xfloat (x : R) (b : xfloat) : bool :=
  match b with
  | NegInf => true
  | Fin y => if Rgt_dec x y then true else false
  end.

(** [a or b] on an optional integer: [None] and [0] are falsy. *)
Definition or_int (a : option Z) (b : Z) : Z :=
  match a with
  | Some n => if (n =? 0)%Z then b else n
  | None => b
  end.




(** [l[a:b]] and [l[a:]] on lists. *)
Definition slice_list {A : Type} (l : list A) (a b : Z) : list A :=
  let n := Z.of_nat (List.length l) in
  let a' := clamp n a in
  let b' := clamp n b in
  firstn (Z.to_nat (b' - a')) (skipn (Z.to_nat a') l).

Definition slice_from {A : Type} (l : list A) (a : Z) : list A :=
  skipn (Z.to_nat (clamp (Z.of_nat (List.length l)) a)) l.




(** ** The pseudo-random generator

    A [random.Random] object is a tape of raw draws and a cursor; every
    call consumes one cell.  The Mersenne Twister itself is not modelled:
    the tape a seed yields is a parameter of whoever seeds a generator. *)

Record Rng : Type := mkRng { tape : nat -> N; cursor : nat }.

Definition next_raw (g : Rng) : N * Rng :=
  (tape g (cursor g), mkRng (tape g) (S (cursor g))).

(** [g.randint(a, b)]: an integer of [a..b], both ends included. *)
Definition randint (a b : Z) (g : Rng) : result (Z * Rng) :=
  if (b <? a)%Z then Raise ValueError
  else let (w, g') := next_raw g in
       Ok ((a + Z.of_N w mod (b - a + 1))%Z, g').

(** [g.random()]: a multiple of 2^-53 in [0, 1). *)
Definition random (g : Rng) : R * Rng :=
  let (w, g') := next_raw g in
  (IZR (Z.of_N w mod 2 ^ 53) / IZR (2 ^ 53), g').

(** [g.uniform(a, b)] *)
Definition uniform (a b : R) (g : Rng) : R * Rng :=
  let (u, g') := random g in (a + (b - a) * u, g').

(** ** The wall clock

    [datetime.now().isoformat()] reads the next cell of a tape of
    readings. *)

Record Clock : Type := mkClock { readings : nat -> string; ticks : nat }.

Definition now (c : Clock) : string * Clock :=
  (readings c (ticks c), mkClock (readings c) (S (ticks c))).

End Py.

Notation "x <- m ;; k" := (Py.bind m (fun x => k))
  (at level 61, m at next level, right associativity).
Notation "' p <- m ;; k" := (Py.bind m (fun x => match x with p => k end))
  (at level 61, p pattern, m at next level, right associativity).

(* ================================================================== *)
(** * warehouse/models.py *)
(* ================================================================== *)

Module Models.
Import Py.

(** A product from the warehouse catalog. *)
Module Product.
Record t : Type := mk {
  sample_id : Z;
  name : string;
  price : R;
  category : string;
  unit : string;
  value : string;
  image_link : string;
  bullet_points : string;
  description : string
}.

(** Return a truncated name for table display. *)
Definition display_name (self : t) : string :=
  if (55 <? len (name self))%Z then (take 52 (name self) ++ "...")%string
  else name self.
End Product.

(** Current market state for a product. *)
Module MarketState.
Record t : Type := mk {
  product_id : Z;
  current_price : R;
  competitor_price : R;
  inventory_level : Z;
  user_engagement : R;
  seasonal_factor : R;
  demand_elasticity : R;
  timestamp : string
}.

(** The dataclass constructor followed by [__post_init__]: an empty
    timestamp is replaced by the clock's reading. *)
Definition init (product_id : Z) (current_price competitor_price : R)
    (inventory_level : Z)
    (user_engagement seasonal_factor demand_elasticity : R)
    (timestamp : string) (clk : Clock) : t * Clock :=
  if truthy timestamp then
    (mk product_id current_price competitor_price inventory_level
        user_engagement seasonal_factor demand_elasticity timestamp, clk)
  else
    let (ts, clk') := now clk in
    (mk product_id current_price competitor_price inventory_level
        user_engagement seasonal_factor demand_elasticity ts, clk').
End MarketState.

(** A pricing decision record. *)
Module PricingAction.
Record t : Type := mk {
  product_id : Z;
  product_name : string;
  old_price : R;
  new_price : R;
  reward : R;
  profit_component : R;
  competitive_component : R;
  stability_component : R;
  inventory_component : R;
  step : Z;
  timestamp : string
}.

Definition init (product_id : Z) (product_name : string)
    (old_price new_price reward profit_component competitive_component
       stability_component inventory_component : R)
    (step : Z) (timestamp : string) (clk : Clock) : t * Clock :=
  if truthy timestamp then
    (mk product_id product_name old_price new_price reward profit_component
        competitive_component stability_component inventory_component
        step timestamp, clk)
  else
    let (ts, clk') := now clk in
    (mk product_id product_name old_price new_price reward profit_component
        competitive_component stability_component inventory_component
        step ts, clk').

(** [action.step = n] *)
Definition set_step (a : t) (n : Z) : t :=
  mk (product_id a) (product_name a) (old_price a) (new_price a) (reward a)
     (profit_component a) (competitive_component a) (stability_component a)
     (inventory_component a) n (timestamp a).

Definition price_change_pct (self : t) : result R :=
  if Req_dec_T (old_price self) 0 then Ok 0.0%R
  else
    q <- fdiv (new_price self - old_price self) (old_price self) ;;
    Ok (q * 100)%R.

(** The three glyphs [direction] returns: an up-pointing triangle, a
    down-pointing triangle, a horizontal bar. *)
Inductive glyph : Type := Up | Down | Flat.

Definition direction (self : t) : glyph :=
  if Rgt_dec (new_price self) (old_price self) then Up
  else if Rlt_dec (new_price self) (old_price self) then Down
  else Flat.
End PricingAction.

(** Result of a full pricing simulation run. *)
Module SimulationResult.
Record t : Type := mk {
  product_id : Z;
  product_name : string;
  actions : list PricingAction.t;
  total_reward : R;
  avg_reward : R;
  final_price : R;
  initial_price : R;
  max_price : R;
  min_price : R;
  steps : Z
}.

Definition price_change_pct (self : t) : result R :=
  if Req_dec_T (initial_price self) 0 then Ok 0.0%R
  else
    q <- fdiv (final_price self - initial_price self) (initial_price self) ;;
    Ok (q * 100)%R.
End SimulationResult.

(** Application settings. *)
Module AppSettings.
Record t : Type := mk {
  alpha : R;
  beta : R;
  gamma : R;
  delta : R;
  default_steps : Z;
  price_adjustment_range : R;
  max_catalog_rows : Z;
  theme : string
}.

(** [AppSettings()] *)
Definition default : t :=
  mk 0.40 0.25 0.20 0.15 30 0.15 500 "warehouse_dark".

Local Open Scope string_scope.

(** A value of the settings document: a float, an integer or a string. *)
Inductive value : Type :=
| VFloat (x : R)
| VInt (n : Z)
| VStr (s : string).

Definition to_dict (self : t) : dict value :=
  [ ("alpha", VFloat (alpha self));
    ("beta", VFloat (beta self));
    ("gamma", VFloat (gamma self));
    ("delta", VFloat (delta self));
    ("default_steps", VInt (default_steps self));
    ("price_adjustment_range", VFloat (price_adjustment_range self));
    ("max_catalog_rows", VInt (max_catalog_rows self));
    ("theme", VStr (theme self)) ].

(** The names of [__dataclass_fields__]. *)
Definition field_names : list string :=
  [ "alpha"; "beta"; "gamma"; "delta"; "default_steps";
    "price_adjustment_range"; "max_catalog_rows"; "theme" ].

(** One keyword argument of the constructor call: the value of the key when the
    document has it, the field's default otherwise.  Python stores a value
    of any type in the field; the typed record holds a float, an integer
    or a string, so a value of another type than the field's has no image
    here and yields [None]. *)
Definition float_field (data : dict value) (k : string) (default : R)
  : option R :=
  match dict_find data k with
  | None => Some default
  | Some (VFloat x) => Some x
  | Some (VInt n) => Some (IZR n)
  | Some (VStr _) => None
  end.

Definition int_field (data : dict value) (k : string) (default : Z)
  : option Z :=
  match dict_find data k with
  | None => Some default
  | Some (VInt n) => Some n
  | Some _ => None
  end.

Definition str_field (data : dict value) (k : string) (default : string)
  : option string :=
  match dict_find data k with
  | None => Some default
  | Some (VStr x) => Some x
  | Some _ => None
  end.

(** [AppSettings.from_dict(data)]: the keys that name a field become
    keyword arguments, the others are dropped. *)
Definition from_dict (data : dict value) : option t :=
  match float_field data "alpha" (alpha default),
        float_field data "beta" (beta default),
        float_field data "gamma" (gamma default),
        float_field data "delta" (delta default),
        int_field data "default_steps" (default_steps default),
        float_field data "price_adjustment_range"
          (price_adjustment_range default),
        int_field data "max_catalog_rows" (max_catalog_rows default),
        str_field data "theme" (theme default)
  with
  | Some a, Some b, Some c, Some d, Some n, Some r, Some m, Some th =>
      Some (mk a b c d n r m th)
  | _, _, _, _, _, _, _, _ => None
  end.
End AppSettings.

End Models.

(* ================================================================== *)
(** * warehouse/data_loader.py: classification and field extraction *)
(* ================================================================== *)

Module DataLoader.
Import Py Models.

Local Open Scope string_scope.

(** Hard cap for UI performance. *)
Definition MAX_PRODUCTS : nat := Z.to_nat 10000.

(** Category keywords, in declaration order. *)
Definition _CAT_RULES : list (string * list string) :=
  [ ("Coffee & Tea", ["coffee"; "tea"; "espresso"; "latte"; "brew"; "chai"; "matcha"]);
    ("Beverages", ["water"; "juice"; "soda"; "drink"; "beverage"; "cola"; "lemonade"]);
    ("Snacks & Chips", ["chip"; "snack"; "pretzel"; "popcorn"; "cracker"; "cookie"; "nuts"]);
    ("Candy & Sweets", ["candy"; "chocolate"; "gum"; "mint"; "sweet"; "gummy"; "caramel"]);
    ("Spices & Seasoning", ["spice"; "seasoning"; "pepper"; "salt"; "cinnamon"; "cumin"; "paprika"]);
    ("Health & Wellness", ["vitamin"; "supplement"; "protein"; "organic"; "health"; "probiotic"]);
    ("Dairy & Refrigerated", ["milk"; "cheese"; "yogurt"; "butter"; "cream"; "dairy"; "egg"]);
    ("Canned & Packaged", ["canned"; "soup"; "sauce"; "paste"; "jar"; "broth"; "stock"]);
    ("Baking & Cooking", ["flour"; "sugar"; "baking"; "yeast"; "vanilla"; "cocoa"; "mix"]) ].

(** The inner loop of [_classify]: does some keyword of the rule occur? *)
Fixpoint any_keyword_in (kws : list string) (name_lower : string) : bool :=
  match kws with
  | [] => false
  | kw :: rest =>
      if contains kw name_lower then true else any_keyword_in rest name_lower
  end.

(** The outer loop of [_classify], over the rules still to be tried. *)
Fixpoint classify_with (rules : list (string * list string))
    (name_lower : string) : string :=
  match rules with
  | [] => "Other"
  | (cat, kws) :: rest =>
      if any_keyword_in kws name_lower then cat
      else classify_with rest name_lower
  end.

Definition _classify (name_lower : string) : string :=
  classify_with _CAT_RULES name_lower.

(** The classifier as [load_and_cache] calls it: [_classify(name.lower())]. *)
Definition classify (name : string) : string := _classify (lower name).

(** [_fast_parse_catalog]: name, bullets, desc by plain string search. *)
Definition _fast_parse_catalog (raw : string) : string * string * string :=
  if negb (truthy raw) then ("", "", "")
  else
    let low := lower raw in
    let ni := find low "item_name" 0 in
    let bi := find low "bullet_point" 0 in
    let di := find low "product_description" 0 in
    let name :=
      if (0 <=? ni)%Z then
        let start := (find raw ":" ni + 1)%Z in
        let end_ := if (start <? bi)%Z then bi
                    else if (start <? di)%Z then di else len raw in
        take 120 (strip (slice raw start end_))
      else "" in
    let bullets :=
      if (0 <=? bi)%Z then
        let start := (find raw ":" bi + 1)%Z in
        let end_ := if (start <? di)%Z then di else len raw in
        take 200 (strip (slice raw start end_))
      else "" in
    let desc :=
      if (0 <=? di)%Z then
        let start := (find raw ":" di + 1)%Z in
        take 300 (strip (slice raw start (len raw)))
      else "" in
    let name :=
      if negb (truthy name) then replace_newlines (strip (take 80 raw))
      else name in
    (name, bullets, desc).

(** ** Rows of the CSV reader

    A row is what [csv.DictReader] yields, each numeric cell read through
    the conversion the loop applies to it: the column is absent, the text
    converts, or the conversion raises. *)

Inductive cell (A : Type) : Type :=
| Missing
| Value (a : A)
| Malformed.

Arguments Missing {A}.
Arguments Value {A} a.
Arguments Malformed {A}.

Module Row.
Record t : Type := mk {
  catalog_content : string;
  price : cell R;
  sample_id : cell Z;
  unit : string;
  value : string;
  image_link : string
}.
End Row.

(** The body of the reading loop up to the [Product(...)] call.  A price
    that does not convert is 0.0 ([try]/[except]); a sample id that does
    not convert raises out of the loop. *)
Definition product_of_row (i : nat) (row : Row.t) : result Product.t :=
  let '(name, bullets, desc) := _fast_parse_catalog (Row.catalog_content row) in
  let price := match Row.price row with
               | Value x => x
               | Missing => 0%R
               | Malformed => 0.0%R
               end in
  sid <- match Row.sample_id row with
         | Value z => Ok z
         | Missing => Ok (Z.of_nat i)
         | Malformed => Raise ValueError
         end ;;
  Ok (Product.mk sid
        (if truthy name then name else "Product " ++ str_of_nat i)
        price
        (_classify (lower name))
        (Row.unit row) (Row.value row) (Row.image_link row)
        bullets desc).


(** ** Reservoir sampling *)

(** The state of the reading loop: the reservoir, the rows counted, and
    the module-level generator of [random]. *)
Definition loop_state : Type := (list Product.t * nat * Rng)%type.

(** One iteration of [for i, row in enumerate(reader)], for capacity [K]. *)
Definition loop_body (K : nat) (st : loop_state) (i : nat) (row : Row.t)
  : result loop_state :=
  let '(reservoir, total_rows, g) := st in
  let total_rows := S total_rows in
  product <- product_of_row i row ;;
  if (List.length reservoir <? K)%nat then
    Ok ((reservoir ++ [product])%list, total_rows, g)
  else
    '(j, g') <- randint 0 (Z.of_nat i) g ;;
    if (j <? Z.of_nat K)%Z then
      reservoir' <- setitem reservoir j product ;;
      Ok (reservoir', total_rows, g')
    else Ok (reservoir, total_rows, g').

Fixpoint loop_from (K : nat) (rows : list Row.t) (i : nat) (st : loop_state)
  : result loop_state :=
  match rows with
  | [] => Ok st
  | row :: rest =>
      st' <- loop_body K st i row ;;
      loop_from K rest (S i) st'
  end.

Definition read_rows (K : nat) (rows : list Row.t) (g : Rng)
  : result loop_state :=
  loop_from K rows 0 ([], 0%nat, g).

(** ** Statistics *)

(** All data: precomputed, cached. *)
Module PrecomputedData.
Record t : Type := mk {
  products : list Product.t;
  category_counts : dict Z;
  category_avg_prices : dict R;
  category_min_prices : dict R;
  category_max_prices : dict R;
  total_products : Z;
  total_in_csv : Z;
  priced_products : Z;
  avg_price : R;
  median_price : R;
  min_price : R;
  max_price : R;
  std_price : R;
  zero_price_count : Z
}.

(** [PrecomputedData()] *)
Definition empty : t := mk [] [] [] [] [] 0 0 0 0.0 0.0 0.0 0.0 0.0 0.
End PrecomputedData.

(** The accumulators of the single pass over the reservoir. *)
Record accum : Type := mkAccum {
  cat_counts : dict Z;
  cat_sums : dict R;
  cat_cnts : dict Z;
  cat_mins : dict R;
  cat_maxs : dict R;
  prices : list R
}.

Definition accum0 : accum := mkAccum [] [] [] [] [] [].

(** One iteration of [for p in reservoir]. *)
Definition accum_body (a : accum) (p : Product.t) : accum :=
  let c := Product.category p in
  let x := Product.price p in
  let counts := dict_set (cat_counts a) c (dict_get (cat_counts a) c 0 + 1)%Z in
  if Rlt_dec 0 x then
    mkAccum counts
      (dict_set (cat_sums a) c (dict_get (cat_sums a) c 0 + x)%R)
      (dict_set (cat_cnts a) c (dict_get (cat_cnts a) c 0 + 1)%Z)
      (match dict_find (cat_mins a) c with
       | None => dict_set (cat_mins a) c x
       | Some m => if Rlt_dec x m then dict_set (cat_mins a) c x
                   else cat_mins a
       end)
      (match dict_find (cat_maxs a) c with
       | None => dict_set (cat_maxs a) c x
       | Some m => if Rlt_dec m x then dict_set (cat_maxs a) c x
                   else cat_maxs a
       end)
      (prices a ++ [x])%list
  else
    mkAccum counts (cat_sums a) (cat_cnts a) (cat_mins a) (cat_maxs a)
      (prices a).

Definition accumulate (reservoir : list Product.t) : accum :=
  fold_left accum_body reservoir accum0.

(** [sorted(items, key=lambda x: x[1], reverse=True)]: stable, so entries
    with equal counts keep their order. *)
Fixpoint insert_by_count (x : string * Z) (l : list (string * Z))
  : list (string * Z) :=
  match l with
  | [] => [x]
  | y :: t =>
      if (snd y <=? snd x)%Z then x :: l else y :: insert_by_count x t
  end.

Definition sorted_by_count (l : list (string * Z)) : list (string * Z) :=
  fold_right insert_by_count [] l.

(** [prices.sort()] *)
Fixpoint insert_float (x : R) (l : list R) : list R :=
  match l with
  | [] => [x]
  | y :: t => if Rle_dec x y then x :: l else y :: insert_float x t
  end.

Definition sort_floats (l : list R) : list R :=
  fold_right insert_float [] l.

(** The global price statistics: (avg, median, min, max, std), all 0.0 when
    no record is priced. *)
Definition price_stats (prices : list R) : result (R * R * R * R * R) :=
  match prices with
  | [] => Ok (0.0, 0.0, 0.0, 0.0, 0.0)%R
  | _ :: _ =>
      let prices := sort_floats prices in
      let n := List.length prices in
      avg <- fdiv (fsum prices) (INR n) ;;
      median <- getitem prices (Z.of_nat n / 2) ;;
      lo <- getitem prices 0 ;;
      hi <- getitem prices (-1) ;;
      squares <- mapM (fun x => float_pow (x - avg) 2) prices ;;
      var <- fdiv (fsum squares) (INR n) ;;
      std <- float_pow var 0.5 ;;
      Ok (avg, median, lo, hi, std)
  end.

(** The statistics pass of [load_and_cache] over a filled reservoir. *)
Definition compute_stats (reservoir : list Product.t) (total_rows : nat)
  : result PrecomputedData.t :=
  let total_products := Z.of_nat (List.length reservoir) in
  let a := accumulate reservoir in
  avgs <- mapM (fun kv : string * Z =>
                  s <- dict_lookup (cat_sums a) (fst kv) ;;
                  q <- fdiv s (IZR (snd kv)) ;;
                  Ok (fst kv, q))
               (cat_cnts a) ;;
  let priced_products := Z.of_nat (List.length (prices a)) in
  '(avg, median, lo, hi, std) <- price_stats (prices a) ;;
  Ok (PrecomputedData.mk reservoir
        (sorted_by_count (cat_counts a))
        avgs (cat_mins a) (cat_maxs a)
        total_products (Z.of_nat total_rows) priced_products
        avg median lo hi std
        (total_products - priced_products)).

(** [load_and_cache] on a cache miss, as a function of the rows the reader
    yields and of the generator's state.  Reading and writing the pickle
    file is outside the model. *)
Definition load_with (K : nat) (rows : list Row.t) (g : Rng)
  : result PrecomputedData.t :=
  '(reservoir, total_rows, _) <- read_rows K rows g ;;
  compute_stats reservoir total_rows.

Definition load_and_cache (rows : list Row.t) (g : Rng)
  : result PrecomputedData.t :=
  load_with MAX_PRODUCTS rows g.

(** ** The pickle file

    The file [_cache_key] names for a catalogue: [None] when it does not
    exist, cannot be unpickled or does not hold a [PrecomputedData], the
    snapshot it holds otherwise.  The name is a digest of the catalogue's
    file name, size and modification time; the digest is not modelled, a
    [cache_file] is the file of one such name. *)
Definition cache_file : Type := option PrecomputedData.t.

(** [load_and_cache] with its file: the snapshot returned and the file as
    the call leaves it.  [dump_ok] tells whether [pickle.dump] succeeds; a
    failed write is swallowed, and leaves a file the next call does not
    serve either (the call writes only after a miss; the model keeps the
    file as it was). *)
Definition load_and_cache_file (cache : cache_file) (dump_ok : bool)
    (rows : list Row.t) (g : Rng)
  : result (PrecomputedData.t * cache_file) :=
  let miss :=
    data <- load_and_cache rows g ;;
    Ok (data, if dump_ok then Some data else cache) in
  match cache with
  | Some data =>
      if (0 <? PrecomputedData.total_products data)%Z then Ok (data, cache)
      else miss
  | None => miss
  end.

(** Generate a simulated market state for a product.  [Random] stands for
    [random.Random], the generator a seed yields. *)
Definition generate_market_state (Random : Z -> Rng) (product : Product.t)
    (seed : option Z) (clk : Clock) : result (MarketState.t * Clock) :=
  let rng := Random (match seed with
                     | Some n => n
                     | None => Product.sample_id product
                     end) in
  let base := if Rgt_dec (Product.price product) 0
              then Product.price product else 10.0%R in
  let (u, rng) := uniform (-0.20)%R 0.20%R rng in
  '(inventory, rng) <- randint 5 500 rng ;;
  let (engagement, rng) := uniform 0.1%R 1.0%R rng in
  let (seasonal, rng) := uniform 0.5%R 2.0%R rng in
  let (elasticity, rng) := uniform (-3.0)%R (-0.5)%R rng in
  Ok (MarketState.init (Product.sample_id product) base
        (round_ndigits (base * (1 + u))%R 2) inventory
        (round_ndigits engagement 2) (round_ndigits seasonal 2)
        (round_ndigits elasticity 2) "" clk).

End DataLoader.

(* ================================================================== *)
(** * warehouse/pricing_engine.py *)
(* ================================================================== *)

Module PricingEngine.
Import Py Models.

Local Open Scope R_scope.

(** Implements the autonomous pricing logic: the object's two fields. *)
Record DynamicPricingEngine : Type := mkEngine {
  settings : AppSettings.t;
  _rng : Rng
}.

(** [DynamicPricingEngine(settings)]; [Random] stands for
    [random.Random], the generator a seed yields. *)
Definition init (Random : Z -> Rng) (settings : option AppSettings.t)
  : DynamicPricingEngine :=
  mkEngine (match settings with
            | Some s => s
            | None => AppSettings.default
            end)
           (Random 42%Z).

(** Estimate product cost as ~60% of list price. *)
Definition _estimate_cost (price : R) : R := price * 0.60.

(** demand = base_demand x (price / base_price) ^ elasticity x seasonal
    x engagement *)
Definition _demand_function (price base_price elasticity seasonal
    engagement : R) : result R :=
  if Rle_dec base_price 0 then Ok 0.0
  else if Rle_dec price 0 then Ok 0.0
  else
    let base_demand := 100.0 in
    price_ratio <- fdiv price base_price ;;
    power <- float_pow price_ratio elasticity ;;
    let demand := base_demand * power * seasonal * engagement in
    Ok (Rmax 0.0 demand).

(** The multi-component reward: (total_reward, profit_component,
    competitive_penalty, stability_penalty, inventory_penalty). *)
Definition compute_reward (self : DynamicPricingEngine)
    (old_price new_price : R) (market : MarketState.t)
  : result (R * R * R * R * R) :=
  let s := settings self in
  let cost := _estimate_cost (MarketState.current_price market) in
  (* Profit component *)
  demand <- _demand_function new_price (MarketState.current_price market)
              (MarketState.demand_elasticity market)
              (MarketState.seasonal_factor market)
              (MarketState.user_engagement market) ;;
  let profit := (new_price - cost) * demand in
  r_profit <- fdiv profit
                (Rmax 1.0 (MarketState.current_price market * 100)) ;;
  (* Competitive penalty *)
  let comp_diff := Rmax 0.0 (new_price - MarketState.competitor_price market) in
  comp_ratio <- fdiv comp_diff
                  (Rmax 1.0 (MarketState.competitor_price market)) ;;
  p_competitive <- float_pow comp_ratio 2 ;;
  (* Stability penalty *)
  price_change <- fdiv (Rabs (new_price - old_price)) (Rmax 1.0 old_price) ;;
  p_stability <- float_pow price_change 2 ;;
  (* Inventory penalty *)
  let inv := MarketState.inventory_level market in
  p_inventory <-
    (if (inv <? 20)%Z then float_pow (IZR (20 - inv) / 20) 2
     else if (400 <? inv)%Z then float_pow (IZR (inv - 400) / 400) 2
     else Ok 0.0) ;;
  let total := AppSettings.alpha s * r_profit
               - AppSettings.beta s * p_competitive
               - AppSettings.gamma s * p_stability
               - AppSettings.delta s * p_inventory in
  Ok (total, r_profit, p_competitive, p_stability, p_inventory).

(** The candidate prices of [suggest_price], in the order it lists them. *)
Definition candidates (self : DynamicPricingEngine) (market : MarketState.t)
  : list R :=
  let base := MarketState.current_price market in
  let rng := AppSettings.price_adjustment_range (settings self) in
  [ base;
    base * (1 - rng * 0.25);
    base * (1 - rng * 0.50);
    base * (1 - rng * 0.75);
    base * (1 + rng * 0.25);
    base * (1 + rng * 0.50);
    base * (1 + rng * 0.75);
    MarketState.competitor_price market;
    MarketState.competitor_price market * 0.98;
    MarketState.competitor_price market * 1.02 ].

(** [for cp in candidates], from the best price and reward so far. *)
Fixpoint search (self : DynamicPricingEngine) (market : MarketState.t)
    (base : R) (cands : list R) (best_price : R) (best_reward : xfloat)
  : result (R * xfloat) :=
  match cands with
  | [] => Ok (best_price, best_reward)
  | cp :: rest =>
      let cp := round_ndigits (Rmax 0.01 cp) 2 in
      '(reward, _, _, _, _) <- compute_reward self base cp market ;;
      if gt_xfloat reward best_reward
      then search self market base rest cp (Fin reward)
      else search self market base rest best_price best_reward
  end.

(** Suggest an optimal price using gradient-free search. *)
Definition suggest_price (self : DynamicPricingEngine) (product : Product.t)
    (market : MarketState.t) : result R :=
  let base := MarketState.current_price market in
  '(best_price, _) <- search self market base (candidates self market)
                        base NegInf ;;
  Ok (round_ndigits best_price 2).

(** Run one step of the pricing simulation: the action taken, the updated
    market state, and the engine and the clock as the step leaves them. *)
Definition simulate_step (self : DynamicPricingEngine) (product : Product.t)
    (market : MarketState.t) (old_price : R) (clk : Clock)
  : result (PricingAction.t * MarketState.t * DynamicPricingEngine * Clock) :=
  new_price <- suggest_price self product market ;;
  '(total, r_profit, p_comp, p_stab, p_inv) <-
    compute_reward self old_price new_price market ;;
  let (action, clk) :=
    PricingAction.init (Product.sample_id product)
      (take 60 (Product.name product))
      (round_ndigits old_price 2) (round_ndigits new_price 2)
      (round_ndigits total 4) (round_ndigits r_profit 4)
      (round_ndigits p_comp 4) (round_ndigits p_stab 4)
      (round_ndigits p_inv 4) 0 "" clk in
  (* Evolve market state *)
  '(inv_change, g) <- randint (-30) 30 (_rng self) ;;
  let new_inv := Z.max 0 (MarketState.inventory_level market + inv_change) in
  let (engagement_drift, g) := uniform (-0.05) 0.05 g in
  let new_engagement :=
    Rmax 0.05 (Rmin 1.0 (MarketState.user_engagement market + engagement_drift)) in
  let (seasonal_drift, g) := uniform (-0.1) 0.1 g in
  let new_seasonal :=
    Rmax 0.3 (Rmin 2.5 (MarketState.seasonal_factor market + seasonal_drift)) in
  let (comp_drift, g) := uniform (-0.03) 0.03 g in
  let new_comp :=
    round_ndigits
      (Rmax 0.01 (MarketState.competitor_price market * (1 + comp_drift))) 2 in
  let (new_market, clk) :=
    MarketState.init (Product.sample_id product) new_price new_comp new_inv
      (round_ndigits new_engagement 2) (round_ndigits new_seasonal 2)
      (MarketState.demand_elasticity market) "" clk in
  Ok (action, new_market, mkEngine (settings self) g, clk).

(** The variables of the loop of [run_simulation]. *)
Record rollout : Type := mkRollout {
  ro_actions : list PricingAction.t;
  ro_current_price : R;
  ro_current_market : MarketState.t;
  ro_prices : list R;
  ro_self : DynamicPricingEngine;
  ro_clock : Clock
}.

(** One iteration of [for step in range(steps)]. *)
Definition rollout_body (product : Product.t) (step : Z) (st : rollout)
  : result rollout :=
  '(action, market', self', clk') <-
    simulate_step (ro_self st) product (ro_current_market st)
      (ro_current_price st) (ro_clock st) ;;
  let action := PricingAction.set_step action (step + 1) in
  let current_price := PricingAction.new_price action in
  Ok (mkRollout (ro_actions st ++ [action]) current_price market'
        (ro_prices st ++ [current_price]) self' clk').

(** [n] iterations, the next one numbered [step]. *)
Fixpoint rollout_loop (product : Product.t) (n : nat) (step : Z)
    (st : rollout) : result rollout :=
  match n with
  | O => Ok st
  | S n' =>
      st' <- rollout_body product step st ;;
      rollout_loop product n' (step + 1) st'
  end.

(** Run a complete pricing simulation: the result, and the engine and the
    clock as the run leaves them. *)
Definition run_simulation (self : DynamicPricingEngine) (product : Product.t)
    (market : MarketState.t) (steps : option Z) (clk : Clock)
  : result (SimulationResult.t * DynamicPricingEngine * Clock) :=
  let steps := or_int steps (AppSettings.default_steps (settings self)) in
  let current_price := MarketState.current_price market in
  let initial_price := current_price in
  st <- rollout_loop product (Z.to_nat steps) 0
          (mkRollout [] current_price market [current_price] self clk) ;;
  let actions := ro_actions st in
  let total_reward := fsum (map PricingAction.reward actions) in
  avg_reward <- (match actions with
                 | [] => Ok 0.0
                 | _ :: _ => fdiv total_reward (INR (List.length actions))
                 end) ;;
  hi <- max_list (ro_prices st) ;;
  lo <- min_list (ro_prices st) ;;
  Ok (SimulationResult.mk (Product.sample_id product)
        (take 60 (Product.name product))
        actions
        (round_ndigits total_reward 4)
        (round_ndigits avg_reward 4)
        (round_ndigits (ro_current_price st) 2)
        (round_ndigits initial_price 2)
        (round_ndigits hi 2)
        (round_ndigits lo 2)
        steps,
      ro_self st, ro_clock st).

End PricingEngine.

(* ================================================================== *)
(** * warehouse/storage.py *)
(* ================================================================== *)

Module Storage.
Import Py Models.

(** One entry of the [actions] list of a stored simulation. *)
Record action_record : Type := mkActionRecord {
  ar_step : Z;
  ar_old_price : R;
  ar_new_price : R;
  ar_reward : R
}.

(** One entry of the history file. *)
Record record : Type := mkRecord {
  rec_product_id : Z;
  rec_product_name : string;
  rec_total_reward : R;
  rec_avg_reward : R;
  rec_initial_price : R;
  rec_final_price : R;
  rec_steps : Z;
  rec_price_change_pct : R;
  rec_actions : list action_record
}.

(** [simulations.json]: [None] when the file does not exist or does not
    decode, the list it holds otherwise.  The file is written by
    [save_simulation] alone; a file holding another JSON document is
    outside the model.  [json] writes a float with [repr] and reads it
    back unchanged. *)
Definition simulations_file : Type := option (list record).

(** [settings.json], written by [save_settings]. *)
Definition settings_file : Type := option (dict AppSettings.value).

(** Persist application settings to JSON. *)
Definition save_settings (settings : AppSettings.t) : settings_file :=
  Some (AppSettings.to_dict settings).

(** Load application settings from JSON, or return defaults.  A document
    with a value the typed record cannot hold is outside the model. *)
Definition load_settings (file : settings_file) : option AppSettings.t :=
  match file with
  | Some data => AppSettings.from_dict data
  | None => Some AppSettings.default
  end.

Definition action_record_of (a : PricingAction.t) : action_record :=
  mkActionRecord (PricingAction.step a)
    (round_ndigits (PricingAction.old_price a) 2)
    (round_ndigits (PricingAction.new_price a) 2)
    (round_ndigits (PricingAction.reward a) 4).

(** The [record] dictionary of [save_simulation]. *)
Definition record_of (result : SimulationResult.t) : Py.result record :=
  pct <- SimulationResult.price_change_pct result ;;
  Ok (mkRecord (SimulationResult.product_id result)
        (SimulationResult.product_name result)
        (round_ndigits (SimulationResult.total_reward result) 4)
        (round_ndigits (SimulationResult.avg_reward result) 4)
        (round_ndigits (SimulationResult.initial_price result) 2)
        (round_ndigits (SimulationResult.final_price result) 2)
        (SimulationResult.steps result)
        (round_ndigits pct 2)
        (map action_record_of (SimulationResult.actions result))).

(** Append a simulation result to the history file: the file as the call
    leaves it. *)
Definition save_simulation (file : simulations_file)
    (result : SimulationResult.t) : Py.result simulations_file :=
  let history := match file with Some h => h | None => [] end in
  record <- record_of result ;;
  let history := (history ++ [record])%list in
  (* Keep last 200 simulations *)
  let history :=
    if (200 <? Z.of_nat (List.length history))%Z
    then slice_from history (-200) else history in
  Ok (Some history).

(** Load all past simulation results. *)
Definition load_simulation_history (file : simulations_file) : list record :=
  match file with
  | Some h => h
  | None => []
  end.

(** Delete all simulation history. *)
Definition clear_simulation_history (file : simulations_file)
  : simulations_file := None.

End Storage.

(* ================================================================== *)
(** * warehouse/widgets.py *)
(* ================================================================== *)

Module Widgets.
Import Py.

Local Open Scope R_scope.

Module SparklineBar.


End SparklineBar.

Module RewardBreakdown.
End RewardBreakdown.

End Widgets.

(* ================================================================== *)
(** * warehouse/screens/pricing.py *)
(* ================================================================== *)

Module PricingScreen.
Import Py Models DataLoader PricingEngine Storage.


Section Run.

(** [int] on text, [None] for [ValueError]; [random.Random]. *)
Variable int : string -> option Z.
Variable Random : Z -> Rng.

(** The loop over [self.app.products]: the first product of that id. *)
Fixpoint find_product (products : list Product.t) (pid : Z)
  : option Product.t :=
  match products with
  | [] => None
  | p :: t => if (Product.sample_id p =? pid)%Z then Some p
              else find_product t pid
  end.



End Run.
End PricingScreen.

(* ================================================================== *)
(** * warehouse/screens/catalog.py *)
(* ================================================================== *)

Module CatalogScreen.
Import Py Models.

Definition PAGE_SIZE : Z := 200.

(** The three fields the screen pages with. *)
Record t : Type := mk {
  _page : Z;
  _filtered : list Product.t;
  _category : option string
}.

Definition init : t := mk 0 [] None.

(** [max(1, (len(self._filtered) + PAGE_SIZE - 1) // PAGE_SIZE)] *)
Definition pages (self : t) : Z :=
  Z.max 1 ((Z.of_nat (List.length (_filtered self)) + PAGE_SIZE - 1)
           / PAGE_SIZE).

Definition _apply_filter (products : list Product.t) (self : t)
    (search : string) : t :=
  let f := products in
  let f := match _category self with
           | Some c =>
               if truthy c
               then filter (fun p => String.eqb (Product.category p) c) f
               else f
           | None => f
           end in
  let f := if truthy search then
             let sl := lower search in
             filter (fun p => contains sl (lower (Product.name p))) f
           else f in
  mk 0 f (_category self).

(** The rows [_render_page] puts in the table. *)
Definition _render_page (self : t) : list Product.t :=
  let start := (_page self * PAGE_SIZE)%Z in
  let end_ := (start + PAGE_SIZE)%Z in
  slice_list (_filtered self) start end_.



(** [on_input_changed] on the search field. *)
Definition on_input_changed (products : list Product.t) (self : t)
    (value : string) : t :=
  _apply_filter products self value.

End CatalogScreen.

(* ================================================================== *)
(** * warehouse/screens/dashboard.py *)
(* ================================================================== *)

Module DashboardScreen.
Import Py Models DataLoader.



End DashboardScreen.

(* ================================================================== *)
(** * warehouse/screens/analytics.py *)
(* ================================================================== *)

Module AnalyticsScreen.
Import Py Models DataLoader.

Local Open Scope R_scope.

(** An entry of [app.simulation_history]: a dictionary, loaded from the
    history file when the application starts, or a result, appended by
    the pricing screen after a run. *)
Inductive entry : Type :=
| Stored (record : Storage.record)
| Live (result : SimulationResult.t).

(** [getattr(s, "avg_reward", 0)]: a dictionary has no such attribute. *)
Definition avg_reward_attr (s : entry) : R :=
  match s with
  | Live r => SimulationResult.avg_reward r
  | Stored _ => 0
  end.

(** [getattr(s, "price_change_pct", 0)] *)
Definition price_change_pct_attr (s : entry) : result R :=
  match s with
  | Live r => SimulationResult.price_change_pct r
  | Stored _ => Ok 0
  end.

(** The coefficient of variation shown with the price statistics. *)
Definition cv (d : PrecomputedData.t) : result R :=
  if Rgt_dec (PrecomputedData.avg_price d) 0 then
    q <- fdiv (PrecomputedData.std_price d) (PrecomputedData.avg_price d) ;;
    Ok (q * 100)
  else Ok 0.

(** [n], [avg_r] and [avg_c] of [on_mount]. *)
Definition averages (sim_history : list entry) : result (Z * R * R) :=
  let n := Z.of_nat (List.length sim_history) in
  avg_r <- (if (n =? 0)%Z then Ok 0
            else fdiv (fsum (map avg_reward_attr sim_history)) (IZR n)) ;;
  avg_c <- (if (n =? 0)%Z then Ok 0
            else
              pcts <- mapM price_change_pct_attr sim_history ;;
              fdiv (fsum pcts) (IZR n)) ;;
  Ok (n, avg_r, avg_c).

(** A row of the history table, before formatting. *)
Record history_row : Type := mkHistoryRow {
  hr_name : string;
  hr_steps : Z;
  hr_initial : R;
  hr_final : R;
  hr_pct : R;
  hr_reward : R
}.

Definition history_row_of (s : entry) : result history_row :=
  match s with
  | Live r =>
      pct <- SimulationResult.price_change_pct r ;;
      Ok (mkHistoryRow (take 40 (SimulationResult.product_name r))
            (SimulationResult.steps r)
            (SimulationResult.initial_price r)
            (SimulationResult.final_price r)
            pct
            (SimulationResult.avg_reward r))
  | Stored _ => Ok (mkHistoryRow (take 40 "?") 0 0 0 0 0)
  end.

(** The rows of the history table: [sim_history[-50:][::-1]]. *)
Definition history_rows (sim_history : list entry)
  : result (list history_row) :=
  mapM history_row_of (rev (slice_from sim_history (-50))).

End AnalyticsScreen.

(* ================================================================== *)
(** * warehouse/screens/product_detail.py *)
(* ================================================================== *)

Module ProductDetailScreen.
Import Py Models DataLoader.

Local Open Scope string_scope.

(** What [on_mount] shows of a product, before formatting. *)
Record view : Type := mkView {
  v_name : string;
  v_id : Z;
  v_category : string;
  v_price : R;
  v_unit : string;
  v_value : string;
  v_features : option string;
  v_desc : string;
  v_market : MarketState.t
}.

(** [on_mount]: [None] when the header reads that the product was not
    found. *)
Definition on_mount (Random : Z -> Rng) (products : list Product.t)
    (selected_product_id : option Z) (clk : Clock)
  : result (option view * Clock) :=
  let product :=
    match selected_product_id with
    | Some pid => PricingScreen.find_product products pid
    | None => None
    end in
  match product with
  | None => Ok (None, clk)
  | Some product =>
      let features :=
        if truthy (Product.bullet_points product)
        then Some (take 500 (Product.bullet_points product))
        else None in
      let desc :=
        if truthy (Product.description product)
        then take 800 (Product.description product)
        else "No description available." in
      '(market, clk) <- generate_market_state Random product None clk ;;
      Ok (Some (mkView (Product.name product) (Product.sample_id product)
                  (Product.category product) (Product.price product)
                  (if truthy (Product.unit product)
                   then Product.unit product else "N/A")
                  (if truthy (Product.value product)
                   then Product.value product else "N/A")
                  features desc market),
          clk)
  end.

End ProductDetailScreen.

(* ================================================================== *)
(** * warehouse/app.py *)
(* ================================================================== *)

Module App.
Import Py Models DataLoader.

(** The loop of [_load_data] over the sorted files: the first one whose
    lower-cased name contains [train], else [target] as it stands. *)
Fixpoint pick_target {A : Type} (target : string * A)
    (csv_files : list (string * A)) : string * A :=
  match csv_files with
  | [] => target
  | f :: t => if contains "train" (lower (fst f)) then f
              else pick_target target t
  end.

(** [_load_data] once the data directory is found: the files are given by
    name with the rows their reader yields, [cache] gives the pickle file
    of each; any exception of [load_and_cache] is swallowed for the empty
    snapshot. *)
Definition _load_data (csv_files : list (string * list Row.t))
    (cache : string -> cache_file) (dump_ok : bool) (g : Rng)
  : PrecomputedData.t :=
  match csv_files with
  | [] => PrecomputedData.empty
  | first :: _ =>
      let target := pick_target first csv_files in
      match load_and_cache_file (cache (fst target)) dump_ok (snd target) g
      with
      | Ok (data, _) => data
      | Raise _ => PrecomputedData.empty
      end
  end.

End App.

(* ================================================================== *)
(** * Statements of the specification, for comparison with the code *)
(* ================================================================== *)

Module Spec.
Import Py Models DataLoader PricingEngine.

Local Open Scope string_scope.

(** [kw] occurs as a substring of [s]. *)
Definition occurs_in (kw s : string) : Prop :=
  exists pre post, s = pre ++ kw ++ post.

(** The name as the specification words it: the text after the colon that
    follows the [item_name] marker, up to whichever located marker starts
    next after that colon, else to the end of the string; without an
    [item_name] marker, the first 80 characters with newlines replaced. *)
Definition name_as_specified (raw : string) : string :=
  let low := lower raw in
  let ni := find low "item_name" 0 in
  let bi := find low "bullet_point" 0 in
  let di := find low "product_description" 0 in
  if (0 <=? ni)%Z then
    let start := (find raw ":" ni + 1)%Z in
    let after := filter (fun m => (start <? m)%Z) [bi; di] in
    let end_ := fold_right Z.min (len raw) after in
    take 120 (strip (slice raw start end_))
  else replace_newlines (take 80 raw).

(** A record with a price above zero. *)
Definition priced (p : Product.t) : bool :=
  if Rlt_dec 0 (Product.price p) then true else false.

(** [sum(d.values())] *)
Definition sum_counts (d : dict Z) : Z := fold_right Z.add 0%Z (map snd d).

(** The number of records of category [c]. *)
Definition count_category (c : string) (l : list Product.t) : Z :=
  Z.of_nat (List.length (filter (fun p => String.eqb (Product.category p) c) l)).

(** The population standard deviation: sqrt(mean((x - mean)^2)). *)
Definition population_std (l : list R) : R :=
  let n := INR (List.length l) in
  let mean := (fsum l / n)%R in
  sqrt (fsum (map (fun x => (x - mean) * (x - mean))%R l) / n).

(** The price statistics in closed form: mean, the element at index
    [len // 2] of the sorted list, first and last element of the sorted
    list, population standard deviation; all 0.0 for no prices. *)
Definition stats_of (ps : list R) : R * R * R * R * R :=
  match ps with
  | [] => (0.0, 0.0, 0.0, 0.0, 0.0)%R
  | _ :: _ =>
      let s := sort_floats ps in
      let n := List.length s in
      ((fsum s / INR n)%R, nth (n / 2) s 0%R, nth 0 s 0%R,
       nth (n - 1) s 0%R, population_std s)
  end.

(** A category's average price: its sum over its count. *)
Definition category_average (sums : dict R) (kv : string * Z) : string * R :=
  (fst kv, (dict_get sums (fst kv) 0 / IZR (snd kv))%R).

(** The reward of section 4.6, component by component. *)
Definition demand_of (price base elasticity seasonal engagement : R) : R :=
  if Rle_dec base 0 then 0%R
  else if Rle_dec price 0 then 0%R
  else Rmax 0 (100 * Rpower (price / base) elasticity * seasonal * engagement).

Definition profit_component (new_price : R) (m : MarketState.t) : R :=
  let cur := MarketState.current_price m in
  ((new_price - 0.60 * cur)
   * demand_of new_price cur (MarketState.demand_elasticity m)
       (MarketState.seasonal_factor m) (MarketState.user_engagement m)
   / Rmax 1 (cur * 100))%R.

Definition competitive_penalty (new_price : R) (m : MarketState.t) : R :=
  let comp := MarketState.competitor_price m in
  ((Rmax 0 (new_price - comp) / Rmax 1 comp) ^ 2)%R.

Definition stability_penalty (old_price new_price : R) : R :=
  ((Rabs (new_price - old_price) / Rmax 1 old_price) ^ 2)%R.

Definition inventory_penalty (m : MarketState.t) : R :=
  let inv := MarketState.inventory_level m in
  if (inv <? 20)%Z then ((IZR (20 - inv) / 20) ^ 2)%R
  else if (400 <? inv)%Z then ((IZR (inv - 400) / 400) ^ 2)%R
  else 0%R.

Definition total_reward_of (s : AppSettings.t) (old_price new_price : R)
    (m : MarketState.t) : R :=
  (AppSettings.alpha s * profit_component new_price m
   - AppSettings.beta s * competitive_penalty new_price m
   - AppSettings.gamma s * stability_penalty old_price new_price
   - AppSettings.delta s * inventory_penalty m)%R.

(** The total reward [suggest_price] scores a candidate with: the
    candidate as new price, the current price as old price. *)
Definition score_of (self : DynamicPricingEngine) (market : MarketState.t)
    (c : R) : R :=
  total_reward_of (settings self) (MarketState.current_price market) c market.

(** A candidate as it is scored: floored at one cent, rounded to cents. *)
Definition floored (cp : R) : R := round_ndigits (Rmax 0.01 cp) 2.

(** A simulation result with the timestamps of its actions blanked. *)
Definition blank_action (a : PricingAction.t) : PricingAction.t :=
  PricingAction.mk (PricingAction.product_id a) (PricingAction.product_name a)
    (PricingAction.old_price a) (PricingAction.new_price a)
    (PricingAction.reward a) (PricingAction.profit_component a)
    (PricingAction.competitive_component a)
    (PricingAction.stability_component a)
    (PricingAction.inventory_component a) (PricingAction.step a) "".

Definition blank_market (m : MarketState.t) : MarketState.t :=
  MarketState.mk (MarketState.product_id m) (MarketState.current_price m)
    (MarketState.competitor_price m) (MarketState.inventory_level m)
    (MarketState.user_engagement m) (MarketState.seasonal_factor m)
    (MarketState.demand_elasticity m) "".

Definition without_timestamps (r : SimulationResult.t) : SimulationResult.t :=
  SimulationResult.mk (SimulationResult.product_id r)
    (SimulationResult.product_name r)
    (map blank_action (SimulationResult.actions r))
    (SimulationResult.total_reward r) (SimulationResult.avg_reward r)
    (SimulationResult.final_price r) (SimulationResult.initial_price r)
    (SimulationResult.max_price r) (SimulationResult.min_price r)
    (SimulationResult.steps r).

(** Two states of the rollout loop that agree on everything but the
    timestamps and the clock. *)
Definition same_rollout (st st2 : rollout) : Prop :=
  map blank_action (ro_actions st) = map blank_action (ro_actions st2)
  /\ ro_current_price st = ro_current_price st2
  /\ blank_market (ro_current_market st) = blank_market (ro_current_market st2)
  /\ ro_prices st = ro_prices st2
  /\ ro_self st = ro_self st2.

(** Actions that follow one another from price [p0] and step number [k]:
    each is numbered one more than the one before, takes the price before
    it, rounded to cents, as its old price, and sets a new price on the
    grid of cents, of one cent at least. *)
Fixpoint chained (p0 : R) (k : Z) (acts : list PricingAction.t) : Prop :=
  match acts with
  | [] => True
  | a :: rest =>
      PricingAction.step a = (k + 1)%Z
      /\ PricingAction.old_price a = round_ndigits p0 2
      /\ (0.01 <= PricingAction.new_price a)%R
      /\ round_ndigits (PricingAction.new_price a) 2 = PricingAction.new_price a
      /\ chained (PricingAction.new_price a) (k + 1) rest
  end.

(** The record [p] is the one the reading loop builds from row [i] of
    [rows]. *)
Definition record_of_row (rows : list Row.t) (i : nat) (p : Product.t)
  : Prop :=
  exists row, nth_error rows i = Some row /\ product_of_row i row = Ok p.


(** The page number of a catalogue screen is one of its pages. *)
Definition page_in_range (s : CatalogScreen.t) : Prop :=
  (0 <= CatalogScreen._page s < CatalogScreen.pages s)%Z.

(** A text that does not begin with white space. *)
Definition head_not_blank (s : string) : Prop :=
  match s with
  | EmptyString => True
  | String c _ => is_space c = false
  end.


End Spec.

(* ================================================================== *)
(** * Sample inputs *)
(* ================================================================== *)

Module Examples.
Import Py Models DataLoader PricingEngine.

Local Open Scope string_scope.

(** The three-row source of the specification's end-to-end scenario. *)
Definition green_tea : Row.t :=
  Row.mk "item_name: Green Tea" (Value 10%R) Missing "" "" "".
Definition mystery_box : Row.t :=
  Row.mk "item_name: Mystery Box" (Value 0%R) Missing "" "" "".
Definition milk : Row.t :=
  Row.mk "item_name: Milk" (Value 25%R) Missing "" "" "".

Definition three_rows : list Row.t := [green_tea; mystery_box; milk].


(** A row whose sample id is not an integer literal. *)
Definition bad_id_row : Row.t :=
  Row.mk "item_name: Salt" (Value 3%R) Malformed "" "" "".

(** A generator whose every raw draw is [w]. *)
Definition constant_rng (w : N) : Rng := mkRng (fun _ => w) 0.

(** A clock whose every reading is [ts]. *)
Definition frozen_clock (ts : string) : Clock := mkClock (fun _ => ts) 0.

(** An engine with the default settings, on a generator whose draws are
    all 0. *)
Definition default_engine : DynamicPricingEngine :=
  init (fun _ => constant_rng 0) None.


(** A market state at price 10 against a competitor at 12. *)
Definition sample_market : MarketState.t :=
  MarketState.mk 7 10 12 100 0.5 1 (-1.5) "2024-01-01T00:00:00".

End Examples.

(* ================================================================== *)
(** * Properties *)
(* ================================================================== *)

Import Py Models DataLoader PricingEngine Spec Examples.

Unset Implicit Arguments.

(** ** Strings *)

Section StringFacts.
Local Open Scope string_scope.

Lemma prefix_iff (p s : string) :
  prefix p s = true <-> exists post, s = p ++ post.
Proof.
  revert s; induction p as [|a p IH]; intros s; simpl.
  - destruct s; simpl; split; eauto.
  - destruct s as [|b s]; simpl.
    + split; [discriminate | intros [post H]; discriminate].
    + destruct (ascii_dec a b) as [->|Hab].
      * rewrite IH. split; intros [post H]; exists post.
        -- now rewrite H.
        -- now inversion H.
      * split; [discriminate | intros [post H]; inversion H; subst; now elim Hab].
Qed.

Lemma contains_iff (kw s : string) :
  contains kw s = true <-> occurs_in kw s.
Proof.
  unfold occurs_in. induction s as [|c s IH]; cbn [contains].
  - destruct (prefix kw "") eqn:E.
    + split; [intros _ | reflexivity].
      apply prefix_iff in E. destruct E as [post E]. now exists "", post.
    + split; [discriminate|]. intros (pre & post & H).
      destruct pre; simpl in H.
      * assert (prefix kw "" = true) by (apply prefix_iff; eauto). congruence.
      * discriminate.
  - destruct (prefix kw (String c s)) eqn:E.
    + split; [intros _ | reflexivity].
      apply prefix_iff in E. destruct E as [post E]. now exists "", post.
    + rewrite IH. split.
      * intros (pre & post & H). exists (String c pre), post. now rewrite H.
      * intros (pre & post & H). destruct pre as [|c' pre]; simpl in H.
        -- assert (prefix kw (String c s) = true) by (apply prefix_iff; eauto).
           congruence.
        -- inversion H; subst. eauto.
Qed.

End StringFacts.

(** ** The category classifier *)

Section ClassifierFacts.
Local Open Scope string_scope.

Lemma any_keyword_in_iff (kws : list string) (s : string) :
  any_keyword_in kws s = true <-> exists kw, In kw kws /\ occurs_in kw s.
Proof.
  induction kws as [|kw kws IH]; simpl.
  - split; [discriminate | intros (kw & [] & _)].
  - destruct (contains kw s) eqn:E.
    + split; [intros _ | reflexivity].
      exists kw. split; [now left | now apply contains_iff].
    + rewrite IH. split.
      * intros (kw' & Hin & Hocc). exists kw'. auto.
      * intros (kw' & [<- | Hin] & Hocc).
        -- apply contains_iff in Hocc. congruence.
        -- eauto.
Qed.

Lemma any_keyword_in_none (kws : list string) (s : string) :
  any_keyword_in kws s = false ->
  forall kw, In kw kws -> ~ occurs_in kw s.
Proof.
  intros E kw Hin Hocc.
  assert (any_keyword_in kws s = true) by (apply any_keyword_in_iff; eauto).
  congruence.
Qed.

(** The two loops of [_classify], over any rule list: either some rule
    matches, and the answer is the label of the first such rule, or no
    keyword of any rule occurs and the answer is "Other". *)
Lemma classify_with_first_match (rules : list (string * list string))
    (s : string) :
  (exists i cat kws kw,
      nth_error rules i = Some (cat, kws) /\ In kw kws /\ occurs_in kw s /\
      (forall j cat' kws' kw', (j < i)%nat ->
         nth_error rules j = Some (cat', kws') -> In kw' kws' ->
         ~ occurs_in kw' s) /\
      classify_with rules s = cat)
  \/ ((forall cat kws kw, In (cat, kws) rules -> In kw kws ->
         ~ occurs_in kw s) /\
      classify_with rules s = "Other").
Proof.
  induction rules as [|[cat kws] rules IH]; simpl.
  - right. split; [intros ? ? ? [] | reflexivity].
  - destruct (any_keyword_in kws s) eqn:E.
    + left. apply any_keyword_in_iff in E. destruct E as (kw & Hin & Hocc).
      exists 0%nat, cat, kws, kw. repeat split; auto.
      intros j ? ? ? Hj. lia.
    + pose proof (any_keyword_in_none _ _ E) as Hnone.
      destruct IH as [(i & cat' & kws' & kw & Hnth & Hin & Hocc & Hfirst & Hres)
                     | [Hall Hres]].
      * left. exists (S i), cat', kws', kw. repeat split; auto.
        intros [|j] c k w Hj Hn Hw; simpl in Hn.
        -- inversion Hn; subst. now apply Hnone.
        -- apply (Hfirst j c k w); auto. lia.
      * right. split; auto.
        intros c k w [Heq | Hin] Hw.
        -- inversion Heq; subst. now apply Hnone.
        -- now apply (Hall c k w).
Qed.

(** C8. The classifier is a function of the name alone.  For every name it
    returns the label of the first rule, in declaration order, one of whose
    keywords occurs in the lower-cased name, and "Other" when no keyword of
    any rule occurs.  "Organic Chai Tea Bags" is classified "Coffee & Tea",
    although "organic", a keyword of the later rule "Health & Wellness",
    occurs in it too. *)
Theorem classify_first_rule_wins (name : string) :
  ((exists i cat kws kw,
       nth_error _CAT_RULES i = Some (cat, kws) /\ In kw kws /\
       occurs_in kw (lower name) /\
       (forall j cat' kws' kw', (j < i)%nat ->
          nth_error _CAT_RULES j = Some (cat', kws') -> In kw' kws' ->
          ~ occurs_in kw' (lower name)) /\
       classify name = cat)
   \/ ((forall cat kws kw, In (cat, kws) _CAT_RULES -> In kw kws ->
          ~ occurs_in kw (lower name)) /\
       classify name = "Other"))
  /\ classify "Organic Chai Tea Bags" = "Coffee & Tea"
  /\ (exists kws, nth_error _CAT_RULES 5 = Some ("Health & Wellness", kws) /\
        In "organic" kws /\
        occurs_in "organic" (lower "Organic Chai Tea Bags")).
Proof.
  split; [| split].
  - unfold classify, _classify. apply classify_with_first_match.
  - reflexivity.
  - eexists. split; [reflexivity|]. split.
    + simpl. tauto.
    + apply contains_iff. reflexivity.
Qed.

End ClassifierFacts.

(** ** Field extraction *)

Section ParserFacts.
Local Open Scope string_scope.





(** Where the code and the wording agree: unless the description marker
    starts after the colon and before the bullet marker, the text the code
    extracts is the one the specification describes. *)
Lemma parsed_name_agrees_in_order (raw : string) :
  let low := lower raw in
  let ni := find low "item_name" 0 in
  let bi := find low "bullet_point" 0 in
  let di := find low "product_description" 0 in
  let start := (find raw ":" ni + 1)%Z in
  let end_ := if (start <? bi)%Z then bi
              else if (start <? di)%Z then di else len raw in
  (0 <= ni)%Z -> ~ (start < di < bi)%Z -> (bi <= len raw)%Z ->
  (di <= len raw)%Z ->
  name_as_specified raw = take 120 (strip (slice raw start end_)).
Proof.
  intros low ni bi di start end_ Hni Hord Hbi Hdi.
  unfold name_as_specified. fold low. fold ni. fold bi. fold di.
  cbv zeta. fold start.
  apply Z.leb_le in Hni. rewrite Hni.
  do 3 f_equal. subst end_. cbn [filter fold_right].
  destruct (start <? bi)%Z eqn:Eb, (start <? di)%Z eqn:Ed;
    cbn [fold_right];
    repeat match goal with
           | H : (_ <? _)%Z = true |- _ => apply Z.ltb_lt in H
           | H : (_ <? _)%Z = false |- _ => apply Z.ltb_ge in H
           end; lia.
Qed.

End ParserFacts.

(** ** Reservoir sampling *)

Section ReservoirFacts.

Lemma bind_ok_r {A : Type} (m : result A) : Py.bind m Ok = m.
Proof. now destruct m. Qed.

Lemma bind_assoc {A B C : Type} (m : result A) (f : A -> result B)
    (h : B -> result C) :
  Py.bind (Py.bind m f) h = Py.bind m (fun a => Py.bind (f a) h).
Proof. now destruct m. Qed.

Lemma bind_ok_inv {A B : Type} (m : result A) (f : A -> result B) (b : B) :
  Py.bind m f = Ok b -> exists a, m = Ok a /\ f a = Ok b.
Proof. destruct m as [a|e]; simpl; [eauto | discriminate]. Qed.

Lemma update_length {A : Type} (l : list A) (j : nat) (x : A) :
  List.length (update l j x) = List.length l.
Proof.
  revert j; induction l as [|h t IH]; intros [|j]; simpl; auto.
Qed.

Lemma loop_from_app (K : nat) (rows1 rows2 : list Row.t) (i : nat)
    (st : loop_state) :
  loop_from K (rows1 ++ rows2) i st =
  Py.bind (loop_from K rows1 i st)
          (fun st' => loop_from K rows2 (i + List.length rows1) st').
Proof.
  revert i st; induction rows1 as [|r rows1 IH]; intros i st; simpl.
  - now rewrite Nat.add_0_r.
  - rewrite bind_assoc. destruct (loop_body K st i r) as [st'|e]; simpl; auto.
    rewrite IH. now rewrite Nat.add_succ_comm.
Qed.

(** Reading one more row is one more run of the loop body, numbered by the
    rows read before it. *)
Lemma read_rows_snoc (K : nat) (rows : list Row.t) (row : Row.t) (g : Rng) :
  read_rows K (rows ++ [row]) g =
  Py.bind (read_rows K rows g)
          (fun st => loop_body K st (List.length rows) row).
Proof.
  unfold read_rows. rewrite loop_from_app. simpl.
  destruct (loop_from K rows 0 _) as [st|e]; simpl; auto.
  apply bind_ok_r.
Qed.

Lemma randint_range (a b : Z) (g : Rng) :
  (a <= b)%Z ->
  exists j g', randint a b g = Ok (j, g') /\ (a <= j <= b)%Z.
Proof.
  intros Hab. unfold randint.
  replace (b <? a)%Z with false by (symmetry; apply Z.ltb_ge; lia).
  destruct (next_raw g) as [w g'] eqn:E. do 2 eexists. split; [reflexivity|].
  pose proof (Z.mod_pos_bound (Z.of_N w) (b - a + 1)). lia.
Qed.

(** The loop counts every row, and the reservoir holds the smaller of the
    capacity and the number of rows read. *)
Lemma read_rows_counts (K : nat) (rows : list Row.t) :
  forall g res total g',
    read_rows K rows g = Ok (res, total, g') ->
    total = List.length rows /\ List.length res = Nat.min K (List.length rows).
Proof.
  induction rows as [|row rows IH] using rev_ind; intros g res total g' H.
  - unfold read_rows in H. simpl in H. inversion H; subst. simpl.
    split; [reflexivity | now rewrite Nat.min_0_r].
  - rewrite read_rows_snoc in H. apply bind_ok_inv in H.
    destruct H as ([[res0 total0] g0] & H0 & Hbody).
    apply IH in H0. destruct H0 as [-> Hlen].
    rewrite length_app, Nat.add_1_r. unfold loop_body in Hbody.
    apply bind_ok_inv in Hbody. destruct Hbody as (p & _ & Hbody).
    destruct (List.length res0 <? K)%nat eqn:E.
    + inversion Hbody; subst. apply Nat.ltb_lt in E.
      rewrite length_app. simpl. lia.
    + apply Nat.ltb_ge in E. apply bind_ok_inv in Hbody.
      destruct Hbody as ([j g1] & _ & Hbody).
      destruct (j <? Z.of_nat K)%Z.
      * apply bind_ok_inv in Hbody. destruct Hbody as (res1 & Hset & Hok).
        inversion Hok; subst. unfold setitem in Hset.
        destruct (_ && _); inversion Hset; subst.
        rewrite update_length. lia.
      * inversion Hbody; subst. lia.
Qed.



(** One row past a full reservoir: a draw [j] of [0..i], and slot [j] is
    overwritten exactly when [j < K]. *)
Lemma loop_body_full (K : nat) (res : list Product.t) (total i : nat)
    (g : Rng) (row : Row.t) (p : Product.t) :
  List.length res = K -> product_of_row i row = Ok p ->
  exists j g',
    randint 0 (Z.of_nat i) g = Ok (j, g') /\ (0 <= j <= Z.of_nat i)%Z /\
    loop_body K (res, total, g) i row =
    Ok (if (j <? Z.of_nat K)%Z then update res (Z.to_nat j) p else res,
        S total, g').
Proof.
  intros Hlen Hp.
  destruct (randint_range 0 (Z.of_nat i) g) as (j & g' & Hr & Hj); [lia|].
  exists j, g'. split; [exact Hr|]. split; [exact Hj|].
  unfold loop_body. rewrite Hp. simpl.
  replace (List.length res <? K)%nat with false
    by (symmetry; apply Nat.ltb_ge; lia).
  rewrite Hr. simpl. destruct (j <? Z.of_nat K)%Z eqn:E; [|reflexivity].
  apply Z.ltb_lt in E. unfold setitem.
  replace (j <? 0)%Z with false by (symmetry; apply Z.ltb_ge; lia).
  replace ((0 <=? j)%Z && (j <? Z.of_nat (List.length res))%Z) with true.
  - reflexivity.
  - symmetry. apply andb_true_iff. split; [apply Z.leb_le | apply Z.ltb_lt]; lia.
Qed.

Lemma product_of_row_ok (i : nat) (row : Row.t) :
  Row.sample_id row <> Malformed -> exists p, product_of_row i row = Ok p.
Proof.
  intros H. unfold product_of_row.
  destruct (_fast_parse_catalog _) as [[name bullets] desc].
  destruct (Row.sample_id row); [| | contradiction]; simpl; eauto.
Qed.

(** The loop runs to its end when every sample id converts. *)
Lemma read_rows_total (K : nat) (rows : list Row.t) (g : Rng) :
  Forall (fun r => Row.sample_id r <> Malformed) rows ->
  exists res g', read_rows K rows g = Ok (res, List.length rows, g').
Proof.
  induction rows as [|row rows IH] using rev_ind; intros Hwf.
  - exists [], g. reflexivity.
  - apply Forall_app in Hwf. destruct Hwf as [Hrows Hrow].
    inversion Hrow as [|? ? Hid _]; subst.
    destruct (IH Hrows) as (res0 & g0 & H0).
    destruct (product_of_row_ok (List.length rows) row Hid) as [p Hp].
    rewrite read_rows_snoc, H0, length_app, Nat.add_1_r. cbn [Py.bind].
    pose proof (read_rows_counts _ _ _ _ _ _ H0) as [_ Hlen].
    destruct (Nat.lt_ge_cases (List.length rows) K) as [Hlt | Hge].
    + unfold loop_body. rewrite Hp. simpl.
      replace (List.length res0 <? K)%nat with true
        by (symmetry; apply Nat.ltb_lt; lia).
      eauto.
    + destruct (loop_body_full K res0 (List.length rows) (List.length rows) g0 row p)
        as (j & g' & _ & _ & Hbody); [lia | exact Hp |].
      rewrite Hbody. eauto.
Qed.

End ReservoirFacts.

(** ** Floats *)

Section FloatFacts.
Local Open Scope R_scope.

Lemma Int_part_IZR (z : Z) : Int_part (IZR z) = z.
Proof. symmetry. apply Int_part_spec. lra. Qed.

Lemma frac_part_IZR (z : Z) : frac_part (IZR z) = 0.
Proof. unfold frac_part. rewrite Int_part_IZR. lra. Qed.

Lemma fdiv_ok (x y : R) : y <> 0 -> fdiv x y = Ok (x / y).
Proof. intros H. unfold fdiv. now destruct (Req_dec_T y 0). Qed.

(** Squaring never raises. *)
Lemma float_pow_2 (x : R) : float_pow x 2 = Ok (x * x).
Proof.
  unfold float_pow.
  destruct (Req_dec_T 2 0) as [H|_]; [lra|].
  destruct (Req_dec_T x 0) as [->|Hx].
  - destruct (Rlt_dec 2 0); [lra|]. f_equal. lra.
  - destruct (Rlt_dec x 0) as [Hneg|Hpos].
    + rewrite Int_part_IZR.
      destruct (Req_dec_T 2 2) as [_|H]; [|lra].
      f_equal. simpl. lra.
    + f_equal. replace 2 with (INR 2) by (simpl; lra).
      rewrite Rpower_pow by lra. simpl. lra.
Qed.

(** The power 0.5 of a non-negative number is its square root. *)
Lemma float_pow_half (x : R) : 0 <= x -> float_pow x 0.5 = Ok (sqrt x).
Proof.
  intros Hx. unfold float_pow.
  destruct (Req_dec_T 0.5 0) as [H|_]; [lra|].
  destruct (Req_dec_T x 0) as [->|Hx0].
  - destruct (Rlt_dec 0.5 0); [lra|]. now rewrite sqrt_0.
  - destruct (Rlt_dec x 0); [lra|].
    f_equal. replace 0.5 with (/ 2) by lra. apply Rpower_sqrt. lra.
Qed.

Lemma round_half_even_bounds (x : R) :
  IZR (Int_part x) <= IZR (round_half_even x) <= IZR (Int_part x) + 1.
Proof.
  unfold round_half_even.
  destruct (Rlt_dec _ _); [lra|].
  destruct (Rlt_dec _ _); [rewrite plus_IZR; lra|].
  destruct (Z.even _); [lra | rewrite plus_IZR; lra].
Qed.

Lemma round_half_even_IZR (z : Z) : round_half_even (IZR z) = z.
Proof.
  unfold round_half_even. rewrite frac_part_IZR, Int_part_IZR.
  destruct (Rlt_dec 0 (1 / 2)); [reflexivity | lra].
Qed.

(** Rounding does not cross an integer below the argument. *)
Lemma round_half_even_ge (x : R) (k : Z) :
  IZR k <= x -> (k <= round_half_even x)%Z.
Proof.
  intros H. apply le_IZR.
  pose proof (round_half_even_bounds x) as [Hlo _].
  pose proof (base_Int_part x) as [_ Hip].
  apply Rle_trans with (IZR (Int_part x)); [|exact Hlo].
  apply IZR_le. apply Z.lt_succ_r. apply lt_IZR.
  rewrite succ_IZR. lra.
Qed.

Lemma pow10_pos (d : nat) : 0 < 10 ^ d.
Proof. apply pow_lt. lra. Qed.

(** A value on the decimal grid rounds to itself. *)
Lemma round_ndigits_grid (k : Z) (d : nat) :
  round_ndigits (IZR k / 10 ^ d) d = IZR k / 10 ^ d.
Proof.
  unfold round_ndigits. pose proof (pow10_pos d).
  replace (IZR k / 10 ^ d * 10 ^ d) with (IZR k) by (field; lra).
  now rewrite round_half_even_IZR.
Qed.

(** Rounding twice is rounding once. *)
Lemma round_ndigits_idem (x : R) (d : nat) :
  round_ndigits (round_ndigits x d) d = round_ndigits x d.
Proof. unfold round_ndigits at 2 3. apply round_ndigits_grid. Qed.

(** Rounding does not cross a grid point below the argument. *)
Lemma round_ndigits_ge (x : R) (k : Z) (d : nat) :
  IZR k / 10 ^ d <= x -> IZR k / 10 ^ d <= round_ndigits x d.
Proof.
  intros H. unfold round_ndigits. pose proof (pow10_pos d) as Hp.
  apply Rmult_le_compat_r; [left; now apply Rinv_0_lt_compat|].
  apply IZR_le, round_half_even_ge.
  apply Rmult_le_reg_r with (/ 10 ^ d); [now apply Rinv_0_lt_compat|].
  replace (x * 10 ^ d * / 10 ^ d) with x by (field; lra). exact H.
Qed.

(** A price floored at one cent stays at or above one cent when rounded to
    cents. *)
Lemma round_cent_floor (x : R) : 0.01 <= round_ndigits (Rmax 0.01 x) 2.
Proof.
  replace 0.01 with (IZR 1 / 10 ^ 2) at 1 by (simpl; lra).
  apply round_ndigits_ge.
  replace (IZR 1 / 10 ^ 2) with 0.01 by (simpl; lra).
  apply Rmax_l.
Qed.

End FloatFacts.

(** ** Dictionaries *)

Section DictFacts.
Context {V : Type}.

Lemma dict_find_in_keys (d : dict V) (k : string) :
  In k (map fst d) -> exists v, dict_find d k = Some v.
Proof.
  induction d as [|[k' v'] d IH]; simpl; [intros []|].
  intros [<- | Hin].
  - rewrite String.eqb_refl. eauto.
  - destruct (String.eqb k' k); eauto.
Qed.

Lemma dict_set_keys_in (d : dict V) (k : string) (v : V) (k' : string) :
  In k' (map fst (dict_set d k v)) <-> k' = k \/ In k' (map fst d).
Proof.
  induction d as [|[k0 v0] d IH]; simpl.
  - intuition.
  - destruct (String.eqb k0 k) eqn:E; simpl.
    + apply String.eqb_eq in E. subst. intuition.
    + rewrite IH. intuition.
Qed.

End DictFacts.

Section CountFacts.
Local Open Scope Z_scope.

Lemma sum_counts_bump (d : dict Z) (k : string) :
  sum_counts (dict_set d k (dict_get d k 0 + 1)) = sum_counts d + 1.
Proof.
  unfold sum_counts, dict_get.
  induction d as [|[k' v'] d IH]; simpl; [reflexivity|].
  destruct (String.eqb k' k) eqn:E; simpl; [lia|].
  destruct (dict_find d k); simpl in *; lia.
Qed.

Lemma sum_counts_insert (x : string * Z) (l : list (string * Z)) :
  sum_counts (insert_by_count x l) = snd x + sum_counts l.
Proof.
  unfold sum_counts. induction l as [|y l IH]; simpl; [reflexivity|].
  destruct (snd y <=? snd x); simpl; [reflexivity|].
  unfold sum_counts in IH. lia.
Qed.

(** Sorting the counts keeps their sum. *)
Lemma sum_counts_sorted (l : list (string * Z)) :
  sum_counts (sorted_by_count l) = sum_counts l.
Proof.
  induction l as [|x l IH]; simpl; [reflexivity|].
  rewrite sum_counts_insert. unfold sum_counts in *. simpl. lia.
Qed.

End CountFacts.

Section DictOrderFacts.
Context {V : Type}.

Lemma dict_find_set (d : dict V) (k : string) (v : V) (k' : string) :
  dict_find (dict_set d k v) k' =
  if String.eqb k k' then Some v else dict_find d k'.
Proof.
  induction d as [|[k0 v0] d IH]; simpl.
  - reflexivity.
  - destruct (String.eqb k0 k) eqn:E; simpl.
    + apply String.eqb_eq in E. subst k0.
      now destruct (String.eqb k k').
    + rewrite IH. destruct (String.eqb k0 k') eqn:E0; [|reflexivity].
      apply String.eqb_eq in E0. subst k0. now rewrite String.eqb_sym, E.
Qed.

Lemma dict_set_nodup (d : dict V) (k : string) (v : V) :
  NoDup (map fst d) -> NoDup (map fst (dict_set d k v)).
Proof.
  induction d as [|[k0 v0] d IH]; simpl; intros H.
  - constructor; [intros [] | constructor].
  - inversion H as [|? ? Hnotin Hnd]; subst.
    destruct (String.eqb k0 k) eqn:E; simpl.
    + now constructor.
    + constructor; [|now apply IH].
      rewrite dict_set_keys_in. intros [-> | Hin]; [|contradiction].
      now rewrite String.eqb_refl in E.
Qed.

End DictOrderFacts.

Section SortedCountFacts.

Lemma insert_by_count_keys (x : string * Z) (l : list (string * Z)) (k : string) :
  In k (map fst (insert_by_count x l)) <-> k = fst x \/ In k (map fst l).
Proof.
  induction l as [|y l IH]; simpl.
  - intuition.
  - destruct (snd y <=? snd x)%Z; simpl; [intuition|].
    rewrite IH. intuition.
Qed.

Lemma sorted_by_count_keys (l : list (string * Z)) (k : string) :
  In k (map fst (sorted_by_count l)) <-> In k (map fst l).
Proof.
  induction l as [|x l IH]; simpl; [tauto|].
  rewrite insert_by_count_keys, IH. intuition.
Qed.



End SortedCountFacts.

(** ** The statistics pass *)

Section AccumulateFacts.

Lemma accumulate_snoc (l : list Product.t) (p : Product.t) :
  accumulate (l ++ [p]) = accum_body (accumulate l) p.
Proof. unfold accumulate. now rewrite fold_left_app. Qed.


Lemma accum_body_counts (a : accum) (p : Product.t) :
  cat_counts (accum_body a p) =
  dict_set (cat_counts a) (Product.category p)
           (dict_get (cat_counts a) (Product.category p) 0 + 1)%Z.
Proof. unfold accum_body. now destruct (Rlt_dec 0 (Product.price p)). Qed.




(** The price list holds the positive prices, in reservoir order. *)
Lemma accumulate_prices (l : list Product.t) :
  prices (accumulate l) = map Product.price (filter priced l).
Proof.
  induction l as [|p l IH] using rev_ind; [reflexivity|].
  rewrite accumulate_snoc, filter_app, map_app. simpl.
  unfold accum_body, priced at 2.
  destruct (Rlt_dec 0 (Product.price p)); simpl; rewrite IH.
  - reflexivity.
  - now rewrite app_nil_r.
Qed.

(** Every record is counted once. *)
Lemma accumulate_sum_counts (l : list Product.t) :
  sum_counts (cat_counts (accumulate l)) = Z.of_nat (List.length l).
Proof.
  induction l as [|p l IH] using rev_ind; [reflexivity|].
  rewrite accumulate_snoc, accum_body_counts, sum_counts_bump, IH.
  rewrite length_app. simpl. lia.
Qed.

Lemma accumulate_counts_nodup (l : list Product.t) :
  NoDup (map fst (cat_counts (accumulate l))).
Proof.
  induction l as [|p l IH] using rev_ind; [constructor|].
  rewrite accumulate_snoc, accum_body_counts. now apply dict_set_nodup.
Qed.

(** Each category's count is the number of its records, priced or not. *)
Lemma accumulate_count_category (l : list Product.t) (c : string) :
  dict_get (cat_counts (accumulate l)) c 0%Z = count_category c l.
Proof.
  unfold count_category, dict_get.
  induction l as [|p l IH] using rev_ind; [reflexivity|].
  rewrite accumulate_snoc, accum_body_counts, dict_find_set.
  rewrite filter_app, length_app. simpl.
  destruct (String.eqb (Product.category p) c) eqn:E; simpl.
  - apply String.eqb_eq in E. subst c.
    unfold dict_get. rewrite IH. lia.
  - rewrite IH. lia.
Qed.

End AccumulateFacts.

Section SortFacts.
Local Open Scope R_scope.

Lemma insert_float_perm (x : R) (l : list R) :
  Permutation (x :: l) (insert_float x l).
Proof.
  induction l as [|y l IH]; simpl; [reflexivity|].
  destruct (Rle_dec x y); [reflexivity|].
  rewrite perm_swap. now constructor.
Qed.

Lemma sort_floats_perm (l : list R) : Permutation l (sort_floats l).
Proof.
  induction l as [|x l IH]; simpl; [constructor|].
  rewrite <- insert_float_perm. now constructor.
Qed.

Lemma sort_floats_length (l : list R) :
  List.length (sort_floats l) = List.length l.
Proof. symmetry. apply Permutation_length, sort_floats_perm. Qed.

Lemma insert_float_sorted (x : R) (l : list R) :
  StronglySorted Rle l -> StronglySorted Rle (insert_float x l).
Proof.
  induction l as [|y l IH]; simpl; intros H.
  - repeat constructor.
  - inversion H as [|? ? Hl Hy]; subst.
    destruct (Rle_dec x y) as [Hxy|Hxy].
    + constructor; [exact H|]. constructor; [exact Hxy|].
      eapply Forall_impl; [|exact Hy]. intros z Hz. simpl in Hz. lra.
    + constructor; [now apply IH|].
      apply (Permutation_Forall (insert_float_perm x l)).
      constructor; [lra | exact Hy].
Qed.

Lemma sort_floats_sorted (l : list R) : StronglySorted Rle (sort_floats l).
Proof.
  induction l as [|x l IH]; simpl; [constructor|].
  now apply insert_float_sorted.
Qed.

(** In a sorted list, earlier elements are below later ones. *)
Lemma sorted_nth_le (l : list R) :
  StronglySorted Rle l ->
  forall i j d, (i <= j < List.length l)%nat -> nth i l d <= nth j l d.
Proof.
  induction 1 as [|x l Hs IH Hx]; intros i j d Hij; simpl in Hij; [lia|].
  destruct i as [|i], j as [|j]; simpl; try lia; try lra.
  - rewrite Forall_forall in Hx. apply Hx, nth_In. lia.
  - apply IH. lia.
Qed.

Lemma getitem_nat {A : Type} (l : list A) (i : nat) (d : A) :
  (i < List.length l)%nat -> getitem l (Z.of_nat i) = Ok (nth i l d).
Proof.
  intros H. unfold getitem.
  replace (Z.of_nat i <? 0)%Z with false by (symmetry; apply Z.ltb_ge; lia).
  replace ((0 <=? Z.of_nat i)%Z && (Z.of_nat i <? Z.of_nat (List.length l))%Z)
    with true
    by (symmetry; apply andb_true_iff; split;
        [apply Z.leb_le | apply Z.ltb_lt]; lia).
  rewrite Nat2Z.id. rewrite (nth_error_nth' l d H). reflexivity.
Qed.

Lemma getitem_last {A : Type} (l : list A) (d : A) :
  l <> [] -> getitem l (-1) = Ok (nth (List.length l - 1) l d).
Proof.
  intros H. assert (0 < List.length l)%nat by (destruct l; simpl; [congruence|lia]).
  unfold getitem. change (-1 <? 0)%Z with true. cbv iota.
  replace (Z.of_nat (List.length l) + -1)%Z
    with (Z.of_nat (List.length l - 1)) by lia.
  replace ((0 <=? _)%Z && _) with true
    by (symmetry; apply andb_true_iff; split;
        [apply Z.leb_le | apply Z.ltb_lt]; lia).
  rewrite Nat2Z.id. rewrite (nth_error_nth' l d); [reflexivity | lia].
Qed.

Lemma mapM_ok {A B : Type} (f : A -> result B) (g : A -> B) (l : list A) :
  (forall x, In x l -> f x = Ok (g x)) -> mapM f l = Ok (map g l).
Proof.
  induction l as [|x l IH]; simpl; intros H; [reflexivity|].
  rewrite (H x) by now left. simpl. rewrite IH by auto. reflexivity.
Qed.

Lemma fsum_shift (l : list R) (a : R) : fold_left Rplus l a = a + fsum l.
Proof.
  unfold fsum. revert a. induction l as [|x l IH]; intros a; simpl; [lra|].
  rewrite (IH (a + x)), (IH (0 + x)). lra.
Qed.

Lemma fsum_nonneg (l : list R) : Forall (fun x => 0 <= x) l -> 0 <= fsum l.
Proof.
  induction 1 as [|x l Hx Hl IH]; unfold fsum; simpl; [lra|].
  rewrite fsum_shift. lra.
Qed.


End SortFacts.

Section StatsFacts.
Local Open Scope R_scope.

(** The global statistics never raise, and are the closed forms. *)
Lemma price_stats_ok (ps : list R) : price_stats ps = Ok (stats_of ps).
Proof.
  destruct ps as [|x t]; [reflexivity|].
  unfold price_stats, stats_of.
  set (s := sort_floats (x :: t)). set (n := List.length s).
  assert (Hn : (0 < n)%nat).
  { subst n s. rewrite sort_floats_length. simpl. lia. }
  assert (HnR : INR n <> 0) by (apply not_0_INR; lia).
  assert (Hs : s <> []) by (intros E; subst n; rewrite E in Hn; simpl in Hn; lia).
  rewrite fdiv_ok by exact HnR. cbn [Py.bind].
  set (avg := fsum s / INR n).
  replace (Z.of_nat n / 2)%Z with (Z.of_nat (n / 2))
    by (rewrite Nat2Z.inj_div; reflexivity).
  rewrite (getitem_nat s (n / 2) 0)
    by (apply Nat.Div0.div_lt_upper_bound; fold n; lia).
  cbn [Py.bind].
  rewrite (getitem_nat s 0 0 Hn : getitem s 0%Z = _). cbn [Py.bind].
  rewrite (getitem_last s 0 Hs). cbn [Py.bind]. fold n.
  rewrite (mapM_ok _ (fun x => (x - avg) * (x - avg)))
    by (intros; apply float_pow_2).
  cbn [Py.bind]. rewrite fdiv_ok by exact HnR. cbn [Py.bind].
  rewrite float_pow_half.
  - reflexivity.
  - apply Rmult_le_pos.
    + apply fsum_nonneg. apply Forall_forall. intros y Hy.
      apply in_map_iff in Hy. destruct Hy as (z & <- & _).
      apply Rle_0_sqr.
    + left. apply Rinv_0_lt_compat. apply lt_0_INR. lia.
Qed.

End StatsFacts.

Section ComputeStatsFacts.

Lemma dict_set_same_keys {V W : Type} (d : dict V) (d' : dict W)
    (k : string) (v : V) (w : W) :
  map fst d = map fst d' ->
  map fst (dict_set d k v) = map fst (dict_set d' k w).
Proof.
  revert d'. induction d as [|[k0 v0] d IH]; intros [|[k1 w1] d'] H;
    simpl in *; try discriminate; [reflexivity|].
  inversion H; subst.
  destruct (String.eqb k1 k); simpl; f_equal; auto.
Qed.

Lemma dict_set_positive (d : dict Z) (k : string) :
  Forall (fun kv => 1 <= snd kv)%Z d ->
  Forall (fun kv => 1 <= snd kv)%Z (dict_set d k (dict_get d k 0 + 1)%Z).
Proof.
  unfold dict_get. induction d as [|[k0 v0] d IH]; simpl; intros H.
  - repeat constructor. simpl. lia.
  - inversion H as [|? ? Hv Hd]; subst. simpl in Hv.
    destruct (String.eqb k0 k); simpl.
    + constructor; [simpl; lia | exact Hd].
    + constructor; [exact Hv | now apply IH].
Qed.

(** A category has a price sum exactly when it has a price count, and
    every price count is at least one. *)
Lemma accumulate_sums_cnts (l : list Product.t) :
  map fst (cat_sums (accumulate l)) = map fst (cat_cnts (accumulate l)) /\
  Forall (fun kv => 1 <= snd kv)%Z (cat_cnts (accumulate l)).
Proof.
  induction l as [|p l [IHk IHp]] using rev_ind; [split; constructor|].
  rewrite accumulate_snoc. unfold accum_body.
  destruct (Rlt_dec 0 (Product.price p)); simpl; [|now split].
  split; [now apply dict_set_same_keys | now apply dict_set_positive].
Qed.

(** The statistics pass never raises; its record holds the reservoir, the
    accumulated dictionaries and the closed-form price statistics. *)
Lemma compute_stats_ok (reservoir : list Product.t) (total_rows : nat) :
  let a := accumulate reservoir in
  exists data,
    compute_stats reservoir total_rows = Ok data /\
    PrecomputedData.products data = reservoir /\
    PrecomputedData.category_counts data = sorted_by_count (cat_counts a) /\
    PrecomputedData.category_avg_prices data =
      map (category_average (cat_sums a)) (cat_cnts a) /\
    PrecomputedData.category_min_prices data = cat_mins a /\
    PrecomputedData.category_max_prices data = cat_maxs a /\
    PrecomputedData.total_products data = Z.of_nat (List.length reservoir) /\
    PrecomputedData.total_in_csv data = Z.of_nat total_rows /\
    PrecomputedData.priced_products data = Z.of_nat (List.length (prices a)) /\
    (PrecomputedData.avg_price data, PrecomputedData.median_price data,
     PrecomputedData.min_price data, PrecomputedData.max_price data,
     PrecomputedData.std_price data) = stats_of (prices a) /\
    PrecomputedData.zero_price_count data =
      (Z.of_nat (List.length reservoir) - Z.of_nat (List.length (prices a)))%Z.
Proof.
  intros a. unfold compute_stats. fold a.
  destruct (accumulate_sums_cnts reservoir) as [Hkeys Hpos].
  fold a in Hkeys, Hpos.
  rewrite (mapM_ok _ (category_average (cat_sums a))).
  - cbn [Py.bind]. rewrite price_stats_ok.
    destruct (stats_of (prices a)) as [[[[avg med] lo] hi] std].
    cbn [Py.bind]. eexists. split; [reflexivity|]. simpl. tauto.
  - intros [c n] Hin. unfold category_average, dict_lookup, dict_get. simpl.
    assert (Hc : In c (map fst (cat_sums a))).
    { rewrite Hkeys. apply in_map_iff. exists (c, n). now split. }
    destruct (dict_find_in_keys (cat_sums a) c Hc) as [v ->]. cbn [Py.bind].
    rewrite Forall_forall in Hpos. specialize (Hpos _ Hin). simpl in Hpos.
    rewrite fdiv_ok; [reflexivity|].
    apply not_0_IZR. lia.
Qed.

End ComputeStatsFacts.

(** ** Ingestion: the claims *)

Section IngestionClaims.

Lemma load_with_inv (K : nat) (rows : list Row.t) (g : Rng)
    (data : PrecomputedData.t) :
  load_with K rows g = Ok data ->
  exists res g',
    read_rows K rows g = Ok (res, List.length rows, g') /\
    compute_stats res (List.length rows) = Ok data.
Proof.
  unfold load_with. intros H. apply bind_ok_inv in H.
  destruct H as ([[res total] g'] & Hread & Hstats).
  destruct (read_rows_counts _ _ _ _ _ _ Hread) as [-> _]. eauto.
Qed.

(** Ingestion returns on every stream whose sample ids convert. *)
Lemma load_with_total (K : nat) (rows : list Row.t) (g : Rng) :
  Forall (fun r => Row.sample_id r <> Malformed) rows ->
  exists data, load_with K rows g = Ok data.
Proof.
  intros Hwf. unfold load_with.
  destruct (read_rows_total K rows g Hwf) as (res & g' & ->).
  cbn [Py.bind].
  destruct (compute_stats_ok res (List.length rows)) as (data & -> & _).
  eauto.
Qed.

Lemma max_products_value : Z.of_nat MAX_PRODUCTS = 10000%Z.
Proof. unfold MAX_PRODUCTS. rewrite Z2Nat.id; lia. Qed.


End IngestionClaims.

(** ** Statistics: the claims *)

Section StatisticsClaims.
Local Open Scope R_scope.

Lemma stats_of_ordered (ps : list R) :
  ps <> [] ->
  let '(_, median, lo, hi, _) := stats_of ps in lo <= median <= hi.
Proof.
  destruct ps as [|x t]; [congruence|]. intros _. unfold stats_of.
  set (s := sort_floats (x :: t)). set (n := List.length s).
  assert (Hn : (0 < n)%nat).
  { subst n s. rewrite sort_floats_length. simpl. lia. }
  pose proof (sort_floats_sorted (x :: t)) as Hs. fold s in Hs.
  assert (Hhalf : (n / 2 < n)%nat)
    by (apply Nat.Div0.div_lt_upper_bound; lia).
  split; apply sorted_nth_le; auto; fold n; lia.
Qed.

(** C5. Every snapshot ingestion produces is consistent: the category
    counts add up to total_sampled, which is the number of records and at
    most the capacity; total_seen is at least total_sampled; priced_count
    is the number of records with a price above zero; and when that is
    positive, min_price <= median_price <= max_price. *)
Theorem snapshot_aggregate_consistency (rows : list Row.t) (g : Rng)
    (data : PrecomputedData.t) :
  load_and_cache rows g = Ok data ->
  sum_counts (PrecomputedData.category_counts data) =
    PrecomputedData.total_products data
  /\ PrecomputedData.total_products data =
       Z.of_nat (List.length (PrecomputedData.products data))
  /\ (List.length (PrecomputedData.products data) <= MAX_PRODUCTS)%nat
  /\ (PrecomputedData.total_products data <=
      PrecomputedData.total_in_csv data)%Z
  /\ PrecomputedData.priced_products data =
       Z.of_nat (List.length (filter priced (PrecomputedData.products data)))
  /\ ((0 < PrecomputedData.priced_products data)%Z ->
      PrecomputedData.min_price data <= PrecomputedData.median_price data
      /\ PrecomputedData.median_price data <= PrecomputedData.max_price data).
Proof.
  unfold load_and_cache. intros H. apply load_with_inv in H.
  destruct H as (res & g' & Hread & Hstats).
  destruct (read_rows_counts _ _ _ _ _ _ Hread) as [_ Hlen].
  destruct (compute_stats_ok res (List.length rows))
    as (data' & Hd & Hprod & Hcounts & _ & _ & _ & Htp & Htot & Hpriced
        & Hst & _).
  assert (data' = data) by congruence. subst data'.
  rewrite Hcounts, Htp, Htot, Hpriced, Hprod.
  rewrite sum_counts_sorted, accumulate_sum_counts.
  rewrite accumulate_prices in *. rewrite length_map in *.
  split; [reflexivity|]. split; [reflexivity|]. split; [lia|].
  split; [lia|]. split; [reflexivity|].
  intros Hpos.
  assert (Hne : map Product.price (filter priced res) <> []).
  { intros E. apply (f_equal (@List.length R)) in E.
    rewrite length_map in E. simpl in E. lia. }
  pose proof (stats_of_ordered _ Hne) as Hord.
  rewrite <- Hst in Hord. exact Hord.
Qed.

(** C5, applied to the three-row source of the specification. *)
Lemma snapshot_consistency_of_three_rows :
  exists data,
    load_and_cache three_rows (constant_rng 0) = Ok data
    /\ sum_counts (PrecomputedData.category_counts data) =
         PrecomputedData.total_products data
    /\ PrecomputedData.total_products data =
         Z.of_nat (List.length (PrecomputedData.products data))
    /\ (List.length (PrecomputedData.products data) <= MAX_PRODUCTS)%nat
    /\ (PrecomputedData.total_products data <=
        PrecomputedData.total_in_csv data)%Z
    /\ PrecomputedData.priced_products data =
         Z.of_nat (List.length (filter priced (PrecomputedData.products data)))
    /\ ((0 < PrecomputedData.priced_products data)%Z ->
        PrecomputedData.min_price data <= PrecomputedData.median_price data
        /\ PrecomputedData.median_price data <= PrecomputedData.max_price data).
Proof.
  assert (Hwf : Forall (fun r => Row.sample_id r <> Malformed) three_rows)
    by (repeat constructor; discriminate).
  destruct (load_with_total MAX_PRODUCTS three_rows (constant_rng 0) Hwf)
    as [data Hdata].
  exists data. split; [exact Hdata|].
  exact (snapshot_aggregate_consistency three_rows (constant_rng 0) data Hdata).
Defined.




End StatisticsClaims.

(** ** The reward function *)

Section RewardFacts.
Local Open Scope R_scope.

Lemma float_pow_pos (x y : R) : 0 < x -> float_pow x y = Ok (Rpower x y).
Proof.
  intros Hx. unfold float_pow.
  destruct (Req_dec_T y 0) as [->|Hy].
  - now rewrite Rpower_O.
  - destruct (Req_dec_T x 0); [lra|]. destruct (Rlt_dec x 0); [lra|].
    reflexivity.
Qed.

Lemma Rmax_one_nonzero (x : R) : Rmax 1.0 x <> 0.
Proof. pose proof (Rmax_l 1.0 x). lra. Qed.

Lemma Rmax_one_pos (x : R) : 0 < Rmax 1 x.
Proof. pose proof (Rmax_l 1 x). lra. Qed.

(** The demand function never raises: the guard returns 0 before the
    division and the power are reached with a non-positive price. *)
Lemma demand_function_ok (price base elasticity seasonal engagement : R) :
  _demand_function price base elasticity seasonal engagement =
  Ok (demand_of price base elasticity seasonal engagement).
Proof.
  unfold _demand_function, demand_of.
  destruct (Rle_dec base 0); [f_equal; lra|].
  destruct (Rle_dec price 0); [f_equal; lra|].
  rewrite fdiv_ok by lra. cbn [Py.bind].
  rewrite float_pow_pos by (apply Rdiv_lt_0_compat; lra).
  cbn [Py.bind]. f_equal. f_equal; lra.
Qed.


Lemma inventory_penalty_ok (m : MarketState.t) :
  (if (MarketState.inventory_level m <? 20)%Z
   then float_pow (IZR (20 - MarketState.inventory_level m) / 20) 2
   else if (400 <? MarketState.inventory_level m)%Z
        then float_pow (IZR (MarketState.inventory_level m - 400) / 400) 2
        else Ok 0.0) = Ok (inventory_penalty m).
Proof.
  unfold inventory_penalty. cbv zeta.
  destruct (_ <? 20)%Z; [rewrite float_pow_2; f_equal; simpl; lra|].
  destruct (400 <? _)%Z; [rewrite float_pow_2; f_equal; simpl; lra|].
  f_equal. lra.
Qed.

(** [compute_reward] never raises, and returns the five values of the
    reward formula. *)
Lemma compute_reward_ok (self : DynamicPricingEngine) (old_price new_price : R)
    (m : MarketState.t) :
  compute_reward self old_price new_price m =
  Ok (total_reward_of (settings self) old_price new_price m,
      profit_component new_price m,
      competitive_penalty new_price m,
      stability_penalty old_price new_price,
      inventory_penalty m).
Proof.
  unfold compute_reward. cbv zeta. rewrite inventory_penalty_ok.
  rewrite demand_function_ok. cbn [Py.bind].
  rewrite !fdiv_ok by apply Rmax_one_nonzero. cbn [Py.bind].
  rewrite !float_pow_2. cbn [Py.bind].
  assert (Hp : (new_price - _estimate_cost (MarketState.current_price m))
               * demand_of new_price (MarketState.current_price m)
                   (MarketState.demand_elasticity m)
                   (MarketState.seasonal_factor m)
                   (MarketState.user_engagement m)
               / Rmax 1.0 (MarketState.current_price m * 100)
               = profit_component new_price m).
  { unfold profit_component, _estimate_cost.
    replace 1.0 with 1 by lra. f_equal. f_equal. lra. }
  assert (Hc : Rmax 0.0 (new_price - MarketState.competitor_price m)
               / Rmax 1.0 (MarketState.competitor_price m)
               * (Rmax 0.0 (new_price - MarketState.competitor_price m)
                  / Rmax 1.0 (MarketState.competitor_price m))
               = competitive_penalty new_price m).
  { unfold competitive_penalty. replace 1.0 with 1 by lra.
    replace 0.0 with 0 by lra. simpl. ring. }
  assert (Hs : Rabs (new_price - old_price) / Rmax 1.0 old_price
               * (Rabs (new_price - old_price) / Rmax 1.0 old_price)
               = stability_penalty old_price new_price).
  { unfold stability_penalty. replace 1.0 with 1 by lra. simpl. ring. }
  rewrite Hp, Hc, Hs. reflexivity.
Qed.

End RewardFacts.

Section MonotonicityClaims.
Local Open Scope R_scope.

Lemma square_ratio_increasing (a b d : R) :
  0 <= a -> a < b -> 0 < d -> (a / d) ^ 2 < (b / d) ^ 2.
Proof.
  intros Ha Hab Hd.
  assert (Hinv : 0 < / d) by now apply Rinv_0_lt_compat.
  unfold Rdiv. simpl.
  assert (H1 : 0 <= a * / d) by (apply Rmult_le_pos; lra).
  assert (H2 : a * / d < b * / d) by (apply Rmult_lt_compat_r; lra).
  nra.
Qed.

(** Above the competitor's price, the competitive penalty grows with the
    new price. *)
Lemma competitive_penalty_increasing (m : MarketState.t) (n1 n2 : R) :
  MarketState.competitor_price m < n1 -> n1 < n2 ->
  competitive_penalty n1 m < competitive_penalty n2 m.
Proof.
  intros H1 H2. unfold competitive_penalty.
  rewrite (Rmax_right 0 (n1 - _)), (Rmax_right 0 (n2 - _)) by lra.
  apply square_ratio_increasing; [lra | lra | apply Rmax_one_pos].
Qed.

(** For one old price, the stability penalty grows with the size of the
    change. *)
Lemma stability_penalty_increasing (old_price n1 n2 : R) :
  Rabs (n1 - old_price) < Rabs (n2 - old_price) ->
  stability_penalty old_price n1 < stability_penalty old_price n2.
Proof.
  intros H. unfold stability_penalty.
  apply square_ratio_increasing;
    [apply Rabs_pos | exact H | apply Rmax_one_pos].
Qed.

Lemma stability_penalty_1_3 : stability_penalty 1 3 = 4.
Proof.
  unfold stability_penalty.
  replace (3 - 1) with 2 by lra. rewrite Rabs_right by lra.
  rewrite Rmax_left by lra. simpl. lra.
Qed.

Lemma stability_penalty_10_3 : stability_penalty 10 3 = 0.49.
Proof.
  unfold stability_penalty.
  rewrite (Rabs_left (3 - 10)) by lra.
  rewrite Rmax_right by lra. simpl. lra.
Qed.

(** C9, counterexample.  With the market state fixed and the old price
    free, a larger price change can carry a smaller stability penalty:
    from 1 to 3 the change is 2 and the penalty 4; from 10 to 3 the change
    is 7 and the penalty 0.49. *)
Lemma stability_penalty_depends_on_old_price :
  exists t1 r1 c1 i1 t2 r2 c2 i2,
    compute_reward default_engine 1 3 sample_market = Ok (t1, r1, c1, 4, i1)
    /\ compute_reward default_engine 10 3 sample_market =
       Ok (t2, r2, c2, 0.49, i2)
    /\ Rabs (3 - 1) < Rabs (3 - 10)
    /\ ~ 4 < 0.49.
Proof.
  do 8 eexists. rewrite !compute_reward_ok.
  rewrite stability_penalty_1_3, stability_penalty_10_3.
  split; [reflexivity|]. split; [reflexivity|]. split; [|lra].
  rewrite (Rabs_right (3 - 1)), (Rabs_left (3 - 10)) by lra. lra.
Qed.

(** C9, as amended.  With the market state and the old price fixed, the
    competitive penalty [compute_reward] returns is strictly increasing in
    the new price above the competitor's price, and the stability penalty
    is strictly increasing in |new_price - old_price|. *)
Theorem reward_penalties_monotone (self : DynamicPricingEngine)
    (old_price : R) (market : MarketState.t) (n1 n2 : R) :
  exists t1 r1 c1 s1 i1 t2 r2 c2 s2 i2,
    compute_reward self old_price n1 market = Ok (t1, r1, c1, s1, i1)
    /\ compute_reward self old_price n2 market = Ok (t2, r2, c2, s2, i2)
    /\ (MarketState.competitor_price market < n1 -> n1 < n2 -> c1 < c2)
    /\ (Rabs (n1 - old_price) < Rabs (n2 - old_price) -> s1 < s2).
Proof.
  do 10 eexists. rewrite !compute_reward_ok.
  split; [reflexivity|]. split; [reflexivity|]. split.
  - apply competitive_penalty_increasing.
  - apply stability_penalty_increasing.
Qed.

End MonotonicityClaims.

(** ** The candidate search *)

Section SearchFacts.
Local Open Scope R_scope.

Variable self : DynamicPricingEngine.
Variable market : MarketState.t.

Local Abbreviation base := (MarketState.current_price market).
Local Abbreviation score := (score_of self market).

(** The loop from a finite best reward: it ends either on the best price it
    started from, no candidate scoring higher, or on the first candidate
    of the highest score. *)
Lemma search_from_finite (cands : list R) :
  forall bp br,
  exists p r,
    search self market base cands bp (Fin br) = Ok (p, Fin r) /\
    ((p = bp /\ r = br /\
      forall c, In c (map floored cands) -> score c <= br)
     \/ (exists i,
           nth_error (map floored cands) i = Some p /\ r = score p /\
           br < r /\
           (forall c, In c (map floored cands) -> score c <= r) /\
           (forall j c, (j < i)%nat ->
              nth_error (map floored cands) j = Some c -> score c < r))).
Proof.
  induction cands as [|c rest IH]; intros bp br.
  - exists bp, br. split; [reflexivity|]. left. repeat split. intros c [].
  - cbn [search map]. rewrite compute_reward_ok. cbn [Py.bind].
    fold (floored c). fold (score (floored c)).
    unfold gt_xfloat. destruct (Rgt_dec (score (floored c)) br) as [Hgt|Hle].
    + destruct (IH (floored c) (score (floored c)))
        as (p & r & Hs & [(-> & -> & Hall) | (i & Hi & -> & Hlt & Hall & Hfirst)]).
      * exists (floored c), (score (floored c)). split; [exact Hs|].
        right. exists 0%nat. repeat split; auto.
        -- intros x [<- | Hx]; [lra | now apply Hall].
        -- intros j x Hj. lia.
      * exists p, (score p). split; [exact Hs|].
        right. exists (S i). repeat split; auto.
        -- lra.
        -- intros x [<- | Hx]; [lra | now apply Hall].
        -- intros [|j] x Hj Hx; simpl in Hx.
           ++ inversion Hx; subst. lra.
           ++ apply (Hfirst j); [lia | exact Hx].
    + destruct (IH bp br)
        as (p & r & Hs & [(-> & -> & Hall) | (i & Hi & -> & Hlt & Hall & Hfirst)]).
      * exists bp, br. split; [exact Hs|].
        left. repeat split. intros x [<- | Hx]; [lra | now apply Hall].
      * exists p, (score p). split; [exact Hs|].
        right. exists (S i). repeat split; auto.
        -- intros x [<- | Hx]; [lra | now apply Hall].
        -- intros [|j] x Hj Hx; simpl in Hx.
           ++ inversion Hx; subst. lra.
           ++ apply (Hfirst j); [lia | exact Hx].
Qed.

(** The loop from minus infinity over a non-empty list: the first
    candidate always replaces the initial best, and the loop ends on the
    first candidate of the highest score. *)
Lemma search_from_neg_inf (c0 : R) (rest : list R) (bp : R) :
  exists i p,
    nth_error (map floored (c0 :: rest)) i = Some p /\
    search self market base (c0 :: rest) bp NegInf = Ok (p, Fin (score p)) /\
    (forall c, In c (map floored (c0 :: rest)) -> score c <= score p) /\
    (forall j c, (j < i)%nat ->
       nth_error (map floored (c0 :: rest)) j = Some c -> score c < score p).
Proof.
  cbn [search map]. rewrite compute_reward_ok. cbn [Py.bind gt_xfloat].
  fold (floored c0). fold (score (floored c0)).
  destruct (search_from_finite rest (floored c0) (score (floored c0)))
    as (p & r & Hs & [(-> & -> & Hall) | (i & Hi & -> & Hlt & Hall & Hfirst)]).
  - exists 0%nat, (floored c0). repeat split; auto.
    + intros x [<- | Hx]; [lra | now apply Hall].
    + intros j x Hj. lia.
  - exists (S i), p. repeat split; auto.
    + intros x [<- | Hx]; [lra | now apply Hall].
    + intros [|j] x Hj Hx; simpl in Hx.
      * inversion Hx; subst. exact Hlt.
      * apply (Hfirst j); [lia | exact Hx].
Qed.

Lemma floored_fixed (c : R) : round_ndigits (floored c) 2 = floored c.
Proof. unfold floored. apply round_ndigits_idem. Qed.

(** [suggest_price] never raises, and returns the first of the floored and
    rounded candidates whose reward no other candidate exceeds. *)
Lemma suggest_price_first_best (product : Product.t) :
  exists i p,
    nth_error (map floored (candidates self market)) i = Some p /\
    suggest_price self product market = Ok p /\
    (forall c, In c (map floored (candidates self market)) ->
               score c <= score p) /\
    (forall j c, (j < i)%nat ->
       nth_error (map floored (candidates self market)) j = Some c ->
       score c < score p).
Proof.
  unfold suggest_price. fold base.
  destruct (candidates self market) as [|c0 rest] eqn:E;
    [discriminate E|].
  destruct (search_from_neg_inf c0 rest base)
    as (i & p & Hi & Hs & Hall & Hfirst).
  exists i, p. rewrite Hs. cbn [Py.bind].
  split; [exact Hi|]. split; [|split; assumption].
  f_equal. apply nth_error_In in Hi. apply in_map_iff in Hi.
  destruct Hi as (c & <- & _). apply floored_fixed.
Qed.

End SearchFacts.

Section SearchClaims.
Local Open Scope R_scope.

(** The search reads the engine's settings and nothing else of it. *)
Lemma search_reads_settings (self self' : DynamicPricingEngine)
    (market : MarketState.t) (base : R) (cands : list R) :
  settings self' = settings self ->
  forall bp br,
    search self' market base cands bp br = search self market base cands bp br.
Proof.
  intros Hs. induction cands as [|c rest IH]; intros bp br; [reflexivity|].
  cbn [search]. rewrite !compute_reward_ok, Hs. cbn [Py.bind].
  destruct (gt_xfloat _ br); apply IH.
Qed.

(** C7. [suggest_price] evaluates exactly ten candidates: base, base
    lowered by 0.25r, 0.50r and 0.75r, base raised by 0.25r, 0.50r and
    0.75r, the competitor price, and the competitor price times 0.98 and
    1.02, in this order.  Each is floored at 0.01 and rounded to 2 decimals,
    then scored by [compute_reward] with the candidate as new price and
    base as old price.  The price returned is the first candidate of the
    highest total reward: no candidate scores higher, and every earlier
    one scores strictly lower.  The result depends on the market and the
    settings only, not on the product or the state of the generator. *)
Theorem suggest_price_first_best_of_ten (self : DynamicPricingEngine)
    (product : Product.t) (market : MarketState.t) :
  let base := MarketState.current_price market in
  let r := AppSettings.price_adjustment_range (settings self) in
  let comp := MarketState.competitor_price market in
  let scored :=
    map (fun cp => round_ndigits (Rmax 0.01 cp) 2)
      [ base;
        base * (1 - r * 0.25); base * (1 - r * 0.50); base * (1 - r * 0.75);
        base * (1 + r * 0.25); base * (1 + r * 0.50); base * (1 + r * 0.75);
        comp; comp * 0.98; comp * 1.02 ] in
  let score c := total_reward_of (settings self) base c market in
  List.length (candidates self market) = 10%nat
  /\ (forall c, exists profit competitive stability inventory,
        compute_reward self base c market =
        Ok (score c, profit, competitive, stability, inventory))
  /\ (exists i p,
        nth_error scored i = Some p /\
        suggest_price self product market = Ok p /\
        (forall c, In c scored -> score c <= score p) /\
        (forall j c, (j < i)%nat -> nth_error scored j = Some c ->
                     score c < score p))
  /\ (forall self' product',
        settings self' = settings self ->
        suggest_price self' product' market =
        suggest_price self product market).
Proof.
  intros base r comp scored score.
  split; [reflexivity|]. split; [|split].
  - intros c. rewrite compute_reward_ok. do 4 eexists. reflexivity.
  - exact (suggest_price_first_best self market product).
  - intros self' product' Hs. unfold suggest_price.
    assert (Hc : candidates self' market = candidates self market)
      by (unfold candidates; now rewrite Hs).
    rewrite Hc. now rewrite (search_reads_settings self self' market _ _ Hs).
Qed.


End SearchClaims.

(** ** The simulation step and the rollout *)

Section RolloutFacts.
Local Open Scope R_scope.

Lemma blank_market_eq (m m2 : MarketState.t) :
  blank_market m2 = blank_market m ->
  MarketState.product_id m2 = MarketState.product_id m /\
  MarketState.current_price m2 = MarketState.current_price m /\
  MarketState.competitor_price m2 = MarketState.competitor_price m /\
  MarketState.inventory_level m2 = MarketState.inventory_level m /\
  MarketState.user_engagement m2 = MarketState.user_engagement m /\
  MarketState.seasonal_factor m2 = MarketState.seasonal_factor m /\
  MarketState.demand_elasticity m2 = MarketState.demand_elasticity m.
Proof.
  destruct m, m2. unfold blank_market. simpl. intros H.
  inversion H. subst. repeat split.
Qed.

Lemma total_reward_same_market (s : AppSettings.t) (o n : R)
    (m m2 : MarketState.t) :
  blank_market m2 = blank_market m ->
  total_reward_of s o n m2 = total_reward_of s o n m
  /\ profit_component n m2 = profit_component n m
  /\ competitive_penalty n m2 = competitive_penalty n m
  /\ inventory_penalty m2 = inventory_penalty m.
Proof.
  intros H. apply blank_market_eq in H.
  destruct H as (_ & H1 & H2 & H3 & H4 & H5 & H6).
  unfold total_reward_of, profit_component, competitive_penalty,
    inventory_penalty.
  rewrite H1, H2, H3, H4, H5, H6. repeat split.
Qed.

Lemma compute_reward_same_market (self : DynamicPricingEngine) (o n : R)
    (m m2 : MarketState.t) :
  blank_market m2 = blank_market m ->
  compute_reward self o n m2 = compute_reward self o n m.
Proof.
  intros H. rewrite !compute_reward_ok.
  destruct (total_reward_same_market (settings self) o n m m2 H)
    as (-> & -> & -> & ->).
  reflexivity.
Qed.

Lemma suggest_price_same_market (self : DynamicPricingEngine)
    (product : Product.t) (m m2 : MarketState.t) :
  blank_market m2 = blank_market m ->
  suggest_price self product m2 = suggest_price self product m.
Proof.
  intros H. unfold suggest_price.
  destruct (blank_market_eq m m2 H) as (_ & H1 & H2 & _).
  assert (Hc : candidates self m2 = candidates self m)
    by (unfold candidates; now rewrite H1, H2).
  rewrite Hc, H1.
  assert (Hs : forall cands bp br,
             search self m2 (MarketState.current_price m) cands bp br =
             search self m (MarketState.current_price m) cands bp br).
  { induction cands as [|c rest IH]; intros bp br; [reflexivity|].
    cbn [search]. rewrite (compute_reward_same_market self _ _ m m2 H).
    destruct (compute_reward self _ _ m) as [[[[[t ?] ?] ?] ?]|e];
      cbn [Py.bind]; [|reflexivity].
    destruct (gt_xfloat t br); apply IH. }
  now rewrite Hs.
Qed.

(** A step returns; its action carries the clock's reading, and two steps
    from market states that differ in their timestamps only, at any two
    clocks, agree on everything but the timestamps. *)
Lemma simulate_step_same (self : DynamicPricingEngine) (product : Product.t)
    (m m2 : MarketState.t) (old_price : R) (clk clk2 : Clock) :
  blank_market m2 = blank_market m ->
  exists a mk e c a2 mk2 c2,
    simulate_step self product m old_price clk = Ok (a, mk, e, c)
    /\ simulate_step self product m2 old_price clk2 = Ok (a2, mk2, e, c2)
    /\ blank_action a = blank_action a2
    /\ blank_market mk = blank_market mk2
    /\ PricingAction.timestamp a = readings clk (ticks clk)
    /\ readings c = readings clk
    /\ settings e = settings self.
Proof.
  intros H. unfold simulate_step.
  rewrite (suggest_price_same_market self product m m2 H).
  destruct (suggest_price_first_best self m product) as (i & np & _ & -> & _).
  cbn [Py.bind].
  rewrite (compute_reward_same_market self old_price np m m2 H).
  rewrite compute_reward_ok. cbn [Py.bind].
  destruct (blank_market_eq m m2 H) as (_ & _ & H2 & H3 & H4 & H5 & H6).
  rewrite H2, H3, H4, H5, H6.
  destruct (randint_range (-30) 30 (_rng self)) as (j & g & -> & _); [lia|].
  cbn [Py.bind]. unfold PricingAction.init, MarketState.init.
  cbn [truthy now uniform random next_raw].
  do 7 eexists. split; [reflexivity|]. split; [reflexivity|].
  repeat split.
Qed.

End RolloutFacts.

Section RolloutLoopFacts.
Local Open Scope R_scope.

Lemma same_rollout_refl (st : rollout) : same_rollout st st.
Proof. unfold same_rollout. repeat split. Qed.

Lemma blank_action_set_step (a a2 : PricingAction.t) (n : Z) :
  blank_action a = blank_action a2 ->
  blank_action (PricingAction.set_step a n) =
  blank_action (PricingAction.set_step a2 n)
  /\ PricingAction.new_price a = PricingAction.new_price a2.
Proof.
  destruct a, a2. unfold blank_action, PricingAction.set_step. simpl.
  intros H. inversion H. subst. split; reflexivity.
Qed.

(** One iteration returns, appends one action stamped with the clock's
    reading, and keeps two loop states that agree up to timestamps in
    agreement. *)
Lemma rollout_body_same (product : Product.t) (k : Z) (st st2 : rollout) :
  same_rollout st st2 ->
  exists a s s2,
    rollout_body product k st = Ok s
    /\ rollout_body product k st2 = Ok s2
    /\ same_rollout s s2
    /\ ro_actions s = ro_actions st ++ [a]
    /\ PricingAction.timestamp a = readings (ro_clock st) (ticks (ro_clock st))
    /\ readings (ro_clock s) = readings (ro_clock st)
    /\ (exists x, ro_prices s = ro_prices st ++ [x])
    /\ settings (ro_self s) = settings (ro_self st).
Proof.
  intros (Hacts & Hprice & Hmkt & Hprices & Hself).
  unfold rollout_body. rewrite <- Hself, <- Hprice.
  destruct (simulate_step_same (ro_self st) product (ro_current_market st)
              (ro_current_market st2) (ro_current_price st)
              (ro_clock st) (ro_clock st2) (eq_sym Hmkt))
    as (a & mk & e & c & a2 & mk2 & c2 & -> & -> & Ha & Hm & Hts & Hc & He).
  cbn [Py.bind].
  destruct (blank_action_set_step a a2 (k + 1) Ha) as [Hset Hnew].
  exists (PricingAction.set_step a (k + 1)). do 2 eexists.
  split; [reflexivity|]. split; [reflexivity|].
  split; [|split; [reflexivity | split; [|split; [|split]]]].
  - unfold same_rollout. cbn [ro_actions ro_current_price ro_current_market
                               ro_prices ro_self].
    rewrite !map_app, Hacts, Hprices. cbn [map]. rewrite Hset.
    assert (Hn : PricingAction.new_price (PricingAction.set_step a (k + 1)) =
                 PricingAction.new_price (PricingAction.set_step a2 (k + 1)))
      by (destruct a, a2; simpl in *; exact Hnew).
    rewrite Hn. repeat split. exact Hm.
  - destruct a. exact Hts.
  - exact Hc.
  - eexists. reflexivity.
  - exact He.
Qed.

(** The loop returns after [n] iterations with [n] more actions, each
    stamped with a reading of the clock. *)
Lemma rollout_loop_same (product : Product.t) (n : nat) :
  forall k st st2,
    same_rollout st st2 ->
    exists s s2 new,
      rollout_loop product n k st = Ok s
      /\ rollout_loop product n k st2 = Ok s2
      /\ same_rollout s s2
      /\ ro_actions s = ro_actions st ++ new
      /\ List.length new = n
      /\ (forall ts, (forall i, readings (ro_clock st) i = ts) ->
            Forall (fun a => PricingAction.timestamp a = ts) new)
      /\ (ro_prices st <> [] -> ro_prices s <> [])
      /\ settings (ro_self s) = settings (ro_self st).
Proof.
  induction n as [|n IH]; intros k st st2 Hsame.
  - exists st, st2, []. cbn [rollout_loop]. rewrite app_nil_r.
    split; [reflexivity|]. split; [reflexivity|]. split; [exact Hsame|].
    repeat split; auto.
  - cbn [rollout_loop].
    destruct (rollout_body_same product k st st2 Hsame)
      as (a & s & s2 & -> & -> & Hs & Hacts & Hts & Hclk & [x Hpr] & Hset).
    cbn [Py.bind].
    destruct (IH (k + 1)%Z s s2 Hs)
      as (s' & s2' & new & -> & -> & Hs' & Hacts' & Hlen & Hstamp & Hne & Hset').
    exists s', s2', (a :: new).
    split; [reflexivity|]. split; [reflexivity|]. split; [exact Hs'|].
    split; [|split; [|split; [|split]]].
    + rewrite Hacts', Hacts, <- app_assoc. reflexivity.
    + simpl. now rewrite Hlen.
    + intros ts Hall. constructor.
      * rewrite Hts. apply Hall.
      * apply Hstamp. intros i. rewrite Hclk. apply Hall.
    + intros _. apply Hne. rewrite Hpr. now destruct (ro_prices st).
    + now rewrite Hset'.
Qed.

Lemma map_reward_blank (l l2 : list PricingAction.t) :
  map blank_action l = map blank_action l2 ->
  map PricingAction.reward l = map PricingAction.reward l2.
Proof.
  intros H. apply (f_equal (map PricingAction.reward)) in H.
  rewrite !map_map in H. exact H.
Qed.

(** A simulation returns.  It runs [steps or default_steps] iterations, one
    action each, stamped with the readings of the clock; at two clocks the
    results agree on everything but the timestamps, and the engine is left
    in the same state. *)
Lemma run_simulation_runs (self : DynamicPricingEngine) (product : Product.t)
    (market : MarketState.t) (steps : option Z) (clk clk2 : Clock) :
  let n := or_int steps (AppSettings.default_steps (settings self)) in
  exists r e c r2 c2,
    run_simulation self product market steps clk = Ok (r, e, c)
    /\ run_simulation self product market steps clk2 = Ok (r2, e, c2)
    /\ without_timestamps r = without_timestamps r2
    /\ List.length (SimulationResult.actions r) = Z.to_nat n
    /\ SimulationResult.steps r = n
    /\ (forall ts, (forall i, readings clk i = ts) ->
          Forall (fun a => PricingAction.timestamp a = ts)
                 (SimulationResult.actions r))
    /\ SimulationResult.initial_price r =
         round_ndigits (MarketState.current_price market) 2
    /\ settings e = settings self.
Proof.
  intros n. unfold run_simulation. fold n.
  set (st0 := mkRollout [] (MarketState.current_price market) market
                [MarketState.current_price market] self clk).
  set (st0' := mkRollout [] (MarketState.current_price market) market
                 [MarketState.current_price market] self clk2).
  assert (Hsame : same_rollout st0 st0') by (unfold same_rollout; repeat split).
  destruct (rollout_loop_same product (Z.to_nat n) 0%Z st0 st0' Hsame)
    as (s & s2 & new & -> & -> & (Hacts & Hprice & Hmkt & Hprices & Hself)
        & Hnew & Hlen & Hstamp & Hne & Hset).
  cbn [Py.bind]. simpl in Hnew. cbn [ro_prices st0] in Hne.
  rewrite <- Hprices, <- Hprice, <- Hself.
  rewrite <- (map_reward_blank _ _ Hacts).
  assert (Hlen2 : List.length (ro_actions s2) = List.length (ro_actions s)).
  { apply (f_equal (@List.length _)) in Hacts. rewrite !length_map in Hacts.
    now symmetry. }
  assert (Havg : exists avg,
             match ro_actions s with
             | [] => Ok 0.0
             | _ :: _ => fdiv (fsum (map PricingAction.reward (ro_actions s)))
                              (INR (List.length (ro_actions s)))
             end = Ok avg
             /\ match ro_actions s2 with
                | [] => Ok 0.0
                | _ :: _ => fdiv (fsum (map PricingAction.reward (ro_actions s)))
                                 (INR (List.length (ro_actions s2)))
                end = Ok avg).
  { rewrite Hlen2.
    destruct (ro_actions s) as [|a l] eqn:Ea, (ro_actions s2) as [|a2 l2] eqn:Ea2;
      try discriminate Hlen2.
    - eexists. split; reflexivity.
    - rewrite fdiv_ok by (apply not_0_INR; simpl; lia).
      eexists. split; reflexivity. }
  destruct Havg as (avg & -> & ->). cbn [Py.bind].
  destruct (ro_prices s) as [|x xs] eqn:Ep; [exfalso; now apply Hne|].
  cbn [max_list min_list Py.bind].
  do 5 eexists. split; [reflexivity|]. split; [reflexivity|].
  split; [|split; [|split; [|split; [|split]]]].
  - unfold without_timestamps. cbn. now rewrite Hacts.
  - cbn. rewrite Hnew. exact Hlen.
  - reflexivity.
  - intros ts Hall. cbn. rewrite Hnew. now apply Hstamp.
  - reflexivity.
  - exact Hset.
Qed.

End RolloutLoopFacts.

(** ** The rollout: the claims *)

Section RolloutClaims.
Local Open Scope R_scope.

Lemma round_ndigits_zero (d : nat) : round_ndigits 0 d = 0.
Proof.
  replace 0 with (IZR 0 / 10 ^ d) at 1 by (unfold Rdiv; apply Rmult_0_l).
  rewrite round_ndigits_grid. unfold Rdiv. apply Rmult_0_l.
Qed.

(** A run whose loop does not iterate: no action, zero total and average
    reward, and the initial price, rounded to cents, as final price. *)
Lemma run_simulation_no_iteration (self : DynamicPricingEngine)
    (product : Product.t) (market : MarketState.t) (steps : option Z)
    (clk : Clock) :
  (or_int steps (AppSettings.default_steps (settings self)) <= 0)%Z ->
  exists r,
    run_simulation self product market steps clk = Ok (r, self, clk)
    /\ SimulationResult.actions r = []
    /\ SimulationResult.total_reward r = 0
    /\ SimulationResult.avg_reward r = 0
    /\ SimulationResult.final_price r = SimulationResult.initial_price r
    /\ SimulationResult.initial_price r =
       round_ndigits (MarketState.current_price market) 2.
Proof.
  intros Hn. unfold run_simulation.
  replace (Z.to_nat (or_int steps _)) with 0%nat by lia.
  cbn [rollout_loop Py.bind ro_actions ro_prices ro_self ro_clock
       ro_current_price max_list min_list fold_left map].
  eexists. split; [reflexivity|]. cbn.
  split; [reflexivity|]. split; [apply round_ndigits_zero|].
  split; [|split; reflexivity].
  replace 0.0 with 0 by lra. apply round_ndigits_zero.
Qed.

(** C1, on the code.  [steps = 0] is falsy, so [steps or default_steps]
    runs the default number of steps: on an engine with the default
    settings the result of [run_simulation(product, market, steps=0)] is
    that of [run_simulation(product, market)], with 30 actions and
    [steps = 30], not an empty action list. *)
Theorem zero_steps_runs_default_steps (Random : Z -> Rng)
    (product : Product.t) (market : MarketState.t) (clk : Clock) :
  run_simulation (init Random None) product market (Some 0%Z) clk =
  run_simulation (init Random None) product market None clk
  /\ exists r e c,
       run_simulation (init Random None) product market (Some 0%Z) clk =
       Ok (r, e, c)
       /\ List.length (SimulationResult.actions r) = 30%nat
       /\ SimulationResult.steps r = 30%Z
       /\ SimulationResult.actions r <> [].
Proof.
  split; [reflexivity|].
  destruct (run_simulation_runs (init Random None) product market
              (Some 0%Z) clk clk)
    as (r & e & c & r2 & c2 & Hrun & _ & _ & Hlen & Hsteps & _).
  exists r, e, c. split; [exact Hrun|].
  cbn in Hlen, Hsteps. split; [exact Hlen|]. split; [exact Hsteps|].
  intros E. rewrite E in Hlen. discriminate Hlen.
Qed.



End RolloutClaims.

(** ** Further properties of the code *)

Section FurtherProperties.
Local Open Scope R_scope.

(** A sample id that does not convert aborts ingestion with [ValueError],
    at whatever row it stands first; a price that does not convert is read
    as 0.0 and the row is kept. *)
Theorem malformed_sample_id_aborts_ingestion (content unit_ value_ link : string)
    (price : cell R) (i : nat) (rest : list Row.t) (g : Rng) :
  product_of_row i (Row.mk content price Malformed unit_ value_ link)
  = Raise ValueError
  /\ load_and_cache (Row.mk content price Malformed unit_ value_ link :: rest) g
     = Raise ValueError
  /\ (exists p,
        product_of_row i (Row.mk content Malformed Missing unit_ value_ link)
        = Ok p
        /\ Product.price p = 0
        /\ Product.sample_id p = Z.of_nat i).
Proof.
  assert (H : forall k,
             product_of_row k (Row.mk content price Malformed unit_ value_ link)
             = Raise ValueError).
  { intros k. unfold product_of_row.
    destruct (_fast_parse_catalog _) as [[name bullets] desc]. reflexivity. }
  split; [apply H|]. split.
  - unfold load_and_cache, load_with, read_rows. cbn [loop_from loop_body].
    rewrite H. reflexivity.
  - unfold product_of_row. cbn [Row.catalog_content Row.price Row.sample_id].
    destruct (_fast_parse_catalog content) as [[name bullets] desc].
    cbn [Py.bind]. eexists. split; [reflexivity|].
    cbn [Product.price Product.sample_id]. split; [lra | reflexivity].
Qed.

(** A negative step count is truthy and [range] of it is empty: the run
    has no action, zero total and average reward, and the initial price,
    rounded to cents, as its final price; engine and clock are untouched. *)
Theorem negative_steps_run_nothing (self : DynamicPricingEngine)
    (product : Product.t) (market : MarketState.t) (k : positive)
    (clk : Clock) :
  exists r,
    run_simulation self product market (Some (Z.neg k)) clk
    = Ok (r, self, clk)
    /\ SimulationResult.actions r = []
    /\ SimulationResult.total_reward r = 0
    /\ SimulationResult.avg_reward r = 0
    /\ SimulationResult.final_price r = SimulationResult.initial_price r
    /\ SimulationResult.initial_price r =
       round_ndigits (MarketState.current_price market) 2
    /\ SimulationResult.steps r = Z.neg k.
Proof.
  destruct (run_simulation_no_iteration self product market
              (Some (Z.neg k)) clk) as (r & Hrun & H); [cbn; lia|].
  exists r. split; [exact Hrun|].
  destruct H as (H1 & H2 & H3 & H4 & H5). repeat split; auto.
  unfold run_simulation in Hrun.
  replace (Z.to_nat (or_int (Some (Z.neg k)) _)) with 0%nat in Hrun
    by (cbn; lia).
  cbn [rollout_loop Py.bind ro_prices max_list min_list] in Hrun.
  destruct (match ro_actions _ with [] => _ | _ => _ end) in Hrun;
    cbn [Py.bind] in Hrun; inversion Hrun; reflexivity.
Qed.

End FurtherProperties.

Section Scenario.
Local Open Scope R_scope.

Lemma fold_accum_counts (l : list Product.t) :
  forall a,
    cat_counts (fold_left accum_body l a) =
    fold_left (fun d p =>
                 dict_set d (Product.category p)
                   (dict_get d (Product.category p) 0 + 1)%Z)
              l (cat_counts a).
Proof.
  induction l as [|p l IH]; intros a; [reflexivity|].
  cbn [fold_left]. now rewrite IH, accum_body_counts.
Qed.

Lemma three_rows_read (g : Rng) :
  read_rows MAX_PRODUCTS three_rows g =
  Ok ([ Product.mk 0 "Green Tea" 10 "Coffee & Tea" "" "" "" "" "";
        Product.mk 1 "Mystery Box" 0 "Other" "" "" "" "" "";
        Product.mk 2 "Milk" 25 "Dairy & Refrigerated" "" "" "" "" "" ],
      3%nat, g).
Proof. destruct g. lazy. reflexivity. Qed.

Lemma sqrt_of_square (x y : R) : 0 <= y -> y * y = x -> sqrt x = y.
Proof. intros Hy <-. now apply sqrt_square. Qed.

(** The end-to-end scenario of the specification: three rows, Green Tea at
    10, Mystery Box at 0, Milk at 25.  All three are sampled, two are
    priced, the mean price is 17.5, and each category counts one record,
    in the order the records were seen. *)
Theorem three_rows_scenario (g : Rng) :
  exists data,
    load_and_cache three_rows g = Ok data
    /\ map Product.name (PrecomputedData.products data) =
       ["Green Tea"; "Mystery Box"; "Milk"]%string
    /\ PrecomputedData.total_products data = 3%Z
    /\ PrecomputedData.total_in_csv data = 3%Z
    /\ PrecomputedData.priced_products data = 2%Z
    /\ PrecomputedData.zero_price_count data = 1%Z
    /\ PrecomputedData.category_counts data =
       [("Coffee & Tea", 1); ("Other", 1); ("Dairy & Refrigerated", 1)]%Z%string
    /\ PrecomputedData.avg_price data = 17.5
    /\ PrecomputedData.median_price data = 25
    /\ PrecomputedData.min_price data = 10
    /\ PrecomputedData.max_price data = 25
    /\ PrecomputedData.std_price data = 7.5.
Proof.
  unfold load_and_cache, load_with. rewrite three_rows_read. cbn [Py.bind].
  set (res := [ Product.mk 0 "Green Tea" 10 "Coffee & Tea" "" "" "" "" "";
                Product.mk 1 "Mystery Box" 0 "Other" "" "" "" "" "";
                Product.mk 2 "Milk" 25 "Dairy & Refrigerated" "" "" "" "" "" ]).
  destruct (compute_stats_ok res 3)
    as (data & Hd & Hprod & Hcounts & _ & _ & _ & Htp & Htot & Hpriced
        & Hst & Hzero).
  exists data. split; [exact Hd|].
  assert (Hprices : prices (accumulate res) = [10; 25]).
  { rewrite accumulate_prices. unfold res, priced. cbn [filter Product.price].
    destruct (Rlt_dec 0 10); [|lra]. destruct (Rlt_dec 0 0); [lra|].
    destruct (Rlt_dec 0 25); [|lra]. reflexivity. }
  rewrite Hprices in Hpriced, Hst, Hzero.
  assert (Hsort : sort_floats [10; 25] = [10; 25]).
  { cbn [sort_floats fold_right insert_float].
    destruct (Rle_dec 10 25); [reflexivity | lra]. }
  unfold stats_of in Hst. rewrite Hsort in Hst.
  cbn [List.length Nat.div Nat.divmod fst nth Nat.sub] in Hst.
  injection Hst as Ha Hm Hl Hh Hs.
  rewrite Hprod, Htp, Htot, Hpriced, Hzero, Hcounts, Ha, Hm, Hl, Hh, Hs.
  assert (Hmean : fsum [10; 25] / INR 2 = 17.5)
    by (unfold fsum; simpl; lra).
  repeat split; try reflexivity.
  - unfold accumulate. rewrite fold_accum_counts. reflexivity.
  - exact Hmean.
  - unfold population_std. cbn [List.length]. rewrite Hmean.
    apply sqrt_of_square; [lra|]. unfold fsum. simpl. lra.
Qed.

End Scenario.

Section ReservoirExamples.
Local Open Scope string_scope.

(** The loop at capacity 2 on the three-row source.  The third row is
    row 2: with the draw j = 4 mod 3 = 1 it overwrites slot 1, and with
    the draw j = 5 mod 3 = 2 it is dropped; both times one draw is used
    and three rows are counted. *)
Theorem reservoir_of_two_on_three_rows :
  (exists res,
     read_rows 2 three_rows (constant_rng 4) = Ok (res, 3%nat, mkRng (fun _ => 4%N) 1)
     /\ map Product.name res = ["Green Tea"; "Milk"])
  /\ (exists res,
        read_rows 2 three_rows (constant_rng 5) = Ok (res, 3%nat, mkRng (fun _ => 5%N) 1)
        /\ map Product.name res = ["Green Tea"; "Mystery Box"]).
Proof.
  split; eexists; (split; [lazy; reflexivity | reflexivity]).
Qed.

End ReservoirExamples.

(* ================================================================== *)
(** * Further properties: rounding *)
(* ================================================================== *)

Section RoundingOrder.
Local Open Scope R_scope.

Lemma Int_part_mono (x y : R) : x <= y -> (Int_part x <= Int_part y)%Z.
Proof.
  intros H. pose proof (base_Int_part x) as [Hx _].
  pose proof (base_Int_part y) as [_ Hy].
  apply Z.lt_succ_r, lt_IZR. rewrite succ_IZR. lra.
Qed.

(** Rounding to the nearest integer keeps the order. *)
Lemma round_half_even_mono (x y : R) :
  x <= y -> (round_half_even x <= round_half_even y)%Z.
Proof.
  intros Hxy. pose proof (Int_part_mono x y Hxy) as Hn.
  destruct (Z.eq_dec (Int_part x) (Int_part y)) as [E|E].
  - unfold round_half_even, frac_part. rewrite E.
    assert (Hf : x - IZR (Int_part y) <= y - IZR (Int_part y)) by lra.
    destruct (Rlt_dec (x - IZR (Int_part y)) (1 / 2));
      destruct (Rlt_dec (y - IZR (Int_part y)) (1 / 2)); try lra; try lia;
      destruct (Rlt_dec (1 / 2) (x - IZR (Int_part y)));
      destruct (Rlt_dec (1 / 2) (y - IZR (Int_part y))); try lra; try lia;
      destruct (Z.even (Int_part y)); lia.
  - pose proof (round_half_even_bounds x) as [_ Hx].
    pose proof (round_half_even_bounds y) as [Hy _].
    apply le_IZR. apply Rle_trans with (IZR (Int_part x) + 1); [exact Hx|].
    apply Rle_trans with (IZR (Int_part y)); [|exact Hy].
    rewrite <- succ_IZR. apply IZR_le. lia.
Qed.

(** [round(x, d)] keeps the order. *)
Lemma round_ndigits_mono (x y : R) (d : nat) :
  x <= y -> round_ndigits x d <= round_ndigits y d.
Proof.
  intros H. unfold round_ndigits. pose proof (pow10_pos d) as Hp.
  apply Rmult_le_compat_r; [left; now apply Rinv_0_lt_compat|].
  apply IZR_le, round_half_even_mono.
  apply Rmult_le_compat_r; lra.
Qed.

(** Rounding does not cross a grid point above the argument. *)
Lemma round_ndigits_le (x : R) (k : Z) (d : nat) :
  x <= IZR k / 10 ^ d -> round_ndigits x d <= IZR k / 10 ^ d.
Proof.
  intros H. rewrite <- (round_ndigits_grid k d). now apply round_ndigits_mono.
Qed.

(** A value clamped to a range with bounds on the grid of cents stays in
    the range when rounded to cents. *)
Lemma round_clamped (lo hi : Z) (x : R) :
  IZR lo / 100 <= x <= IZR hi / 100 ->
  IZR lo / 100 <= round_ndigits x 2 <= IZR hi / 100.
Proof.
  intros [Hlo Hhi].
  replace 100 with (10 ^ 2) in * by (simpl; lra).
  split; [now apply round_ndigits_ge | now apply round_ndigits_le].
Qed.

End RoundingOrder.

(* ================================================================== *)
(** * Further properties: the reward components *)
(* ================================================================== *)

Section RewardComponents.
Local Open Scope R_scope.




End RewardComponents.

(* ================================================================== *)
(** * Further properties: one simulation step *)
(* ================================================================== *)

Section StepShape.
Local Open Scope R_scope.

Lemma random_range (g : Rng) : 0 <= fst (random g) < 1.
Proof.
  unfold random. cbn [next_raw fst].
  pose proof (Z.mod_pos_bound (Z.of_N (tape g (cursor g))) (2 ^ 53)
                ltac:(lia)) as [Hlo Hhi].
  assert (Hp : 0 < IZR (2 ^ 53)) by (apply IZR_lt; lia).
  split.
  - apply Rmult_le_pos; [now apply IZR_le | left; now apply Rinv_0_lt_compat].
  - apply Rmult_lt_reg_r with (IZR (2 ^ 53)); [exact Hp|].
    unfold Rdiv. rewrite Rmult_assoc, Rinv_l, Rmult_1_r, Rmult_1_l by lra.
    now apply IZR_lt.
Qed.

(** [uniform(a, b)] lies between its bounds. *)
Lemma uniform_range (a b : R) (g : Rng) :
  a <= b -> a <= fst (uniform a b g) <= b.
Proof.
  intros Hab. unfold uniform.
  pose proof (random_range g) as Hu.
  destruct (random g) as [u g']. cbn [fst] in *. nra.
Qed.

(** [round(max(lo, min(hi, x)), 2)] stays within [lo, hi] when both are
    amounts in cents. *)
Lemma round_clamp_bounds (lo hi : R) (klo khi : Z) (x : R) :
  lo = IZR klo / 100 -> hi = IZR khi / 100 -> lo <= hi ->
  lo <= round_ndigits (Rmax lo (Rmin hi x)) 2 <= hi.
Proof.
  intros -> -> Hle. apply round_clamped. split; [apply Rmax_l|].
  apply Rmax_lub; [exact Hle | apply Rmin_l].
Qed.

Lemma suggest_price_on_grid (self : DynamicPricingEngine)
    (product : Product.t) (market : MarketState.t) :
  exists np,
    suggest_price self product market = Ok np
    /\ 0.01 <= np /\ round_ndigits np 2 = np.
Proof.
  destruct (suggest_price_first_best self market product)
    as (i & p & Hi & Hp & _).
  exists p. split; [exact Hp|].
  apply nth_error_In, in_map_iff in Hi. destruct Hi as (c & <- & _).
  split; [apply round_cent_floor | apply floored_fixed].
Qed.

(** What one step returns, field by field. *)
Lemma simulate_step_shape (self : DynamicPricingEngine) (product : Product.t)
    (market : MarketState.t) (old_price : R) (clk : Clock) :
  exists np a m' g',
    suggest_price self product market = Ok np
    /\ 0.01 <= np
    /\ simulate_step self product market old_price clk =
       Ok (a, m', mkEngine (settings self) g',
           mkClock (readings clk) (S (S (ticks clk))))
    /\ tape g' = tape (_rng self)
    /\ cursor g' = (cursor (_rng self) + 4)%nat
    /\ PricingAction.product_id a = Product.sample_id product
    /\ PricingAction.product_name a = take 60 (Product.name product)
    /\ PricingAction.old_price a = round_ndigits old_price 2
    /\ PricingAction.new_price a = np
    /\ PricingAction.reward a =
       round_ndigits (total_reward_of (settings self) old_price np market) 4
    /\ PricingAction.step a = 0%Z
    /\ PricingAction.timestamp a = readings clk (ticks clk)
    /\ MarketState.product_id m' = Product.sample_id product
    /\ MarketState.current_price m' = np
    /\ 0.01 <= MarketState.competitor_price m'
    /\ (0 <= MarketState.inventory_level m'
        <= Z.max 0 (MarketState.inventory_level market + 30))%Z
    /\ (MarketState.inventory_level market - 30
        <= MarketState.inventory_level m')%Z
    /\ 0.05 <= MarketState.user_engagement m' <= 1
    /\ 0.3 <= MarketState.seasonal_factor m' <= 2.5
    /\ MarketState.demand_elasticity m' = MarketState.demand_elasticity market
    /\ MarketState.timestamp m' = readings clk (S (ticks clk)).
Proof.
  destruct (suggest_price_on_grid self product market)
    as (np & Hnp & Hcent & Hgrid).
  unfold simulate_step. rewrite Hnp. cbn [Py.bind].
  rewrite compute_reward_ok. cbn [Py.bind].
  destruct (randint_range (-30) 30 (_rng self)) as (j & g & Hj & Hjr); [lia|].
  assert (Hg : tape g = tape (_rng self) /\ cursor g = S (cursor (_rng self))).
  { unfold randint in Hj. cbn in Hj. inversion Hj. subst. now split. }
  rewrite Hj. cbn [Py.bind]. unfold PricingAction.init, MarketState.init.
  cbn [truthy now uniform random next_raw].
  exists np. do 3 eexists. split; [reflexivity|]. split; [exact Hcent|].
  split; [reflexivity|]. cbn.
  destruct Hg as [Ht Hc]. rewrite Ht, Hc.
  split; [reflexivity|]. split; [lia|].
  do 3 (split; [reflexivity|]). split; [exact Hgrid|].
  do 5 (split; [reflexivity|]).
  split; [apply round_cent_floor|].
  split; [lia|]. split; [lia|].
  split.
  { match goal with
    | |- _ <= round_ndigits (Rmax _ (Rmin _ ?x)) 2 <= _ =>
        destruct (round_clamp_bounds 0.05 1.0 5 100 x) as [H1 H2];
        [lra | lra | lra | split; lra]
    end. }
  split.
  { match goal with
    | |- _ <= round_ndigits (Rmax _ (Rmin _ ?x)) 2 <= _ =>
        destruct (round_clamp_bounds 0.3 2.5 30 250 x) as [H1 H2];
        [lra | lra | lra | split; lra]
    end. }
  split; reflexivity.
Qed.

End StepShape.

(* ================================================================== *)
(** * Further properties: the rollout *)
(* ================================================================== *)

Section RolloutShape.
Local Open Scope R_scope.

Lemma last_cons_default {A : Type} (l : list A) (x d : A) :
  last (x :: l) d = last l x.
Proof.
  revert x d. induction l as [|y l IH]; intros x d; [reflexivity|].
  change (last (y :: l) d = last (y :: l) x). rewrite !IH. reflexivity.
Qed.

(** One iteration, field by field. *)
Lemma rollout_body_shape (product : Product.t) (k : Z) (st : rollout) :
  exists a s,
    rollout_body product k st = Ok s
    /\ ro_actions s = ro_actions st ++ [a]
    /\ ro_prices s = ro_prices st ++ [PricingAction.new_price a]
    /\ ro_current_price s = PricingAction.new_price a
    /\ PricingAction.step a = (k + 1)%Z
    /\ PricingAction.old_price a = round_ndigits (ro_current_price st) 2
    /\ 0.01 <= PricingAction.new_price a
    /\ round_ndigits (PricingAction.new_price a) 2 = PricingAction.new_price a
    /\ PricingAction.product_id a = Product.sample_id product
    /\ settings (ro_self s) = settings (ro_self st)
    /\ tape (_rng (ro_self s)) = tape (_rng (ro_self st))
    /\ cursor (_rng (ro_self s)) = (cursor (_rng (ro_self st)) + 4)%nat
    /\ readings (ro_clock s) = readings (ro_clock st)
    /\ ticks (ro_clock s) = (ticks (ro_clock st) + 2)%nat
    /\ MarketState.current_price (ro_current_market s) = ro_current_price s.
Proof.
  unfold rollout_body.
  destruct (simulate_step_shape (ro_self st) product (ro_current_market st)
              (ro_current_price st) (ro_clock st))
    as (np & a & m' & g' & Hnp & Hcent & -> & Ht & Hc & Hid & _ & Hold & Hnew
        & _ & _ & _ & _ & Hcur & _).
  cbn [Py.bind].
  assert (Hgrid : round_ndigits np 2 = np).
  { destruct (suggest_price_on_grid (ro_self st) product (ro_current_market st))
      as (np' & Hnp' & _ & Hg). congruence. }
  exists (PricingAction.set_step a (k + 1)). eexists.
  split; [reflexivity|]. cbn. destruct a. cbn in *. subst.
  repeat split; auto; lia.
Qed.

(** The loop, field by field: [n] chained actions, four draws and two
    clock readings each. *)
Lemma rollout_loop_shape (product : Product.t) (n : nat) :
  forall k st,
  exists s new,
    rollout_loop product n k st = Ok s
    /\ ro_actions s = ro_actions st ++ new
    /\ List.length new = n
    /\ chained (ro_current_price st) k new
    /\ ro_prices s = ro_prices st ++ map PricingAction.new_price new
    /\ ro_current_price s =
       last (map PricingAction.new_price new) (ro_current_price st)
    /\ Forall (fun a => PricingAction.product_id a = Product.sample_id product)
              new
    /\ settings (ro_self s) = settings (ro_self st)
    /\ tape (_rng (ro_self s)) = tape (_rng (ro_self st))
    /\ cursor (_rng (ro_self s)) = (cursor (_rng (ro_self st)) + 4 * n)%nat
    /\ readings (ro_clock s) = readings (ro_clock st)
    /\ ticks (ro_clock s) = (ticks (ro_clock st) + 2 * n)%nat.
Proof.
  induction n as [|n IH]; intros k st.
  - exists st, []. cbn [rollout_loop]. rewrite !app_nil_r.
    repeat split; auto; lia.
  - cbn [rollout_loop].
    destruct (rollout_body_shape product k st)
      as (a & s1 & -> & Ha & Hp & Hc & Hstep & Hold & Hcent & Hgrid & Hid
          & Hset & Htape & Hcur & Hread & Htick & _).
    cbn [Py.bind].
    destruct (IH (k + 1)%Z s1)
      as (s & new & -> & Ha' & Hlen & Hch & Hp' & Hc' & Hids & Hset' & Htape'
          & Hcur' & Hread' & Htick').
    exists s, (a :: new). split; [reflexivity|].
    split; [rewrite Ha', Ha, <- app_assoc; reflexivity|].
    split; [cbn; lia|].
    split.
    { cbn [chained]. rewrite Hc in Hch. repeat split; auto. }
    split; [rewrite Hp', Hp, <- app_assoc; reflexivity|].
    split.
    { rewrite Hc', Hc. cbn [map]. symmetry. apply last_cons_default. }
    split; [constructor; assumption|].
    split; [congruence|]. split; [congruence|]. split; [lia|].
    split; [congruence | lia].
Qed.

End RolloutShape.

Section RunShape.
Local Open Scope R_scope.

(** A run, field by field. *)
Lemma run_simulation_shape (self : DynamicPricingEngine) (product : Product.t)
    (market : MarketState.t) (steps : option Z) (clk : Clock) :
  let n := Z.to_nat (or_int steps (AppSettings.default_steps (settings self))) in
  let p0 := MarketState.current_price market in
  exists r e c hi lo,
    run_simulation self product market steps clk = Ok (r, e, c)
    /\ List.length (SimulationResult.actions r) = n
    /\ chained p0 0 (SimulationResult.actions r)
    /\ Forall (fun a => PricingAction.product_id a = Product.sample_id product)
              (SimulationResult.actions r)
    /\ SimulationResult.product_id r = Product.sample_id product
    /\ SimulationResult.initial_price r = round_ndigits p0 2
    /\ SimulationResult.final_price r =
       round_ndigits
         (last (map PricingAction.new_price (SimulationResult.actions r)) p0) 2
    /\ max_list (p0 :: map PricingAction.new_price (SimulationResult.actions r))
       = Ok hi
    /\ min_list (p0 :: map PricingAction.new_price (SimulationResult.actions r))
       = Ok lo
    /\ SimulationResult.max_price r = round_ndigits hi 2
    /\ SimulationResult.min_price r = round_ndigits lo 2
    /\ settings e = settings self
    /\ tape (_rng e) = tape (_rng self)
    /\ cursor (_rng e) = (cursor (_rng self) + 4 * n)%nat
    /\ readings c = readings clk
    /\ ticks c = (ticks clk + 2 * n)%nat.
Proof.
  intros n p0. unfold run_simulation. fold n. fold p0.
  destruct (rollout_loop_shape product n 0%Z
              (mkRollout [] p0 market [p0] self clk))
    as (s & new & -> & Ha & Hlen & Hch & Hp & Hc & Hids & Hset & Htape & Hcur
        & Hread & Htick).
  cbn [Py.bind]. cbn in Ha, Hch, Hp, Hc, Hset, Htape, Hcur, Hread, Htick.
  rewrite Ha, Hp, Hc.
  assert (Havg : exists avg,
             match new with
             | [] => Ok 0.0
             | _ :: _ => fdiv (fsum (map PricingAction.reward new))
                              (INR (List.length new))
             end = Ok avg).
  { destruct new as [|a l]; [eauto|].
    rewrite fdiv_ok by (apply not_0_INR; simpl; lia). eauto. }
  destruct Havg as (avg & ->). cbn [Py.bind max_list min_list].
  do 5 eexists. split; [reflexivity|]. cbn.
  repeat split; auto.
Qed.

Lemma chained_steps (p0 : R) (acts : list PricingAction.t) :
  forall k, chained p0 k acts ->
  map PricingAction.step acts =
  map (fun i => (k + Z.of_nat i)%Z) (seq 1 (List.length acts)).
Proof.
  revert p0. induction acts as [|a t IH]; intros p0 k H; [reflexivity|].
  cbn [chained] in H. destruct H as (Hs & _ & _ & _ & Ht).
  cbn [map List.length seq]. rewrite Hs. f_equal.
  rewrite (IH _ _ Ht), <- (seq_shift (List.length t) 1), map_map.
  apply map_ext. intros i. lia.
Qed.

Lemma chained_prices (acts : list PricingAction.t) :
  forall p0 k, chained p0 k acts ->
  map PricingAction.old_price acts
  ++ [round_ndigits (last (map PricingAction.new_price acts) p0) 2]
  = round_ndigits p0 2 :: map PricingAction.new_price acts.
Proof.
  induction acts as [|a t IH]; intros p0 k H; [reflexivity|].
  cbn [chained] in H. destruct H as (_ & Ho & _ & Hg & Ht).
  cbn [map app]. rewrite Ho. f_equal.
  rewrite last_cons_default, (IH _ _ Ht), Hg. reflexivity.
Qed.

Lemma chained_floor (acts : list PricingAction.t) :
  forall p0 k, chained p0 k acts ->
  Forall (fun a => 0.01 <= PricingAction.new_price a
                   /\ round_ndigits (PricingAction.new_price a) 2
                      = PricingAction.new_price a) acts.
Proof.
  induction acts as [|a t IH]; intros p0 k H; [constructor|].
  cbn [chained] in H. destruct H as (_ & _ & Hc & Hg & Ht).
  constructor; [now split | now apply (IH _ _ Ht)].
Qed.

(** The actions of a run are numbered 1, 2, ..., n with
    n = [steps or default_steps]; each carries the product's id and a new
    price of one cent at least.  The old price of each action is the new
    price of the action before it, that of the first the initial price,
    and the final price is the new price of the last: the old prices
    followed by the final price are the initial price followed by the new
    prices. *)
Theorem rollout_actions_are_chained (self : DynamicPricingEngine)
    (product : Product.t) (market : MarketState.t) (steps : option Z)
    (clk : Clock) :
  exists r e c,
    run_simulation self product market steps clk = Ok (r, e, c)
    /\ map PricingAction.step (SimulationResult.actions r) =
       map Z.of_nat
         (seq 1 (Z.to_nat
                   (or_int steps (AppSettings.default_steps (settings self)))))
    /\ map PricingAction.old_price (SimulationResult.actions r)
       ++ [SimulationResult.final_price r]
       = SimulationResult.initial_price r
         :: map PricingAction.new_price (SimulationResult.actions r)
    /\ Forall (fun a => PricingAction.product_id a = Product.sample_id product
                        /\ 0.01 <= PricingAction.new_price a)
              (SimulationResult.actions r).
Proof.
  destruct (run_simulation_shape self product market steps clk)
    as (r & e & c & hi & lo & Hrun & Hlen & Hch & Hids & _ & Hinit & Hfin & _).
  exists r, e, c. split; [exact Hrun|]. split; [|split].
  - rewrite (chained_steps _ _ _ Hch), Hlen. apply map_ext. intros i. lia.
  - rewrite Hinit, Hfin. exact (chained_prices _ _ _ Hch).
  - pose proof (chained_floor _ _ _ Hch) as Hfl.
    rewrite Forall_forall in *. intros a Ha. split; [now apply Hids|].
    now apply Hfl.
Qed.

End RunShape.

Section RunProperties.
Local Open Scope R_scope.

Lemma fold_max_spec (l : list R) :
  forall x, In (fold_left Rmax l x) (x :: l)
            /\ forall y, In y (x :: l) -> y <= fold_left Rmax l x.
Proof.
  induction l as [|z l IH]; intros x; cbn [fold_left].
  - split; [now left|]. intros y [<- | []]. lra.
  - destruct (IH (Rmax x z)) as [Hin Hge]. split.
    + destruct Hin as [Hin | Hin]; [|right; now right].
      rewrite <- Hin. unfold Rmax. destruct (Rle_dec x z); [right|]; now left.
    + intros y [<- | [<- | Hy]].
      * apply Rle_trans with (Rmax x z); [apply Rmax_l | apply Hge; now left].
      * apply Rle_trans with (Rmax x z); [apply Rmax_r | apply Hge; now left].
      * apply Hge. now right.
Qed.

Lemma fold_min_spec (l : list R) :
  forall x, In (fold_left Rmin l x) (x :: l)
            /\ forall y, In y (x :: l) -> fold_left Rmin l x <= y.
Proof.
  induction l as [|z l IH]; intros x; cbn [fold_left].
  - split; [now left|]. intros y [<- | []]. lra.
  - destruct (IH (Rmin x z)) as [Hin Hle]. split.
    + destruct Hin as [Hin | Hin]; [|right; now right].
      rewrite <- Hin. unfold Rmin. destruct (Rle_dec x z); [|right]; now left.
    + intros y [<- | [<- | Hy]].
      * apply Rle_trans with (Rmin x z); [apply Hle; now left | apply Rmin_l].
      * apply Rle_trans with (Rmin x z); [apply Hle; now left | apply Rmin_r].
      * apply Hle. now right.
Qed.

Lemma last_in_cons {A : Type} (l : list A) (d : A) : In (last l d) (d :: l).
Proof.
  revert d. induction l as [|x l IH]; intros d; [now left|].
  right. rewrite (last_cons_default l x d). apply IH.
Qed.

(** The price trace of a run is its initial price followed by the new
    prices of its actions.  [max_price] and [min_price] are prices of the
    trace, and every price of the trace, the final price included, lies
    between them. *)
Theorem rollout_price_extrema (self : DynamicPricingEngine)
    (product : Product.t) (market : MarketState.t) (steps : option Z)
    (clk : Clock) :
  exists r e c,
    run_simulation self product market steps clk = Ok (r, e, c)
    /\ In (SimulationResult.max_price r)
          (SimulationResult.initial_price r
           :: map PricingAction.new_price (SimulationResult.actions r))
    /\ In (SimulationResult.min_price r)
          (SimulationResult.initial_price r
           :: map PricingAction.new_price (SimulationResult.actions r))
    /\ (forall p,
          In p (SimulationResult.initial_price r
                :: map PricingAction.new_price (SimulationResult.actions r)) ->
          SimulationResult.min_price r <= p <= SimulationResult.max_price r)
    /\ SimulationResult.min_price r <= SimulationResult.final_price r
       <= SimulationResult.max_price r.
Proof.
  destruct (run_simulation_shape self product market steps clk)
    as (r & e & c & hi & lo & Hrun & _ & Hch & _ & _ & Hinit & Hfin & Hhi & Hlo
        & Hmax & Hmin & _).
  exists r, e, c. split; [exact Hrun|].
  set (p0 := MarketState.current_price market) in *.
  set (news := map PricingAction.new_price (SimulationResult.actions r)) in *.
  cbn [max_list min_list] in Hhi, Hlo. inversion Hhi as [Hhi']. inversion Hlo as [Hlo'].
  destruct (fold_max_spec news p0) as [Hhin Hhge].
  destruct (fold_min_spec news p0) as [Hlin Hlle].
  assert (Hround : map (fun x => round_ndigits x 2) (p0 :: news) =
                   SimulationResult.initial_price r :: news).
  { cbn [map]. rewrite Hinit. f_equal. unfold news. rewrite map_map.
    pose proof (chained_floor _ _ _ Hch) as Hfl.
    apply map_ext_in. intros a Ha.
    rewrite Forall_forall in Hfl. now apply Hfl. }
  assert (Htrace : forall p, In p (SimulationResult.initial_price r :: news) ->
                   exists q, In q (p0 :: news) /\ p = round_ndigits q 2).
  { intros p Hp. rewrite <- Hround in Hp. apply in_map_iff in Hp.
    destruct Hp as (q & <- & Hq). eauto. }
  assert (Hbounds : forall p, In p (SimulationResult.initial_price r :: news) ->
            SimulationResult.min_price r <= p <= SimulationResult.max_price r).
  { intros p Hp. destruct (Htrace p Hp) as (q & Hq & ->).
    rewrite Hmin, Hmax, <- Hhi', <- Hlo'.
    split; apply round_ndigits_mono; [now apply Hlle | now apply Hhge]. }
  split; [|split; [|split; [exact Hbounds|]]].
  - rewrite Hmax, <- Hround, <- Hhi'.
    now apply (in_map (fun x => round_ndigits x 2)).
  - rewrite Hmin, <- Hround, <- Hlo'.
    now apply (in_map (fun x => round_ndigits x 2)).
  - apply Hbounds. rewrite Hfin, <- Hround. fold news.
    apply (in_map (fun x => round_ndigits x 2)). apply last_in_cons.
Qed.

(** A run of n steps takes 4n draws from the engine's generator and 2n
    readings of the clock, and leaves the settings and the generator's
    tape as they were. *)
Theorem run_simulation_draws_and_readings (self : DynamicPricingEngine)
    (product : Product.t) (market : MarketState.t) (steps : option Z)
    (clk : Clock) :
  let n := Z.to_nat (or_int steps (AppSettings.default_steps (settings self))) in
  exists r e c,
    run_simulation self product market steps clk = Ok (r, e, c)
    /\ settings e = settings self
    /\ tape (_rng e) = tape (_rng self)
    /\ cursor (_rng e) = (cursor (_rng self) + 4 * n)%nat
    /\ readings c = readings clk
    /\ ticks c = (ticks clk + 2 * n)%nat.
Proof.
  intros n.
  destruct (run_simulation_shape self product market steps clk)
    as (r & e & c & hi & lo & Hrun & _ & _ & _ & _ & _ & _ & _ & _ & _ & _
        & H).
  exists r, e, c. split; [exact Hrun | exact H].
Qed.


End RunProperties.

(* ================================================================== *)
(** * Records built from rows *)
(* ================================================================== *)

Section RecordFacts.
Local Open Scope string_scope.

Lemma take_length (n : nat) (s : string) :
  String.length (take n s) = Nat.min n (String.length s).
Proof.
  unfold take. revert s; induction n as [|n IH]; intros [|c t]; simpl; auto.
Qed.

Lemma take_head (n : nat) (s : string) :
  head_not_blank s -> head_not_blank (take n s).
Proof. unfold take. destruct n, s; simpl; auto. Qed.

Lemma lstrip_head (s : string) : head_not_blank (lstrip s).
Proof.
  induction s as [|c t IH]; simpl; [exact I|].
  destruct (is_space c) eqn:E; [exact IH | exact E].
Qed.

Lemma rstrip_head (s : string) : head_not_blank s -> head_not_blank (rstrip s).
Proof.
  destruct s as [|c t]; simpl; [auto|]. intros H.
  destruct (rstrip t); [rewrite H|]; exact H.
Qed.

Lemma strip_head (s : string) : head_not_blank (strip s).
Proof. apply rstrip_head, lstrip_head. Qed.

Lemma replace_newlines_head (s : string) :
  head_not_blank s -> head_not_blank (replace_newlines s).
Proof.
  destruct s as [|c t]; simpl; [auto|]. intros H.
  destruct (Ascii.eqb c newline) eqn:E; [|exact H].
  apply Ascii.eqb_eq in E. subst c. discriminate H.
Qed.

Lemma replace_newlines_length (s : string) :
  String.length (replace_newlines s) = String.length s.
Proof. induction s as [|c t IH]; simpl; congruence. Qed.

Lemma rstrip_length (s : string) :
  (String.length (rstrip s) <= String.length s)%nat.
Proof.
  induction s as [|c t IH]; simpl; [lia|].
  destruct (rstrip t); [destruct (is_space c)|]; simpl in *; lia.
Qed.

Lemma lstrip_length (s : string) :
  (String.length (lstrip s) <= String.length s)%nat.
Proof.
  induction s as [|c t IH]; simpl; [lia|].
  destruct (is_space c); simpl; lia.
Qed.

Lemma strip_length (s : string) :
  (String.length (strip s) <= String.length s)%nat.
Proof.
  unfold strip. pose proof (rstrip_length (lstrip s)).
  pose proof (lstrip_length s). lia.
Qed.


(** What [_fast_parse_catalog] returns, whatever the text: three fields
    of bounded length, the name without leading white space. *)
Lemma parsed_fields_shape (raw : string) :
  let '(name, bullets, desc) := _fast_parse_catalog raw in
  head_not_blank name
  /\ (String.length name <= 120)%nat
  /\ (String.length bullets <= 200)%nat
  /\ (String.length desc <= 300)%nat.
Proof.
  unfold _fast_parse_catalog.
  destruct (truthy raw); cbn [negb]; [|simpl; repeat split; lia].
  cbv zeta.
  repeat split.
  - match goal with
    | |- head_not_blank (if negb (truthy ?n) then _ else _) =>
        destruct (truthy n) eqn:E; cbn [negb]
    end.
    + destruct (0 <=? _)%Z; [apply take_head, strip_head | exact I].
    + apply replace_newlines_head, strip_head.
  - match goal with
    | |- (String.length (if negb (truthy ?n) then _ else _) <= _)%nat =>
        destruct (truthy n) eqn:E; cbn [negb]
    end.
    + destruct (0 <=? _)%Z; [rewrite take_length; lia | simpl; lia].
    + rewrite replace_newlines_length.
      pose proof (strip_length (take 80 raw)) as H.
      rewrite take_length in H. lia.
  - destruct (0 <=? _)%Z; [rewrite take_length; lia | simpl; lia].
  - destruct (0 <=? _)%Z; [rewrite take_length; lia | simpl; lia].
Qed.


(** The name shown in a table column has 55 characters at most: a name of
    up to 55 characters is shown as it is, a longer one as its first 52
    characters followed by three dots. *)
Theorem display_name_fits_column (p : Product.t) :
  (String.length (Product.display_name p) <= 55)%nat
  /\ ((String.length (Product.name p) <= 55)%nat ->
      Product.display_name p = Product.name p)
  /\ ((55 < String.length (Product.name p))%nat ->
      String.length (Product.display_name p) = 55%nat
      /\ Product.display_name p = take 52 (Product.name p) ++ "...").
Proof.
  unfold Product.display_name, len.
  assert (Happ : forall a b, String.length (a ++ b)
                             = (String.length a + String.length b)%nat).
  { induction a as [|c a IH]; intros b; simpl; auto. }
  destruct (55 <? Z.of_nat (String.length (Product.name p)))%Z eqn:E.
  - apply Z.ltb_lt in E.
    rewrite Happ, take_length. simpl String.length.
    repeat split; try lia.
  - apply Z.ltb_ge in E. repeat split; try lia.
Qed.

End RecordFacts.

(* ================================================================== *)
(** * Records of models.py and their stored form *)
(* ================================================================== *)

Section ModelFacts.
Local Open Scope R_scope.

Lemma percent_sign (new old : R) :
  0 < old ->
  (0 < (new - old) / old * 100 <-> old < new)
  /\ ((new - old) / old * 100 < 0 <-> new < old)
  /\ ((new - old) / old * 100 = 0 <-> new = old).
Proof.
  intros Hold. unfold Rdiv.
  assert (Hinv : 0 < / old) by now apply Rinv_0_lt_compat.
  set (q := / old) in *.
  assert (Hq : old * q = 1) by (subst q; field; lra).
  repeat split; intros H; nra.
Qed.

(** The percentage of a step never raises: it is 0 for an old price of 0,
    whatever the new price, and otherwise (new - old) / old * 100.  For a
    positive old price its sign is the direction shown: up exactly when it
    is positive, down exactly when it is negative, flat exactly when it is
    0.  The direction itself compares the two prices only, so a rise from
    an old price of 0 is shown as up beside a percentage of 0. *)
Theorem price_change_matches_direction (a : PricingAction.t) :
  exists pct,
    PricingAction.price_change_pct a = Ok pct
    /\ (PricingAction.old_price a = 0 -> pct = 0)
    /\ (PricingAction.old_price a <> 0 ->
        pct = (PricingAction.new_price a - PricingAction.old_price a)
              / PricingAction.old_price a * 100)
    /\ (0 < PricingAction.old_price a ->
        (PricingAction.direction a = PricingAction.Up <-> 0 < pct)
        /\ (PricingAction.direction a = PricingAction.Down <-> pct < 0)
        /\ (PricingAction.direction a = PricingAction.Flat <-> pct = 0))
    /\ (PricingAction.direction a = PricingAction.Up <->
        PricingAction.old_price a < PricingAction.new_price a)
    /\ (PricingAction.direction a = PricingAction.Down <->
        PricingAction.new_price a < PricingAction.old_price a).
Proof.
  unfold PricingAction.price_change_pct, PricingAction.direction.
  set (old := PricingAction.old_price a). set (new := PricingAction.new_price a).
  assert (Hdir :
    ((if Rgt_dec new old then PricingAction.Up
      else if Rlt_dec new old then PricingAction.Down
      else PricingAction.Flat) = PricingAction.Up <-> old < new)
    /\ ((if Rgt_dec new old then PricingAction.Up
         else if Rlt_dec new old then PricingAction.Down
         else PricingAction.Flat) = PricingAction.Down <-> new < old)
    /\ ((if Rgt_dec new old then PricingAction.Up
         else if Rlt_dec new old then PricingAction.Down
         else PricingAction.Flat) = PricingAction.Flat <-> new = old)).
  { destruct (Rgt_dec new old) as [Hgt | Hgt];
      [|destruct (Rlt_dec new old) as [Hlt | Hlt]];
      repeat split; intros H; try discriminate; try reflexivity;
      unfold Rgt in *; lra. }
  destruct Hdir as (Hup & Hdown & Hflat).
  destruct (Req_dec_T old 0) as [Hz | Hnz].
  - exists 0.0. split; [reflexivity|]. split; [intros _; lra|].
    split; [intros H; contradiction|]. split; [intros H; lra|].
    split; assumption.
  - rewrite fdiv_ok by exact Hnz. cbn [Py.bind].
    eexists. split; [reflexivity|]. split; [intros H; contradiction|].
    split; [reflexivity|]. split; [|split; assumption].
    intros Hpos. destruct (percent_sign new old Hpos) as (P1 & P2 & P3).
    rewrite Hup, Hdown, Hflat, P1, P2, P3. repeat split; auto.
Qed.

(** Settings written by to_dict are read back unchanged by from_dict, so
    saving and loading the settings file returns the settings saved.
    Without a file, and from an empty document, the defaults are loaded; a
    key that names no field is ignored; a field the document lacks takes
    its default. *)
Theorem settings_survive_save_and_load (s : AppSettings.t) :
  AppSettings.from_dict (AppSettings.to_dict s) = Some s
  /\ Storage.load_settings (Storage.save_settings s) = Some s
  /\ Storage.load_settings None = Some AppSettings.default
  /\ AppSettings.from_dict [] = Some AppSettings.default
  /\ (forall d k v,
        ~ In k AppSettings.field_names ->
        AppSettings.from_dict (dict_set d k v) = AppSettings.from_dict d)
  /\ (forall x,
        AppSettings.from_dict [("alpha"%string, AppSettings.VFloat x)] =
        Some (AppSettings.mk x
                (AppSettings.beta AppSettings.default)
                (AppSettings.gamma AppSettings.default)
                (AppSettings.delta AppSettings.default)
                (AppSettings.default_steps AppSettings.default)
                (AppSettings.price_adjustment_range AppSettings.default)
                (AppSettings.max_catalog_rows AppSettings.default)
                (AppSettings.theme AppSettings.default))).
Proof.
  assert (Hrt : AppSettings.from_dict (AppSettings.to_dict s) = Some s)
    by (destruct s; reflexivity).
  split; [exact Hrt|]. split; [exact Hrt|].
  split; [reflexivity|]. split; [reflexivity|]. split; [|reflexivity].
  intros d k v Hk.
  assert (Hfind : forall f, In f AppSettings.field_names ->
                            dict_find (dict_set d k v) f = dict_find d f).
  { intros f Hf. rewrite dict_find_set.
    destruct (String.eqb k f) eqn:E; [|reflexivity].
    apply String.eqb_eq in E. subst f. contradiction. }
  unfold AppSettings.from_dict, AppSettings.float_field,
    AppSettings.int_field, AppSettings.str_field.
  rewrite !Hfind by (unfold AppSettings.field_names; simpl; tauto).
  reflexivity.
Qed.

End ModelFacts.

(* ================================================================== *)
(** * The history file *)
(* ================================================================== *)

Section HistoryFacts.
Import Storage.

Lemma record_of_ok (result : SimulationResult.t) :
  exists rec, record_of result = Ok rec
              /\ rec_steps rec = SimulationResult.steps result
              /\ rec_product_id rec = SimulationResult.product_id result
              /\ List.length (rec_actions rec) =
                 List.length (SimulationResult.actions result).
Proof.
  unfold record_of, SimulationResult.price_change_pct.
  destruct (Req_dec_T (SimulationResult.initial_price result) 0) as [Hz | Hnz].
  - cbn [Py.bind]. eexists. split; [reflexivity|]. cbn.
    now rewrite length_map.
  - rewrite fdiv_ok by exact Hnz. cbn [Py.bind].
    eexists. split; [reflexivity|]. cbn. now rewrite length_map.
Qed.

Lemma save_simulation_ok (file : simulations_file)
    (result : SimulationResult.t) (rec : record) :
  record_of result = Ok rec ->
  let old := load_simulation_history file in
  save_simulation file result =
  Ok (Some (skipn (S (List.length old) - 200) old ++ [rec])%list).
Proof.
  intros Hrec old. unfold save_simulation. rewrite Hrec. cbn [Py.bind].
  fold (load_simulation_history file). fold old.
  do 2 f_equal.
  rewrite length_app. cbn [List.length].
  destruct (200 <? Z.of_nat (List.length old + 1))%Z eqn:E.
  - apply Z.ltb_lt in E. unfold slice_from, clamp.
    rewrite length_app. cbn [List.length].
    replace (-200 <? 0)%Z with true by reflexivity.
    replace (Z.to_nat (Z.max 0 (Z.of_nat (List.length old + 1) + -200)))
      with (S (List.length old) - 200)%nat by lia.
    rewrite skipn_app.
    replace (S (List.length old) - 200 - List.length old)%nat with 0%nat
      by lia.
    reflexivity.
  - apply Z.ltb_ge in E.
    replace (S (List.length old) - 200)%nat with 0%nat by lia.
    reflexivity.
Qed.

(** Saving a run never raises and writes a history that ends with the
    run's record, preceded by the most recent records of the file, oldest
    first, so that the history holds 200 records at most: the old ones
    beyond that are dropped, also when the file held more than 200.  A
    missing or undecodable file counts as an empty history. *)
Theorem history_keeps_last_200 (file : simulations_file)
    (result : SimulationResult.t) :
  let old := load_simulation_history file in
  exists rec h,
    record_of result = Ok rec
    /\ save_simulation file result = Ok (Some h)
    /\ h = (skipn (S (List.length old) - 200) old ++ [rec])%list
    /\ List.length h = Nat.min 200 (S (List.length old))
    /\ (forall r, In r h -> r = rec \/ In r old)
    /\ load_simulation_history (Some h) = h
    /\ load_simulation_history (clear_simulation_history (Some h)) = [].
Proof.
  intros old. destruct (record_of_ok result) as (rec & Hrec & _).
  exists rec. eexists. split; [exact Hrec|].
  split; [exact (save_simulation_ok file result rec Hrec)|]. fold old.
  split; [reflexivity|]. split.
  { rewrite length_app, length_skipn. cbn [List.length]. lia. }
  split; [|split; reflexivity].
  intros r Hr. apply in_app_or in Hr. destruct Hr as [Hr | [<- | []]].
  - right. rewrite <- (firstn_skipn (S (List.length old) - 200) old).
    apply in_or_app. now right.
  - now left.
Qed.

End HistoryFacts.

(* ================================================================== *)
(** * The generated market and the pickle file *)
(* ================================================================== *)

Section MarketFacts.
Local Open Scope R_scope.

Ltac draw_uniform u g H :=
  match goal with
  | |- context [uniform ?a ?b ?g0] =>
      assert (H := uniform_range a b g0 ltac:(lra));
      destruct (uniform a b g0) as [u g]; cbn [fst] in H
  end.

(** Generating a market state never raises and reads the clock once.  The
    state carries the product's id and, as current price, the product's
    price when that is positive and 10.0 otherwise, so a positive price
    always; the competitor's price is within 20% of it, up to rounding to
    cents, and not negative; the inventory is between 5 and 500, the
    engagement between 0.1 and 1, the seasonal factor between 0.5 and 2
    and the elasticity between -3 and -0.5.  Without a seed the generator
    is seeded with the product's id. *)
Theorem generated_market_in_range (Random : Z -> Rng) (product : Product.t)
    (seed : option Z) (clk : Clock) :
  let base := if Rgt_dec (Product.price product) 0
              then Product.price product else 10 in
  exists m,
    generate_market_state Random product seed clk =
      Ok (m, mkClock (readings clk) (S (ticks clk)))
    /\ MarketState.product_id m = Product.sample_id product
    /\ MarketState.current_price m = base
    /\ 0 < MarketState.current_price m
    /\ round_ndigits (base * 0.8) 2 <= MarketState.competitor_price m
       <= round_ndigits (base * 1.2) 2
    /\ 0 <= MarketState.competitor_price m
    /\ (5 <= MarketState.inventory_level m <= 500)%Z
    /\ 0.1 <= MarketState.user_engagement m <= 1
    /\ 0.5 <= MarketState.seasonal_factor m <= 2
    /\ -3 <= MarketState.demand_elasticity m <= -0.5
    /\ MarketState.timestamp m = readings clk (ticks clk)
    /\ generate_market_state Random product None clk =
       generate_market_state Random product
         (Some (Product.sample_id product)) clk.
Proof.
  intros base.
  assert (Hnone : generate_market_state Random product None clk =
                  generate_market_state Random product
                    (Some (Product.sample_id product)) clk) by reflexivity.
  unfold generate_market_state at 1.
  replace (if Rgt_dec (Product.price product) 0
           then Product.price product else 10.0) with base
    by (subst base; destruct (Rgt_dec _ 0); [reflexivity | lra]).
  assert (Hbase : 0 < base).
  { subst base. destruct (Rgt_dec (Product.price product) 0) as [H|H];
      unfold Rgt in *; lra. }
  clearbody base.
  draw_uniform u g1 Hu.
  destruct (randint_range 5 500 g1) as (j & g2 & Hj & Hjr); [lia|].
  rewrite Hj. cbn [Py.bind].
  draw_uniform e g3 He. draw_uniform sf g4 Hs. draw_uniform el g5 Hel.
  unfold MarketState.init. cbn [truthy now].
  eexists. split; [reflexivity|].
  cbn [MarketState.product_id MarketState.current_price
       MarketState.competitor_price MarketState.inventory_level
       MarketState.user_engagement MarketState.seasonal_factor
       MarketState.demand_elasticity MarketState.timestamp].
  split; [reflexivity|]. split; [reflexivity|]. split; [exact Hbase|].
  split; [split; apply round_ndigits_mono; nra|].
  split.
  { replace 0 with (IZR 0 / 10 ^ 2) by (simpl; lra).
    apply round_ndigits_ge. simpl. nra. }
  split; [exact Hjr|].
  split; [destruct (round_clamped 10 100 e ltac:(lra)); lra|].
  split; [destruct (round_clamped 50 200 sf ltac:(lra)); lra|].
  split; [destruct (round_clamped (-300) (-50) el ltac:(lra)); lra|].
  split; [reflexivity | exact Hnone].
Qed.

(** A snapshot of at least one row counts at least one record. *)
Lemma loaded_snapshot_not_empty (rows : list Row.t) (g : Rng)
    (data : PrecomputedData.t) :
  load_and_cache rows g = Ok data -> rows <> [] ->
  (0 < PrecomputedData.total_products data)%Z.
Proof.
  unfold load_and_cache. intros H Hne. apply load_with_inv in H.
  destruct H as (res & g' & Hread & Hstats).
  destruct (read_rows_counts _ _ _ _ _ _ Hread) as [_ Hlen].
  destruct (compute_stats_ok res (List.length rows))
    as (data' & Hd & _ & _ & _ & _ & _ & Htp & _).
  assert (data' = data) by congruence. subst data'. rewrite Htp.
  pose proof max_products_value.
  destruct rows; [congruence|]. cbn [List.length] in Hlen. lia.
Qed.

Lemma loaded_snapshot_of_nothing (g : Rng) (data : PrecomputedData.t) :
  load_and_cache [] g = Ok data ->
  PrecomputedData.total_products data = 0%Z.
Proof.
  unfold load_and_cache. intros H. apply load_with_inv in H.
  destruct H as (res & g' & Hread & Hstats).
  destruct (read_rows_counts _ _ _ _ _ _ Hread) as [_ Hlen].
  destruct (compute_stats_ok res 0)
    as (data' & Hd & _ & _ & _ & _ & _ & Htp & _).
  simpl in Hstats.
  assert (data' = data) by congruence. subst data'. rewrite Htp.
  cbn [List.length] in Hlen. lia.
Qed.

(** After a miss whose write succeeds, the file holds the snapshot just
    computed from the rows.  When the catalogue has a row, every later
    call returns that snapshot and leaves the file alone, whatever rows
    and generator it is given: the rows are not read again.  A snapshot
    of an empty catalogue is written but never served: every later call
    computes its snapshot from the rows anew. *)
Theorem snapshot_cache_round_trip (cache : cache_file) (rows : list Row.t)
    (g : Rng) (data : PrecomputedData.t) (file : cache_file) :
  (forall d, cache = Some d -> (PrecomputedData.total_products d <= 0)%Z) ->
  load_and_cache_file cache true rows g = Ok (data, file) ->
  load_and_cache rows g = Ok data
  /\ file = Some data
  /\ (rows <> [] ->
      forall dump_ok rows' g',
        load_and_cache_file file dump_ok rows' g' = Ok (data, file))
  /\ (rows = [] ->
      forall dump_ok rows' g' data',
        load_and_cache rows' g' = Ok data' ->
        exists file',
          load_and_cache_file file dump_ok rows' g' = Ok (data', file')).
Proof.
  intros Hmiss H.
  assert (Hload : load_and_cache rows g = Ok data /\ file = Some data).
  { unfold load_and_cache_file in H.
    destruct cache as [d|].
    - specialize (Hmiss d eq_refl).
      replace (0 <? PrecomputedData.total_products d)%Z with false in H
        by (symmetry; apply Z.ltb_ge; lia).
      destruct (load_and_cache rows g) as [x|e]; cbn [Py.bind] in H;
        [|discriminate]. inversion H; subst. now split.
    - destruct (load_and_cache rows g) as [x|e]; cbn [Py.bind] in H;
        [|discriminate]. inversion H; subst. now split. }
  destruct Hload as [Hload ->]. split; [exact Hload|]. split; [reflexivity|].
  split.
  - intros Hne dump_ok rows' g'. unfold load_and_cache_file.
    pose proof (loaded_snapshot_not_empty rows g data Hload Hne) as Hpos.
    apply Z.ltb_lt in Hpos. now rewrite Hpos.
  - intros -> dump_ok rows' g' data' H'. unfold load_and_cache_file.
    rewrite (loaded_snapshot_of_nothing g data Hload).
    replace (0 <? 0)%Z with false by reflexivity.
    rewrite H'. cbn [Py.bind]. eauto.
Qed.

Lemma snapshot_cache_round_trip_on_three_rows :
  exists data,
    load_and_cache_file None true three_rows (constant_rng 0) =
      Ok (data, Some data)
    /\ forall dump_ok rows' g',
         load_and_cache_file (Some data) dump_ok rows' g' =
           Ok (data, Some data).
Proof.
  assert (Hwf : Forall (fun r => Row.sample_id r <> Malformed) three_rows)
    by (repeat constructor; discriminate).
  destruct (load_with_total MAX_PRODUCTS three_rows (constant_rng 0) Hwf)
    as [data Hdata].
  assert (Hfile : load_and_cache_file None true three_rows (constant_rng 0) =
                  Ok (data, Some data)).
  { unfold load_and_cache_file, load_and_cache. now rewrite Hdata. }
  exists data. split; [exact Hfile|].
  apply (snapshot_cache_round_trip None three_rows (constant_rng 0) data
           (Some data)).
  - intros d Hd. discriminate Hd.
  - exact Hfile.
  - discriminate.
Defined.

End MarketFacts.

(* ================================================================== *)
(** * The reservoir as a sample of the rows *)
(* ================================================================== *)

Section SampleFacts.

Lemma update_In {A : Type} (l : list A) (j : nat) (x y : A) :
  In y (update l j x) -> y = x \/ In y l.
Proof.
  revert j; induction l as [|h t IH]; intros [|j]; simpl; auto.
  - intros [<- | H]; auto.
  - intros [<- | H]; auto. destruct (IH _ H); auto.
Qed.

Lemma update_NoDup {A : Type} (l : list A) (j : nat) (x : A) :
  NoDup l -> ~ In x l -> NoDup (update l j x).
Proof.
  revert j; induction l as [|h t IH]; intros [|j] Hnd Hx; simpl; auto;
    inversion Hnd as [|? ? Hh Ht]; subst; simpl in Hx.
  - constructor; tauto.
  - constructor; [|apply IH; tauto].
    intros Hin. apply update_In in Hin. destruct Hin as [-> | Hin]; tauto.
Qed.

Lemma update_Forall2 {A B : Type} (R : A -> B -> Prop) (l1 : list A)
    (l2 : list B) (j : nat) (x : A) (y : B) :
  Forall2 R l1 l2 -> R x y -> Forall2 R (update l1 j x) (update l2 j y).
Proof.
  intros H Hxy. revert j. induction H as [|a b l1 l2 Hab H IH]; intros [|j];
    simpl; constructor; auto.
Qed.

Lemma Forall2_In_l {A B : Type} (R : A -> B -> Prop) (l1 : list A)
    (l2 : list B) (x : A) :
  Forall2 R l1 l2 -> In x l1 -> exists y, In y l2 /\ R x y.
Proof.
  induction 1 as [|a b l1 l2 Hab H IH]; simpl; [intros []|].
  intros [<- | Hin]; [eauto|]. destruct (IH Hin) as (y & Hy & Hr). eauto.
Qed.

Lemma record_of_row_snoc (rows : list Row.t) (row : Row.t) (i : nat)
    (p : Product.t) :
  record_of_row rows i p -> record_of_row (rows ++ [row]) i p.
Proof.
  intros (r & Hr & Hp). exists r. split; [|exact Hp].
  rewrite nth_error_app1; [exact Hr|].
  apply nth_error_Some. congruence.
Qed.

Lemma record_of_row_bound (rows : list Row.t) (i : nat) (p : Product.t) :
  record_of_row rows i p -> (i < List.length rows)%nat.
Proof. intros (r & Hr & _). apply nth_error_Some. congruence. Qed.

(** The reservoir holds the records of pairwise different rows. *)
Lemma read_rows_sample (K : nat) (rows : list Row.t) :
  forall g res total g',
    read_rows K rows g = Ok (res, total, g') ->
    exists idxs, NoDup idxs /\ Forall2 (record_of_row rows) idxs res.
Proof.
  induction rows as [|row rows IH] using rev_ind; intros g res total g' H.
  - unfold read_rows in H. simpl in H. inversion H; subst.
    exists []. split; constructor.
  - rewrite read_rows_snoc in H. apply bind_ok_inv in H.
    destruct H as ([[res0 total0] g0] & H0 & Hbody).
    destruct (IH _ _ _ _ H0) as (idxs & Hnd & Hall).
    assert (Hfresh : ~ In (List.length rows) idxs).
    { intros Hin. apply (Forall2_In_l _ _ _ _ Hall) in Hin.
      destruct Hin as (p & _ & Hp). apply record_of_row_bound in Hp. lia. }
    assert (Hlift : Forall2 (record_of_row (rows ++ [row])) idxs res0).
    { eapply Forall2_impl; [|exact Hall].
      intros i p. apply record_of_row_snoc. }
    unfold loop_body in Hbody. apply bind_ok_inv in Hbody.
    destruct Hbody as (p & Hp & Hbody).
    assert (Hnew : record_of_row (rows ++ [row]) (List.length rows) p).
    { exists row. split; [|exact Hp].
      rewrite nth_error_app2 by lia. now rewrite Nat.sub_diag. }
    destruct (List.length res0 <? K)%nat.
    + inversion Hbody; subst. exists (idxs ++ [List.length rows])%list.
      split.
      * apply NoDup_app; [exact Hnd | repeat constructor; intros [] |].
        intros x Hx [<- | []]. contradiction.
      * apply Forall2_app; [exact Hlift | now repeat constructor].
    + apply bind_ok_inv in Hbody.
      destruct Hbody as ([j g1] & Hj & Hbody).
      destruct (j <? Z.of_nat K)%Z.
      * apply bind_ok_inv in Hbody. destruct Hbody as (res1 & Hset & Hok).
        inversion Hok; subst. unfold setitem in Hset.
        destruct (_ && _)%bool; [|discriminate]. inversion Hset; subst.
        eexists (update idxs _ (List.length rows)). split.
        -- now apply update_NoDup.
        -- now apply update_Forall2.
      * inversion Hbody; subst. exists idxs. now split.
Qed.

(** The records of a snapshot are a sample of the rows without
    replacement: each record is the one built from some row of the
    catalogue, numbered as in the file, and no row is used twice. *)
Theorem snapshot_samples_rows_without_replacement (rows : list Row.t)
    (g : Rng) (data : PrecomputedData.t) :
  load_and_cache rows g = Ok data ->
  exists idxs,
    NoDup idxs
    /\ Forall2 (record_of_row rows) idxs (PrecomputedData.products data).
Proof.
  unfold load_and_cache. intros H. apply load_with_inv in H.
  destruct H as (res & g' & Hread & Hstats).
  destruct (compute_stats_ok res (List.length rows))
    as (data' & Hd & Hprod & _).
  assert (data' = data) by congruence. subst data'. rewrite Hprod.
  exact (read_rows_sample _ _ _ _ _ _ Hread).
Qed.

Lemma three_rows_sampled_without_replacement :
  exists data idxs,
    load_and_cache three_rows (constant_rng 0) = Ok data
    /\ NoDup idxs
    /\ Forall2 (record_of_row three_rows) idxs
         (PrecomputedData.products data).
Proof.
  assert (Hwf : Forall (fun r => Row.sample_id r <> Malformed) three_rows)
    by (repeat constructor; discriminate).
  destruct (load_with_total MAX_PRODUCTS three_rows (constant_rng 0) Hwf)
    as [data Hdata].
  destruct (snapshot_samples_rows_without_replacement three_rows
              (constant_rng 0) data Hdata) as (idxs & Hnd & Hall).
  exists data, idxs. split; [exact Hdata|]. now split.
Defined.

End SampleFacts.

(* ================================================================== *)
(** * The category tables of a snapshot *)
(* ================================================================== *)

Section CategoryFacts.
Local Open Scope R_scope.

Lemma insert_by_count_perm (x : string * Z) (l : list (string * Z)) :
  Permutation (x :: l) (insert_by_count x l).
Proof.
  induction l as [|y l IH]; simpl; [reflexivity|].
  destruct (snd y <=? snd x)%Z; [reflexivity|].
  rewrite perm_swap. now constructor.
Qed.

Lemma sorted_by_count_perm (l : list (string * Z)) :
  Permutation l (sorted_by_count l).
Proof.
  induction l as [|x l IH]; simpl; [constructor|].
  rewrite <- insert_by_count_perm. now constructor.
Qed.

Lemma insert_by_count_sorted (x : string * Z) (l : list (string * Z)) :
  StronglySorted (fun a b => (snd b <= snd a)%Z) l ->
  StronglySorted (fun a b => (snd b <= snd a)%Z) (insert_by_count x l).
Proof.
  induction 1 as [|y l Hl IH Hy]; simpl; [repeat constructor|].
  destruct (snd y <=? snd x)%Z eqn:E.
  - apply Z.leb_le in E. constructor; [now constructor|].
    constructor; [exact E|].
    eapply Forall_impl; [|exact Hy]. simpl. intros z Hz. lia.
  - apply Z.leb_gt in E. constructor; [exact IH|].
    apply Forall_forall. intros z Hz.
    apply (Permutation_in _ (Permutation_sym (insert_by_count_perm x l)))
      in Hz.
    destruct Hz as [<- | Hz]; [lia|].
    rewrite Forall_forall in Hy. now apply Hy.
Qed.

Lemma sorted_by_count_sorted (l : list (string * Z)) :
  StronglySorted (fun a b => (snd b <= snd a)%Z) (sorted_by_count l).
Proof.
  induction l as [|x l IH]; simpl; [constructor|].
  now apply insert_by_count_sorted.
Qed.

Lemma accumulate_keys (l : list Product.t) (c : string) :
  In c (map fst (cat_counts (accumulate l))) <->
  exists p, In p l /\ Product.category p = c.
Proof.
  induction l as [|p l IH] using rev_ind.
  - simpl. split; [intros [] | intros (p & [] & _)].
  - rewrite accumulate_snoc, accum_body_counts, dict_set_keys_in, IH.
    split.
    + intros [-> | (q & Hq & Hc)].
      * exists p. split; [apply in_or_app; right; now left | reflexivity].
      * exists q. split; [apply in_or_app; now left | exact Hc].
    + intros (q & Hq & Hc). apply in_app_or in Hq.
      destruct Hq as [Hq | [<- | []]]; [right; eauto | now left].
Qed.

Lemma dict_find_of_In {V : Type} (d : dict V) (k : string) (v : V) :
  NoDup (map fst d) -> In (k, v) d -> dict_find d k = Some v.
Proof.
  induction d as [|[k0 v0] d IH]; simpl; [intros _ []|].
  intros Hnd [Heq | Hin]; inversion Hnd as [|? ? Hk Hd]; subst.
  - inversion Heq; subst. now rewrite String.eqb_refl.
  - destruct (String.eqb k0 k) eqn:E; [|now apply IH].
    apply String.eqb_eq in E. subst k0. exfalso. apply Hk.
    apply in_map_iff. exists (k, v). now split.
Qed.

Lemma accumulate_counts_positive (l : list Product.t) :
  Forall (fun kv => 1 <= snd kv)%Z (cat_counts (accumulate l)).
Proof.
  induction l as [|p l IH] using rev_ind; [constructor|].
  rewrite accumulate_snoc, accum_body_counts. now apply dict_set_positive.
Qed.

(** The category table of a snapshot is ranked: its rows are in
    descending order of count, no category has two rows, the categories
    listed are exactly those of the records, and each row's count is the
    number of records of the category, so at least 1. *)
Theorem category_table_is_ranked (reservoir : list Product.t)
    (total_rows : nat) :
  exists data,
    compute_stats reservoir total_rows = Ok data
    /\ StronglySorted (fun a b => (snd b <= snd a)%Z)
         (PrecomputedData.category_counts data)
    /\ NoDup (map fst (PrecomputedData.category_counts data))
    /\ (forall c, In c (map fst (PrecomputedData.category_counts data)) <->
                  exists p, In p reservoir /\ Product.category p = c)
    /\ Forall (fun kv => (1 <= snd kv)%Z
                         /\ snd kv = count_category (fst kv) reservoir)
         (PrecomputedData.category_counts data).
Proof.
  destruct (compute_stats_ok reservoir total_rows)
    as (data & Hd & _ & Hcounts & _).
  exists data. split; [exact Hd|]. rewrite Hcounts.
  pose proof (sorted_by_count_perm (cat_counts (accumulate reservoir)))
    as Hperm.
  split; [apply sorted_by_count_sorted|]. split.
  { eapply Permutation_NoDup; [apply Permutation_map, Hperm|].
    apply accumulate_counts_nodup. }
  split.
  { intros c. rewrite sorted_by_count_keys. apply accumulate_keys. }
  apply Forall_forall. intros [k v] Hin.
  apply (Permutation_in _ (Permutation_sym Hperm)) in Hin.
  pose proof (accumulate_counts_positive reservoir) as Hpos.
  rewrite Forall_forall in Hpos. split; [exact (Hpos _ Hin)|].
  cbn [fst snd]. rewrite <- accumulate_count_category. unfold dict_get.
  now rewrite (dict_find_of_In _ k v (accumulate_counts_nodup reservoir) Hin).
Qed.




Lemma fsum_cons (x : R) (l : list R) : fsum (x :: l) = x + fsum l.
Proof. unfold fsum at 1. cbn [fold_left]. rewrite fsum_shift. lra. Qed.




End CategoryFacts.

(* ================================================================== *)
(** * When ingestion fails, and what the application does then *)
(* ================================================================== *)

Section IngestionFailure.
Import App.
Local Open Scope string_scope.

Lemma product_of_row_malformed (i : nat) (row : Row.t) :
  Row.sample_id row = Malformed -> product_of_row i row = Raise ValueError.
Proof.
  intros H. unfold product_of_row.
  destruct (_fast_parse_catalog _) as [[name bullets] desc].
  now rewrite H.
Qed.

(** The first row with a malformed sample id, if there is one. *)
Lemma first_malformed (rows : list Row.t) :
  Forall (fun r => Row.sample_id r <> Malformed) rows
  \/ exists pre bad post,
       rows = (pre ++ bad :: post)%list
       /\ Forall (fun r => Row.sample_id r <> Malformed) pre
       /\ Row.sample_id bad = Malformed.
Proof.
  induction rows as [|r rows IH]; [left; constructor|].
  destruct (Row.sample_id r) as [|z|] eqn:E.
  - destruct IH as [IH | (pre & bad & post & -> & Hpre & Hbad)].
    + left. constructor; [congruence | exact IH].
    + right. exists (r :: pre), bad, post.
      split; [reflexivity|]. split; [|exact Hbad].
      constructor; [congruence | exact Hpre].
  - destruct IH as [IH | (pre & bad & post & -> & Hpre & Hbad)].
    + left. constructor; [congruence | exact IH].
    + right. exists (r :: pre), bad, post.
      split; [reflexivity|]. split; [|exact Hbad].
      constructor; [congruence | exact Hpre].
  - right. exists [], r, rows. split; [reflexivity|]. split; [constructor|].
    exact E.
Qed.

Lemma load_with_malformed (K : nat) (pre post : list Row.t) (bad : Row.t)
    (g : Rng) :
  Forall (fun r => Row.sample_id r <> Malformed) pre ->
  Row.sample_id bad = Malformed ->
  load_with K (pre ++ bad :: post) g = Raise ValueError.
Proof.
  intros Hpre Hbad. unfold load_with, read_rows.
  rewrite loop_from_app.
  destruct (read_rows_total K pre g Hpre) as (res & g' & Hread).
  unfold read_rows in Hread. rewrite Hread. cbn [Py.bind loop_from].
  unfold loop_body. rewrite (product_of_row_malformed _ _ Hbad).
  reflexivity.
Qed.

Lemma ingestion_failure_raises (rows : list Row.t) (g : Rng) :
  Exists (fun r => Row.sample_id r = Malformed) rows ->
  exists e, load_and_cache rows g = Raise e.
Proof.
  intros Hex. unfold load_and_cache.
  destruct (first_malformed rows)
    as [Hwf | (pre & bad & post & -> & Hpre & Hbad)].
  - apply Exists_exists in Hex. destruct Hex as (r & Hin & Hr).
    rewrite Forall_forall in Hwf. now destruct (Hwf r Hin).
  - exists ValueError. now apply load_with_malformed.
Qed.


Lemma pick_target_spec {A : Type} (target : string * A)
    (csv_files : list (string * A)) :
  (Forall (fun f => contains "train" (lower (fst f)) = false) csv_files
   /\ pick_target target csv_files = target)
  \/ (exists pre post,
        csv_files = (pre ++ pick_target target csv_files :: post)%list
        /\ Forall (fun f => contains "train" (lower (fst f)) = false) pre
        /\ contains "train" (lower (fst (pick_target target csv_files)))
           = true).
Proof.
  induction csv_files as [|f t IH]; cbn [pick_target].
  - left. split; [constructor | reflexivity].
  - destruct (contains "train" (lower (fst f))) eqn:E.
    + right. exists [], t. split; [reflexivity|]. split; [constructor|].
      exact E.
    + destruct IH as [[Hall Heq] | (pre & post & Heq & Hpre & Htr)].
      * left. split; [now constructor | exact Heq].
      * right. exists (f :: pre), post. split; [|split].
        -- cbn [app]. now rewrite <- Heq.
        -- now constructor.
        -- exact Htr.
Qed.

(** The snapshot the application starts with.  Without a catalogue file
    it is the empty snapshot.  Otherwise the file read is the first one
    whose name contains train in any letter case, and the first file when
    there is none.  When the pickle file of that catalogue holds a
    snapshot that counts a record, that snapshot is taken without reading
    the catalogue; otherwise the catalogue is read, and when one of its
    rows has a sample id that does not convert the application starts
    with the empty snapshot instead of failing. *)
Theorem application_start_snapshot (first : string * list Row.t)
    (others : list (string * list Row.t)) (cache : string -> cache_file)
    (dump_ok : bool) (g : Rng) :
  let csv_files := first :: others in
  let target := pick_target first csv_files in
  App._load_data [] cache dump_ok g = PrecomputedData.empty
  /\ In target csv_files
  /\ ((Forall (fun f => contains "train" (lower (fst f)) = false) csv_files
       /\ target = first)
      \/ (exists pre post,
            csv_files = (pre ++ target :: post)%list
            /\ Forall (fun f => contains "train" (lower (fst f)) = false) pre
            /\ contains "train" (lower (fst target)) = true))
  /\ (forall d, cache (fst target) = Some d ->
                (0 < PrecomputedData.total_products d)%Z ->
                App._load_data csv_files cache dump_ok g = d)
  /\ ((forall d, cache (fst target) = Some d ->
                 (PrecomputedData.total_products d <= 0)%Z) ->
      (Exists (fun r => Row.sample_id r = Malformed) (snd target) ->
       App._load_data csv_files cache dump_ok g = PrecomputedData.empty)
      /\ (forall data, load_and_cache (snd target) g = Ok data ->
            App._load_data csv_files cache dump_ok g = data)).
Proof.
  cbv zeta.
  split; [reflexivity|].
  pose proof (pick_target_spec first (first :: others)) as Hpick.
  unfold App._load_data.
  remember (pick_target first (first :: others)) as target eqn:Ht.
  split.
  { destruct Hpick as [[_ Heq] | (pre & post & Heq & _)].
    - rewrite Heq. now left.
    - rewrite Heq. apply in_or_app. right. now left. }
  split; [exact Hpick|].
  unfold load_and_cache_file. split.
  - intros d Hd Hpos. rewrite Hd. apply Z.ltb_lt in Hpos. now rewrite Hpos.
  - intros Hmiss.
    assert (Hm : forall r : result (PrecomputedData.t * cache_file),
               match cache (fst target) with
               | Some data =>
                   if (0 <? PrecomputedData.total_products data)%Z
                   then Ok (data, cache (fst target)) else r
               | None => r
               end = r).
    { intros r. destruct (cache (fst target)) as [d|] eqn:E; [|reflexivity].
      specialize (Hmiss d eq_refl).
      replace (0 <? PrecomputedData.total_products d)%Z with false
        by (symmetry; apply Z.ltb_ge; lia).
      reflexivity. }
    rewrite Hm. split.
    + intros Hex.
      destruct (ingestion_failure_raises (snd target) g Hex) as [e ->].
      reflexivity.
    + intros data ->. reflexivity.
Qed.

End IngestionFailure.

(* ================================================================== *)
(** * The text bars of widgets.py and dashboard.py *)
(* ================================================================== *)

Section BarFacts.
Import Widgets.
Local Open Scope R_scope.







End BarFacts.

Section SparkFacts.
Import Widgets.
Local Open Scope R_scope.

Lemma firstn_min_length {A : Type} (k : nat) (l : list A) :
  firstn (Nat.min k (List.length l)) l = firstn k l.
Proof.
  destruct (Nat.le_ge_cases k (List.length l)) as [H | H].
  - now rewrite Nat.min_l.
  - rewrite Nat.min_r by exact H.
    now rewrite firstn_all, firstn_all2.
Qed.






End SparkFacts.

(* ================================================================== *)
(** * A run as it is stored, and the run button *)
(* ================================================================== *)

Section SavedRunFacts.
Import Storage PricingScreen.
Local Open Scope R_scope.

(** An action whose prices are on the grid of cents and whose reward is on
    the grid of four decimals is stored without loss. *)
Lemma action_record_exact (a : PricingAction.t) (x y : R) :
  PricingAction.old_price a = round_ndigits x 2 ->
  round_ndigits (PricingAction.new_price a) 2 = PricingAction.new_price a ->
  PricingAction.reward a = round_ndigits y 4 ->
  action_record_of a =
  mkActionRecord (PricingAction.step a) (PricingAction.old_price a)
    (PricingAction.new_price a) (PricingAction.reward a).
Proof.
  intros Ho Hn Hr. unfold action_record_of. rewrite Hn.
  rewrite Ho, Hr, !round_ndigits_idem. reflexivity.
Qed.

Lemma rollout_body_exact (product : Product.t) (k : Z) (st s : rollout) :
  rollout_body product k st = Ok s ->
  exists a, ro_actions s = (ro_actions st ++ [a])%list
            /\ action_record_of a =
               mkActionRecord (PricingAction.step a)
                 (PricingAction.old_price a) (PricingAction.new_price a)
                 (PricingAction.reward a).
Proof.
  unfold rollout_body.
  destruct (simulate_step_shape (ro_self st) product (ro_current_market st)
              (ro_current_price st) (ro_clock st))
    as (np & a & m' & g' & Hnp & _ & -> & _ & _ & _ & _ & Hold & Hnew
        & Hrew & _).
  cbn [Py.bind]. intros H. inversion H; subst s. cbn [ro_actions].
  eexists. split; [reflexivity|].
  assert (Hgrid : round_ndigits np 2 = np).
  { destruct (suggest_price_on_grid (ro_self st) product (ro_current_market st))
      as (np' & Hnp' & _ & Hg). congruence. }
  eapply action_record_exact; destruct a; cbn in *; subst; eauto.
Qed.

Lemma rollout_loop_exact (product : Product.t) (n : nat) :
  forall k st s,
    rollout_loop product n k st = Ok s ->
    Forall (fun a => action_record_of a =
                     mkActionRecord (PricingAction.step a)
                       (PricingAction.old_price a) (PricingAction.new_price a)
                       (PricingAction.reward a)) (ro_actions st) ->
    Forall (fun a => action_record_of a =
                     mkActionRecord (PricingAction.step a)
                       (PricingAction.old_price a) (PricingAction.new_price a)
                       (PricingAction.reward a)) (ro_actions s).
Proof.
  induction n as [|n IH]; intros k st s H Hst; cbn [rollout_loop] in H.
  - inversion H; subst. exact Hst.
  - apply bind_ok_inv in H. destruct H as (s1 & Hbody & Hloop).
    apply (IH _ _ _ Hloop).
    destruct (rollout_body_exact _ _ _ _ Hbody) as (a & -> & Ha).
    apply Forall_app. split; [exact Hst | now constructor].
Qed.

(** What a run is stored as. *)
Lemma run_record_exact (self : DynamicPricingEngine) (product : Product.t)
    (market : MarketState.t) (steps : option Z) (clk : Clock)
    (r : SimulationResult.t) (e : DynamicPricingEngine) (c : Clock) :
  run_simulation self product market steps clk = Ok (r, e, c) ->
  exists rec pct,
    record_of r = Ok rec
    /\ SimulationResult.price_change_pct r = Ok pct
    /\ rec = mkRecord (SimulationResult.product_id r)
               (SimulationResult.product_name r)
               (SimulationResult.total_reward r)
               (SimulationResult.avg_reward r)
               (SimulationResult.initial_price r)
               (SimulationResult.final_price r)
               (SimulationResult.steps r)
               (round_ndigits pct 2)
               (map (fun a => mkActionRecord (PricingAction.step a)
                                (PricingAction.old_price a)
                                (PricingAction.new_price a)
                                (PricingAction.reward a))
                    (SimulationResult.actions r)).
Proof.
  unfold run_simulation. intros H.
  apply bind_ok_inv in H. destruct H as (st & Hloop & H).
  apply bind_ok_inv in H. destruct H as (avg & _ & H).
  apply bind_ok_inv in H. destruct H as (hi & _ & H).
  apply bind_ok_inv in H. destruct H as (lo & _ & H).
  inversion H; subst r e c. clear H.
  pose proof (rollout_loop_exact _ _ _ _ _ Hloop (Forall_nil _)) as Hacts.
  unfold record_of.
  match goal with
  | |- context [SimulationResult.price_change_pct ?r] =>
      assert (Hpct : exists pct, SimulationResult.price_change_pct r = Ok pct)
  end.
  { unfold SimulationResult.price_change_pct.
    cbn [SimulationResult.initial_price SimulationResult.final_price].
    destruct (Req_dec_T _ 0) as [Hz|Hnz]; [eauto|].
    rewrite fdiv_ok by exact Hnz. cbn [Py.bind]. eauto. }
  destruct Hpct as (pct & Hpct). rewrite Hpct. cbn [Py.bind].
  eexists. exists pct. split; [reflexivity|]. split; [reflexivity|].
  cbn [SimulationResult.product_id SimulationResult.product_name
       SimulationResult.total_reward SimulationResult.avg_reward
       SimulationResult.initial_price SimulationResult.final_price
       SimulationResult.steps SimulationResult.actions].
  rewrite !round_ndigits_idem. f_equal.
  apply map_ext_in. intros a Ha. rewrite Forall_forall in Hacts.
  now apply Hacts.
Qed.

(** A run is stored without loss: the record written to the history file
    carries the run's product, step count, total and average reward,
    initial and final price unchanged, and one entry per action with the
    action's step number, old price, new price and reward unchanged; the
    rounding that saving applies changes none of them, as the run has
    rounded them already.  Only the percentage of change is rounded, to
    two decimals.  The record is the last entry of the file written. *)
Theorem run_is_stored_without_loss (self : DynamicPricingEngine)
    (product : Product.t) (market : MarketState.t) (steps : option Z)
    (clk : Clock) (file : simulations_file) :
  exists r e c rec pct h,
    run_simulation self product market steps clk = Ok (r, e, c)
    /\ record_of r = Ok rec
    /\ save_simulation file r = Ok (Some (h ++ [rec])%list)
    /\ rec_product_id rec = Product.sample_id product
    /\ rec_product_name rec = take 60 (Product.name product)
    /\ rec_steps rec = SimulationResult.steps r
    /\ rec_total_reward rec = SimulationResult.total_reward r
    /\ rec_avg_reward rec = SimulationResult.avg_reward r
    /\ rec_initial_price rec = SimulationResult.initial_price r
    /\ rec_final_price rec = SimulationResult.final_price r
    /\ rec_actions rec =
       map (fun a => mkActionRecord (PricingAction.step a)
                       (PricingAction.old_price a)
                       (PricingAction.new_price a)
                       (PricingAction.reward a))
           (SimulationResult.actions r)
    /\ SimulationResult.price_change_pct r = Ok pct
    /\ rec_price_change_pct rec = round_ndigits pct 2.
Proof.
  destruct (run_simulation_shape self product market steps clk)
    as (r & e & c & hi & lo & Hrun & _).
  destruct (run_record_exact _ _ _ _ _ _ _ _ Hrun)
    as (rec & pct & Hrec & Hpct & Heq).
  exists r, e, c, rec, pct. eexists.
  split; [exact Hrun|]. split; [exact Hrec|].
  split; [exact (save_simulation_ok file r rec Hrec)|].
  rewrite Heq. cbn.
  unfold run_simulation in Hrun.
  apply bind_ok_inv in Hrun. destruct Hrun as (st & _ & H).
  apply bind_ok_inv in H. destruct H as (avg & _ & H).
  apply bind_ok_inv in H. destruct H as (hi' & _ & H).
  apply bind_ok_inv in H. destruct H as (lo' & _ & H).
  inversion H; subst r. cbn.
  repeat split; auto.
Qed.

End SavedRunFacts.

Section RunButtonFacts.
Import Storage PricingScreen.
Local Open Scope R_scope.

Variable int : string -> option Z.
Variable Random : Z -> Rng.

Lemma find_product_some (products : list Product.t) (pid : Z)
    (p : Product.t) :
  find_product products pid = Some p ->
  In p products /\ Product.sample_id p = pid.
Proof.
  induction products as [|q t IH]; cbn [find_product]; [discriminate|].
  destruct (Product.sample_id q =? pid)%Z eqn:E.
  - intros H. inversion H; subst. apply Z.eqb_eq in E. split; [now left|].
    exact E.
  - intros H. destruct (IH H). split; [now right | assumption].
Qed.

Lemma find_product_none (products : list Product.t) (pid : Z) :
  find_product products pid = None ->
  Forall (fun p => Product.sample_id p <> pid) products.
Proof.
  induction products as [|q t IH]; cbn [find_product]; [constructor|].
  destruct (Product.sample_id q =? pid)%Z eqn:E; [discriminate|].
  apply Z.eqb_neq in E. intros H. constructor; auto.
Qed.




End RunButtonFacts.

(* ================================================================== *)
(** * The catalogue screen: filter and pages *)
(* ================================================================== *)

Section CatalogFacts.
Import CatalogScreen.
Local Open Scope string_scope.

Lemma lower_char_idem (c : ascii) : lower_char (lower_char c) = lower_char c.
Proof. destruct c as [[] [] [] [] [] [] [] []]; reflexivity. Qed.

Lemma lower_idem (s : string) : lower (lower s) = lower s.
Proof.
  induction s as [|c s IH]; cbn [lower]; [reflexivity|].
  now rewrite lower_char_idem, IH.
Qed.

Lemma lower_truthy (s : string) : truthy (lower s) = truthy s.
Proof. now destruct s. Qed.

Lemma filter_keep_all {A : Type} (l : list A) :
  filter (fun _ => true) l = l.
Proof. induction l as [|x l IH]; cbn [filter]; congruence. Qed.

Lemma filter_twice {A : Type} (f g : A -> bool) (l : list A) :
  filter f (filter g l) = filter (fun x => g x && f x)%bool l.
Proof.
  induction l as [|x l IH]; [reflexivity|]. cbn [filter].
  destruct (g x); cbn [filter andb]; [destruct (f x)|]; now rewrite IH.
Qed.

(** Filtering shows the products of the selected category, if one is
    selected, whose lower-cased name contains the lower-cased search
    text, if one is typed, in the order of the catalogue, and goes back
    to the first page; the letter case of the search text does not
    matter.  With no category and no search text it shows the whole
    catalogue.  The page of a new screen and the page after filtering are
    pages of the screen. *)
Theorem catalog_filter_selects (products : list Product.t) (s : t)
    (search : string) :
  let s' := _apply_filter products s search in
  _page s' = 0%Z
  /\ page_in_range s'
  /\ page_in_range init
  /\ _category s' = _category s
  /\ (forall p,
        In p (_filtered s') <->
        In p products
        /\ match _category s with
           | Some c => c = "" \/ Product.category p = c
           | None => True
           end
        /\ (search = "" \/ occurs_in (lower search) (lower (Product.name p))))
  /\ (exists keep, _filtered s' = filter keep products)
  /\ _apply_filter products s (lower search) = s'
  /\ (_category s = None -> search = "" -> _filtered s' = products).
Proof.
  intros s'.
  assert (Hrange : forall l c, page_in_range (mk 0 l c)).
  { intros l c. unfold page_in_range, pages. cbn [_page _filtered]. lia. }
  split; [reflexivity|]. split; [apply Hrange|]. split; [apply Hrange|].
  split; [reflexivity|].
  unfold s', _apply_filter. cbn [_filtered].
  split; [|split; [|split]].
  - intros p.
    destruct (_category s) as [c|].
    + destruct c as [|c0 c1] eqn:Ec; cbn [truthy].
      * destruct search as [|a b]; cbn [truthy].
        -- intuition.
        -- rewrite filter_In, contains_iff. intuition discriminate.
      * destruct search as [|a b]; cbn [truthy].
        -- rewrite filter_In, String.eqb_eq. intuition discriminate.
        -- rewrite !filter_In, contains_iff, String.eqb_eq.
           intuition discriminate.
    + destruct search as [|a b]; cbn [truthy].
      * intuition.
      * rewrite filter_In, contains_iff. intuition discriminate.
  - destruct (_category s) as [c|]; [destruct (truthy c)|];
      destruct (truthy search);
      try (eexists; reflexivity);
      try (eexists; apply filter_twice);
      (exists (fun _ => true); symmetry; apply filter_keep_all).
  - rewrite lower_truthy, lower_idem. reflexivity.
  - intros -> ->. reflexivity.
Qed.

Lemma firstn_plus {A : Type} (a k : nat) (l : list A) :
  firstn (a + k) l = (firstn a l ++ firstn k (skipn a l))%list.
Proof.
  revert l; induction a as [|a IH]; intros l; [reflexivity|].
  destruct l as [|x l]; cbn [Nat.add firstn skipn app].
  - now rewrite firstn_nil.
  - now rewrite IH.
Qed.

(** [l[a:a+k]] *)
Lemma slice_page {A : Type} (l : list A) (a k : nat) :
  slice_list l (Z.of_nat a) (Z.of_nat a + Z.of_nat k) =
  firstn k (skipn a l).
Proof.
  unfold slice_list, clamp.
  replace (Z.of_nat a <? 0)%Z with false by (symmetry; apply Z.ltb_ge; lia).
  replace (Z.of_nat a + Z.of_nat k <? 0)%Z with false
    by (symmetry; apply Z.ltb_ge; lia).
  destruct (Nat.le_gt_cases a (List.length l)) as [Hle | Hgt].
  - replace (Z.to_nat (Z.min (Z.of_nat a) (Z.of_nat (List.length l))))
      with a by lia.
    replace (Z.to_nat (Z.min (Z.of_nat a + Z.of_nat k)
                         (Z.of_nat (List.length l))
                       - Z.min (Z.of_nat a) (Z.of_nat (List.length l))))
      with (Nat.min k (List.length (skipn a l)))
      by (rewrite length_skipn; lia).
    apply firstn_min_length.
  - replace (Z.to_nat (Z.min (Z.of_nat a + Z.of_nat k)
                         (Z.of_nat (List.length l))
                       - Z.min (Z.of_nat a) (Z.of_nat (List.length l))))
      with 0%nat by lia.
    rewrite (skipn_all2 l (n := a)) by lia. now rewrite firstn_nil.
Qed.

Lemma render_page_rows (k : nat) (l : list Product.t) (c : option string) :
  _render_page (mk (Z.of_nat k) l c) = firstn 200 (skipn (k * 200) l).
Proof.
  unfold _render_page, PAGE_SIZE. cbn [_page _filtered].
  replace (Z.of_nat k * 200)%Z with (Z.of_nat (k * 200)) by lia.
  change 200%Z with (Z.of_nat 200). apply slice_page.
Qed.

Lemma chunks_concat {A : Type} (k : nat) (l : list A) (m : nat) :
  List.concat (map (fun i => firstn k (skipn (i * k) l)) (seq 0 m)) =
  firstn (m * k) l.
Proof.
  induction m as [|m IH]; [reflexivity|].
  rewrite seq_S, map_app, concat_app, IH. cbn [map List.concat Nat.add].
  rewrite app_nil_r. replace (S m * k)%nat with (m * k + k)%nat by lia.
  symmetry. apply firstn_plus.
Qed.

Lemma pages_bound (n : Z) :
  (0 <= n)%Z ->
  let q := Z.max 1 ((n + 200 - 1) / 200) in
  (1 <= q /\ n <= q * 200 /\ (0 < n -> (q - 1) * 200 < n))%Z.
Proof.
  intros Hn q.
  pose proof (Z.div_mod (n + 200 - 1) 200 ltac:(lia)) as Hdm.
  pose proof (Z.mod_pos_bound (n + 200 - 1) 200 ltac:(lia)) as Hmod.
  subst q. set (d := ((n + 200 - 1) / 200)%Z) in *.
  set (r := ((n + 200 - 1) mod 200)%Z) in *. lia.
Qed.

(** The pages partition the filtered list: shown one after the other,
    from page 0 to the last page, they give every product of the list
    once, in order; no page shows more than 200 products. *)
Theorem catalog_pages_partition (l : list Product.t) (c : option string) :
  List.concat (map (fun k => _render_page (mk (Z.of_nat k) l c))
              (seq 0 (Z.to_nat (pages (mk 0 l c))))) = l
  /\ forall k, (List.length (_render_page (mk (Z.of_nat k) l c)) <= 200)%nat.
Proof.
  split.
  - erewrite map_ext; [|intros k; apply render_page_rows].
    rewrite chunks_concat. apply firstn_all2.
    unfold pages, PAGE_SIZE. cbn [_filtered].
    pose proof (pages_bound (Z.of_nat (List.length l)) ltac:(lia)) as Hb.
    cbv zeta in Hb. lia.
  - intros k. rewrite render_page_rows, length_firstn. lia.
Qed.



End CatalogFacts.

(* ================================================================== *)
(** * The category table of the dashboard *)
(* ================================================================== *)

Section DashboardFacts.
Import DashboardScreen.
Local Open Scope R_scope.




Lemma mapM_Forall2 {A B : Type} (f : A -> result B) (P : A -> B -> Prop)
    (l : list A) :
  (forall x, In x l -> exists y, f x = Ok y /\ P x y) ->
  exists ys, mapM f l = Ok ys /\ Forall2 P l ys.
Proof.
  induction l as [|x l IH]; intros H.
  - exists []. split; [reflexivity | constructor].
  - destruct (H x (or_introl eq_refl)) as (y & Hy & Py).
    destruct IH as (ys & Hys & HP); [intros z Hz; apply H; now right|].
    exists (y :: ys). cbn [mapM]. rewrite Hy, Hys. cbn [Py.bind].
    split; [reflexivity | now constructor].
Qed.


End DashboardFacts.

(* ================================================================== *)
(** * The analytics screen and the history it reads *)
(* ================================================================== *)

Section AnalyticsFacts.
Import AnalyticsScreen.
Local Open Scope R_scope.

Lemma fsum_app (l1 l2 : list R) : fsum (l1 ++ l2) = fsum l1 + fsum l2.
Proof. unfold fsum at 1. rewrite fold_left_app, fsum_shift. reflexivity. Qed.

Lemma fsum_zeros {A : Type} (l : list A) : fsum (map (fun _ => 0) l) = 0.
Proof.
  induction l as [|x l IH]; [reflexivity|].
  cbn [map]. rewrite fsum_cons, IH. lra.
Qed.

Lemma simulation_pct_ok (r : SimulationResult.t) :
  exists pct, SimulationResult.price_change_pct r = Ok pct.
Proof.
  unfold SimulationResult.price_change_pct.
  destruct (Req_dec_T (SimulationResult.initial_price r) 0) as [Hz | Hnz];
    [eauto|].
  rewrite fdiv_ok by exact Hnz. cbn [Py.bind]. eauto.
Qed.

Lemma live_pcts_ok (live : list SimulationResult.t) :
  exists pcts, mapM SimulationResult.price_change_pct live = Ok pcts.
Proof.
  induction live as [|r live [pcts IH]]; [now exists []|].
  destruct (simulation_pct_ok r) as [pct Hp].
  exists (pct :: pcts). cbn [mapM]. now rewrite Hp, IH.
Qed.

Lemma history_pcts (stored : list Storage.record)
    (live : list SimulationResult.t) (pcts : list R) :
  mapM SimulationResult.price_change_pct live = Ok pcts ->
  mapM price_change_pct_attr (map Stored stored ++ map Live live) =
  Ok (map (fun _ => 0) stored ++ pcts)%list.
Proof.
  intros H. induction stored as [|s stored IH]; cbn [map app mapM].
  - revert pcts H. induction live as [|r live IH]; intros pcts H.
    + exact H.
    + cbn [map mapM] in *. cbn [price_change_pct_attr].
      apply bind_ok_inv in H. destruct H as (pct & Hp & H).
      apply bind_ok_inv in H. destruct H as (rest & Hrest & H).
      inversion H; subst. rewrite Hp, (IH _ Hrest). reflexivity.
  - cbn [price_change_pct_attr Py.bind]. rewrite IH. reflexivity.
Qed.

Lemma history_rewards (stored : list Storage.record)
    (live : list SimulationResult.t) :
  fsum (map avg_reward_attr (map Stored stored ++ map Live live)) =
  fsum (map SimulationResult.avg_reward live).
Proof.
  rewrite map_app, fsum_app, !map_map. cbn [avg_reward_attr].
  rewrite fsum_zeros. rewrite (map_ext _ SimulationResult.avg_reward);
    [lra | reflexivity].
Qed.

(** The analytics screen on the history of the application: the entries
    loaded from the history file when it started, followed by the results
    of the runs since.  Drawing it never raises.  Every entry is counted,
    but only the results of this session are read: an entry loaded from
    the file has none of the attributes asked for, so it adds 0 to both
    averages and its row of the table shows a question mark and zeros.
    The averages are the sums over this session's results divided by the
    number of all entries, and 0 for an empty history.  The table shows
    the 50 most recent entries, newest first. *)
Theorem stored_history_reads_as_zeros (stored : list Storage.record)
    (live : list SimulationResult.t) :
  let h := (map Stored stored ++ map Live live)%list in
  let n := (List.length stored + List.length live)%nat in
  exists avg_r avg_c rows live_pcts,
    averages h = Ok (Z.of_nat n, avg_r, avg_c)
    /\ mapM SimulationResult.price_change_pct live = Ok live_pcts
    /\ (n <> 0%nat ->
        avg_r = fsum (map SimulationResult.avg_reward live) / INR n
        /\ avg_c = fsum live_pcts / INR n)
    /\ (n = 0%nat -> avg_r = 0 /\ avg_c = 0)
    /\ history_rows h = Ok rows
    /\ mapM history_row_of (rev (skipn (n - 50) h)) = Ok rows
    /\ List.length rows = Nat.min 50 n
    /\ (live = [] ->
        avg_r = 0 /\ avg_c = 0
        /\ Forall (fun row => row = mkHistoryRow "?" 0 0 0 0 0) rows).
Proof.
  intros h n.
  assert (Hlen : List.length h = n).
  { unfold h, n. now rewrite length_app, !length_map. }
  destruct (live_pcts_ok live) as [pcts Hpcts].
  pose proof (history_pcts stored live pcts Hpcts) as Hall. fold h in Hall.
  pose proof (history_rewards stored live) as Hrew. fold h in Hrew.
  assert (Hrows : exists rows,
             mapM history_row_of (rev (skipn (n - 50) h)) = Ok rows
             /\ Forall2 (fun s row =>
                           forall rec, s = Stored rec ->
                                       row = mkHistoryRow "?" 0 0 0 0 0)
                        (rev (skipn (n - 50) h)) rows).
  { apply mapM_Forall2. intros s _. destruct s as [rec | r].
    - eexists. split; [reflexivity|]. intros _ _. reflexivity.
    - cbn [history_row_of]. destruct (simulation_pct_ok r) as [pct ->].
      cbn [Py.bind]. eexists. split; [reflexivity|]. discriminate. }
  destruct Hrows as (rows & Hrows & Hshape).
  assert (Hslice : slice_from h (-50) = skipn (n - 50) h).
  { unfold slice_from, clamp. replace (-50 <? 0)%Z with true by reflexivity.
    rewrite Hlen. f_equal. lia. }
  assert (Havg : exists avg_r avg_c,
             averages h = Ok (Z.of_nat n, avg_r, avg_c)
             /\ (n <> 0%nat ->
                 avg_r = fsum (map SimulationResult.avg_reward live) / INR n
                 /\ avg_c = fsum pcts / INR n)
             /\ (n = 0%nat -> avg_r = 0 /\ avg_c = 0)).
  { unfold averages. rewrite Hlen.
    destruct (Z.of_nat n =? 0)%Z eqn:E.
    - apply Z.eqb_eq in E. cbn [Py.bind]. do 2 eexists.
      split; [reflexivity|]. split; [intros H; lia | now split]. 
    - apply Z.eqb_neq in E.
      assert (Hn : IZR (Z.of_nat n) <> 0) by (apply not_0_IZR; exact E).
      rewrite Hall. cbn [Py.bind]. rewrite !fdiv_ok by exact Hn.
      cbn [Py.bind]. do 2 eexists. split; [reflexivity|].
      split; [|intros H; lia]. intros _.
      rewrite Hrew, fsum_app, fsum_zeros, INR_IZR_INZ. split; [reflexivity|].
      f_equal. lra. }
  destruct Havg as (avg_r & avg_c & Havg & Hpos & Hzero).
  exists avg_r, avg_c, rows, pcts.
  split; [exact Havg|]. split; [exact Hpcts|]. split; [exact Hpos|].
  split; [exact Hzero|].
  split; [unfold history_rows; now rewrite Hslice|].
  split; [exact Hrows|]. split.
  { rewrite <- (Forall2_length Hshape), length_rev, length_skipn. lia. }
  intros ->. cbn [List.length] in n.
  assert (Hsum : fsum (map SimulationResult.avg_reward []) = 0) by reflexivity.
  assert (Hp0 : pcts = []) by (cbn in Hpcts; congruence).
  split; [|split].
  - destruct (Nat.eq_dec n 0) as [E|E]; [now apply Hzero|].
    destruct (Hpos E) as [-> _]. rewrite Hsum. unfold Rdiv. ring.
  - destruct (Nat.eq_dec n 0) as [E|E]; [now apply Hzero|].
    destruct (Hpos E) as [_ ->]. rewrite Hp0. unfold fsum, Rdiv. cbn. ring.
  - assert (Hst : Forall (fun s => exists rec, s = Stored rec)
                    (rev (skipn (n - 50) h))).
    { apply Forall_forall. intros s Hs. apply in_rev in Hs.
      assert (Hin : In s h).
      { rewrite <- (firstn_skipn (n - 50) h). apply in_or_app. now right. }
      unfold h in Hin. cbn [map] in Hin. rewrite app_nil_r in Hin.
      apply in_map_iff in Hin. destruct Hin as (rec & <- & _). eauto. }
    clear - Hshape Hst. induction Hshape as [|s row ss rows Hs Hrest IH];
      [constructor|].
    inversion Hst as [|? ? (rec & Hrec) Hst']; subst.
    constructor; [now apply (Hs rec) | now apply IH].
Qed.

End AnalyticsFacts.

(* ================================================================== *)
(** * The product detail screen *)
(* ================================================================== *)

Section DetailFacts.
Import ProductDetailScreen.
Local Open Scope string_scope.

Variable Random : Z -> Rng.

Lemma take_all (n : nat) (s : string) :
  (String.length s <= n)%nat -> take n s = s.
Proof.
  unfold take. revert n; induction s as [|c s IH]; intros n H.
  - now destruct n.
  - destruct n as [|n]; simpl in H; [lia|]. simpl. rewrite IH; [reflexivity|].
    lia.
Qed.

Lemma record_of_row_bounds (rows : list Row.t) (i : nat) (p : Product.t) :
  record_of_row rows i p ->
  (String.length (Product.bullet_points p) <= 200)%nat
  /\ (String.length (Product.description p) <= 300)%nat.
Proof.
  intros (row & _ & Hp). unfold product_of_row in Hp.
  pose proof (parsed_fields_shape (Row.catalog_content row)) as H.
  destruct (_fast_parse_catalog _) as [[name bullets] desc].
  destruct H as (_ & _ & Hb & Hd).
  apply bind_ok_inv in Hp. destruct Hp as (sid & _ & Hp).
  inversion Hp; subst. now split.
Qed.

Lemma generate_market_state_base (product : Product.t) (seed : option Z)
    (clk : Clock) :
  exists m clk',
    generate_market_state Random product seed clk = Ok (m, clk')
    /\ MarketState.current_price m =
       (if Rgt_dec (Product.price product) 0
        then Product.price product else 10%R)
    /\ MarketState.product_id m = Product.sample_id product.
Proof.
  unfold generate_market_state.
  destruct (uniform (-0.20) 0.20 _) as [u g1].
  destruct (randint_range 5 500 g1) as (j & g2 & Hj & _); [lia|].
  rewrite Hj. cbn [Py.bind].
  destruct (uniform 0.1 1.0 g2) as [e g3].
  destruct (uniform 0.5 2.0 g3) as [s g4].
  destruct (uniform (-3.0) (-0.5) g4) as [el g5].
  unfold MarketState.init. cbn [truthy now].
  do 2 eexists. split; [reflexivity|]. cbn.
  split; [|reflexivity]. destruct (Rgt_dec _ 0); [reflexivity | lra].
Qed.

(** The detail screen on a snapshot of the reader never raises.  Without
    a selected product, or when no product of the snapshot has the
    selected id, it reports that the product was not found.  Otherwise it
    shows the first product of that id: its features are its bullet
    points and its description is its description, both whole, as the
    cuts at 500 and 800 characters never shorten what the reader kept
    (200 and 300 characters at most); an empty description is replaced by
    a notice and empty bullet points are left out.  The market shown is
    generated for the product: its current price is the product's price,
    and 10.0 for a product without a positive price. *)
Theorem detail_screen_shows_whole_record (rows : list Row.t) (g : Rng)
    (data : PrecomputedData.t) (selected : option Z) (clk : Clock) :
  load_and_cache rows g = Ok data ->
  exists shown clk',
    on_mount Random (PrecomputedData.products data) selected clk =
      Ok (shown, clk')
    /\ match shown with
       | None =>
           forall pid, selected = Some pid ->
             Forall (fun p => Product.sample_id p <> pid)
                    (PrecomputedData.products data)
       | Some v =>
           exists p,
             selected = Some (Product.sample_id p)
             /\ PricingScreen.find_product (PrecomputedData.products data)
                  (Product.sample_id p) = Some p
             /\ In p (PrecomputedData.products data)
             /\ v_name v = Product.name p
             /\ v_id v = Product.sample_id p
             /\ v_features v =
                (if truthy (Product.bullet_points p)
                 then Some (Product.bullet_points p) else None)
             /\ v_desc v =
                (if truthy (Product.description p)
                 then Product.description p
                 else "No description available.")
             /\ MarketState.current_price (v_market v) =
                (if Rgt_dec (Product.price p) 0
                 then Product.price p else 10%R)
             /\ MarketState.product_id (v_market v) = Product.sample_id p
       end.
Proof.
  intros Hload.
  assert (Hsample : exists idxs,
             Forall2 (record_of_row rows) idxs
                     (PrecomputedData.products data)).
  { unfold load_and_cache in Hload. apply load_with_inv in Hload.
    destruct Hload as (res & g' & Hread & Hstats).
    destruct (compute_stats_ok res (List.length rows))
      as (data' & Hd & Hprod & _).
    assert (data' = data) by congruence. subst data'. rewrite Hprod.
    destruct (read_rows_sample _ _ _ _ _ _ Hread) as (idxs & _ & H).
    eauto. }
  destruct Hsample as (idxs & Hsample).
  unfold on_mount.
  destruct selected as [pid|].
  2:{ do 2 eexists. split; [reflexivity|]. intros pid H. discriminate H. }
  destruct (PricingScreen.find_product (PrecomputedData.products data) pid)
    as [p|] eqn:Efind.
  2:{ do 2 eexists. split; [reflexivity|]. intros pid' H.
      inversion H; subst. now apply find_product_none. }
  destruct (find_product_some _ _ _ Efind) as [Hin Hid].
  destruct (generate_market_state_base p None clk)
    as (m & clk' & Hgen & Hcur & Hmid).
  rewrite Hgen. cbn [Py.bind].
  do 2 eexists. split; [reflexivity|]. exists p.
  cbn [v_name v_id v_features v_desc v_market].
  assert (Hb : (String.length (Product.bullet_points p) <= 200)%nat
               /\ (String.length (Product.description p) <= 300)%nat).
  { clear - Hsample Hin. induction Hsample as [|i q idxs ps Hq Hrest IH];
      [contradiction|].
    destruct Hin as [<- | Hin]; [exact (record_of_row_bounds _ _ _ Hq)|].
    now apply IH. }
  destruct Hb as [Hb Hd].
  rewrite (take_all 500) by lia. rewrite (take_all 800) by lia.
  subst pid. repeat split; auto.
Qed.

End DetailFacts.

Lemma detail_screen_on_three_rows :
  exists data shown clk',
    load_and_cache three_rows (constant_rng 0) = Ok data
    /\ ProductDetailScreen.on_mount (fun _ => constant_rng 0)
         (PrecomputedData.products data) None (frozen_clock "t")
       = Ok (shown, clk').
Proof.
  assert (Hwf : Forall (fun r => Row.sample_id r <> Malformed) three_rows)
    by (repeat constructor; discriminate).
  destruct (load_with_total MAX_PRODUCTS three_rows (constant_rng 0) Hwf)
    as [data Hdata].
  destruct (detail_screen_shows_whole_record (fun _ => constant_rng 0)
              three_rows (constant_rng 0) data None (frozen_clock "t") Hdata)
    as (shown & clk' & Hshown & _).
  exists data, shown, clk'. split; [exact Hdata | exact Hshown].
Defined.
